(** * Flood-risk server (src/server.ts) and its page (src/unnamed/part_000):
      a shallow embedding and its properties

    The server has two request handlers, [POST /api/predict] and
    [GET /api/environmental-data].  Both mostly shuffle JavaScript values
    around: they read fields of parsed JSON, coerce them with [parseFloat],
    [||] and [toFixed], and branch on truthiness and on number comparisons.
    The embedding therefore starts with the part of the JavaScript runtime
    the handlers rely on (module [JS]) and then transcribes the handlers.
    Of the page it transcribes what happens to the form and to the result
    that is drawn: the handlers that fill the form, the one that stores the
    answer of the prediction endpoint, and the expressions that colour it.

    Conventions.
    - A JavaScript number is a binary64 float: Rocq's primitive [float].
    - A JavaScript string is a [string]; one character stands for one code
      unit (so the model carries the code units below 256).
    - An object produced by [JSON.parse] is a finite map from property names
      to values; its prototype is [Object.prototype].
    - Code that can throw returns a [result]. *)

From Stdlib Require Import ZArith Zpower Floats Ascii String DecimalString Lia.
From stdpp Require Import base strings gmap list.

#[local] Set Warnings "-inexact-float,-register-all".

(** ** Exceptions *)

Inductive result (A : Type) : Type :=
  | Ok (a : A)
  | Throw.
Arguments Ok {A} a.
Arguments Throw {A}.

#[global] Instance result_ret : MRet result := @Ok.
#[global] Instance result_bind : MBind result := fun A B k r =>
  match r with
  | Ok a => k a
  | Throw => Throw
  end.

(** [try { r } catch (e) { h }] for a block whose value is what it computed. *)
Definition try_catch {A : Type} (r : result A) (h : A) : A :=
  match r with
  | Ok a => a
  | Throw => h
  end.

Module JS.

(** ** Numbers and their decimal notation *)

(** The Number value of the decimal [M * 10^E] (negated when [neg]): the
    nearest binary64, ties to even.  A non-negative exponent gives an
    integer, which [binary_normalize] rounds; a negative one gives a quotient
    of two integers, which [SFdiv] rounds once. *)
Definition decimal_SF (neg : bool) (M E : Z) : spec_float :=
  match M with
  | Zpos m =>
      if (0 <=? E)%Z
      then binary_normalize prec emax (cond_Zopp neg (M * 10 ^ E)) 0 false
      else SFdiv prec emax (S754_finite neg m 0)
                           (S754_finite false (Z.to_pos (10 ^ (- E))) 0)
  | _ => S754_zero neg
  end.

Definition decimal (neg : bool) (M E : Z) : float := SF2Prim (decimal_SF neg M E).

Definition Z_to_string (z : Z) : string :=
  NilZero.string_of_uint (N.to_uint (Z.to_N z)).

Fixpoint zeros (n : nat) : string :=
  match n with
  | O => ""
  | S n => String "0"%char (zeros n)
  end.

(** A positive finite float [m * 2^e] as an exact fraction. *)
Definition ratio (m : positive) (e : Z) : Z * Z :=
  if (0 <=? e)%Z then (Zpos m * 2 ^ e, 1)%Z else (Zpos m, 2 ^ (- e))%Z.

(** The fraction [q] times [10^p]. *)
Definition scale10 (q : Z * Z) (p : Z) : Z * Z :=
  let (a, b) := q in
  if (0 <=? p)%Z then (a * 10 ^ p, b)%Z else (a, b * 10 ^ (- p))%Z.

(** The least [n], counting up from the start value, with [q < 10^n]. *)
Fixpoint decimal_exponent (fuel : nat) (q : Z * Z) (n : Z) : Z :=
  match fuel with
  | O => n
  | S fuel =>
      let (a, b) := scale10 q (- n) in
      if (a <? b)%Z then n else decimal_exponent fuel q (n + 1)
  end.

Definition rounds_to (m : positive) (e : Z) (s p : Z) : bool :=
  match decimal_SF false s p with
  | S754_finite false m' e' => (m =? m')%positive && (e =? e')%Z
  | _ => false
  end.

(** Number::toString, step 5: the shortest digit string [s] (of [k] digits)
    and the position [n] with [s * 10^(n-k)] rounding to [m * 2^e]; among two
    candidates of the same length, the closer one. *)
Fixpoint shortest (fuel : nat) (m : positive) (e n0 k : Z) : Z * Z :=
  let (a, b) := scale10 (ratio m e) (k - n0) in
  let lo := (a / b)%Z in
  let hi := (lo + 1)%Z in
  let r := (a mod b)%Z in
  let pick (s : Z) := if (s =? 10 ^ k)%Z then (1, n0 + 1)%Z else (s, n0) in
  match fuel with
  | O => pick lo
  | S fuel =>
      match rounds_to m e lo (n0 - k), rounds_to m e hi (n0 - k) with
      | true, true =>
          if (2 * r <? b)%Z then pick lo
          else if (b <? 2 * r)%Z then pick hi
          else if Z.even lo then pick lo else pick hi
      | true, false => pick lo
      | false, true => pick hi
      | false, false => shortest fuel m e n0 (k + 1)
      end
  end.

(** Number::toString, steps 6 to 11: the layout of the digits. *)
Definition layout (ds : string) (n : Z) : string :=
  let k := Z.of_nat (String.length ds) in
  if ((k <=? n) && (n <=? 21))%Z then ds +:+ zeros (Z.to_nat (n - k))
  else if ((0 <? n) && (n <=? 21))%Z then
    substring 0 (Z.to_nat n) ds +:+ "." +:+ substring (Z.to_nat n) (Z.to_nat (k - n)) ds
  else if ((-6 <? n) && (n <=? 0))%Z then "0." +:+ zeros (Z.to_nat (- n)) +:+ ds
  else
    let e := (n - 1)%Z in
    let es := (if (e <? 0)%Z then "-" else "+") +:+ Z_to_string (Z.abs e) in
    if (k =? 1)%Z then ds +:+ "e" +:+ es
    else substring 0 1 ds +:+ "." +:+ substring 1 (Z.to_nat (k - 1)) ds +:+ "e" +:+ es.

(** Number::toString(x) in radix 10. *)
Definition Number_toString (x : float) : string :=
  match Prim2SF x with
  | S754_nan => "NaN"
  | S754_zero _ => "0"
  | S754_infinity s => if s then "-Infinity" else "Infinity"
  | S754_finite s m e =>
      let n0 := decimal_exponent 700 (ratio m e) (-324) in
      let (d, n) := shortest 17 m e n0 1 in
      (if s then "-" else "") +:+ layout (Z_to_string d) n
  end.

(** Number.prototype.toFixed(f): the integer [n] nearest to [x * 10^f] (the
    larger of two), written with [f] digits after the point; numbers that are
    not finite or not below [10^21] are written by Number::toString. *)
Definition toFixed (x : float) (f : nat) : string :=
  match Prim2SF x with
  | S754_zero _ => "0" +:+ (if f is O then "" else "." +:+ zeros f)
  | S754_finite s m e =>
      let (a, b) := ratio m e in
      if (10 ^ 21 * b <=? a)%Z then Number_toString x
      else
        let n := ((2 * a * 10 ^ Z.of_nat f + b) / (2 * b))%Z in
        let ds := Z_to_string n in
        let k := String.length ds in
        let ds := if (k <=? f)%nat then zeros (f + 1 - k) +:+ ds else ds in
        let k := String.length ds in
        (if s then "-" else "") +:+
        (if f is O then ds
         else substring 0 (k - f) ds +:+ "." +:+ substring (k - f) f ds)
  | _ => Number_toString x
  end.

(** ** Values *)

Inductive value : Type :=
  | VUndefined
  | VNull
  | VBool (b : bool)
  | VNumber (n : float)
  | VString (s : string)
  | VArray (elems : list value)
  | VObject (props : gmap string value)
  (** an object of the runtime itself (a built-in function or prototype),
      known by its name *)
  | VNative (name : string).

(** ToBoolean. *)
Definition truthy (v : value) : bool :=
  match v with
  | VUndefined | VNull => false
  | VBool b => b
  | VNumber n => negb (is_nan n || is_zero n)
  | VString s => negb (String.eqb s "")
  | VArray _ | VObject _ | VNative _ => true
  end.

(** [a || b] *)
Definition logical_or (a b : value) : value := if truthy a then a else b.

(** [undefined] and [null]: what an optional chain [a?.k] stops at. *)
Definition nullish (v : value) : bool :=
  match v with
  | VUndefined | VNull => true
  | _ => false
  end.

(** ToString.  An array is joined with commas, [null] and [undefined]
    elements giving the empty string.  A plain object uses the inherited
    [toString] and gives "[object Object]", unless it has an own property
    [toString]: a property read from JSON is never callable, and neither is
    any [valueOf] the object could fall back on (the inherited one returns
    the object), so the conversion throws a TypeError. *)
Fixpoint to_string (v : value) : result string :=
  match v with
  | VUndefined => Ok "undefined"
  | VNull => Ok "null"
  | VBool b => Ok (if b then "true" else "false")
  | VNumber n => Ok (Number_toString n)
  | VString s => Ok s
  | VArray elems =>
      (fix join (l : list value) : result string :=
         match l with
         | [] => Ok ""
         | x :: r =>
             s ← (if nullish x then Ok "" else to_string x);
             match r with
             | [] => Ok s
             | _ => t ← join r; Ok (s +:+ "," +:+ t)
             end
         end) elems
  | VObject props =>
      match props !! "toString" with
      | Some _ => Throw
      | None => Ok "[object Object]"
      end
  | VNative name =>
      Ok (if String.eqb name "Object.prototype" then "[object Object]"
          else "function " +:+ name +:+ "() { [native code] }")
  end.

(** The properties every object inherits from [Object.prototype]. *)
Definition Object_prototype_names : list string :=
  [ "constructor"; "hasOwnProperty"; "isPrototypeOf"; "propertyIsEnumerable";
    "toLocaleString"; "toString"; "valueOf";
    "__defineGetter__"; "__defineSetter__"; "__lookupGetter__"; "__lookupSetter__";
    "__proto__" ].

Definition Object_prototype (key : string) : value :=
  if bool_decide (key ∈ Object_prototype_names) then
    VNative (if String.eqb key "constructor" then "Object"
             else if String.eqb key "__proto__" then "Object.prototype"
             else key)
  else VUndefined.

(** The index a property name denotes, if it is a canonical array index. *)
Definition array_index (key : string) : option nat :=
  match NilZero.uint_of_string key with
  | Some u =>
      let i := N.of_uint u in
      if String.eqb (NilZero.string_of_uint (N.to_uint i)) key
      then Some (N.to_nat i) else None
  | None => None
  end.

(** [v[key]] and [v.key]: own properties first, then the prototype chain.
    Reading a property of [undefined] or [null] throws.  Of the prototypes
    below [Object.prototype] (arrays, strings, numbers) only the indexed
    elements are modelled; the handlers read no other member of them. *)
Definition get (v : value) (key : string) : result value :=
  match v with
  | VUndefined | VNull => Throw
  | VObject props => Ok (default (Object_prototype key) (props !! key))
  | VArray elems =>
      Ok (match array_index key with
          | Some i => default VUndefined (elems !! i)
          | None => Object_prototype key
          end)
  | VString s =>
      Ok (match array_index key with
          | Some i => match String.get i s with
                      | Some c => VString (String c "")
                      | None => VUndefined
                      end
          | None => Object_prototype key
          end)
  | VBool _ | VNumber _ | VNative _ => Ok (Object_prototype key)
  end.

(** [v?.key], one link of an optional chain: [None] short-circuits the rest
    of the chain to [undefined]. *)
Definition get_opt (v : value) (key : string) : option value :=
  if nullish v then None else Some (try_catch (get v key) VUndefined).

(** [o[k]] with a computed key: ToPropertyKey, then the lookup. *)
Definition get_computed (o k : value) : result value :=
  key ← to_string k; get o key.

(** ** parseFloat *)

Definition is_white (c : ascii) : bool :=
  bool_decide (nat_of_ascii c ∈ [9; 10; 11; 12; 13; 32; 160]%nat).

Fixpoint trim_start (s : string) : string :=
  match s with
  | String c r => if is_white c then trim_start r else s
  | EmptyString => s
  end.

Definition is_digit (c : ascii) : bool :=
  let n := nat_of_ascii c in (48 <=? n)%nat && (n <=? 57)%nat.

(** The leading decimal digits of [s], and what follows them. *)
Fixpoint span_digits (s : string) : string * string :=
  match s with
  | String c r =>
      if is_digit c then let (ds, rest) := span_digits r in (String c ds, rest)
      else ("", s)
  | EmptyString => ("", "")
  end.

Fixpoint digits_value_from (acc : Z) (ds : string) : Z :=
  match ds with
  | String c r => digits_value_from (10 * acc + Z.of_nat (nat_of_ascii c - 48)) r
  | EmptyString => acc
  end.
Definition digits_value (ds : string) : Z := digits_value_from 0 ds.

(** The value of the ExponentPart [s] starts with, 0 when it starts with none. *)
Definition exponent_part (s : string) : Z :=
  match s with
  | String c r =>
      if bool_decide (c = "e"%char ∨ c = "E"%char) then
        let (neg, r') := match r with
                         | String "+"%char t => (false, t)
                         | String "-"%char t => (true, t)
                         | _ => (false, r)
                         end in
        let (ds, _) := span_digits r' in
        if String.eqb ds "" then 0%Z
        else if neg then (- digits_value ds)%Z else digits_value ds
      else 0%Z
  | EmptyString => 0%Z
  end.

(** The longest prefix of [s] that is a StrUnsignedDecimalLiteral, as a
    number; NaN when no prefix is one. *)
Definition unsigned_literal (neg : bool) (s : string) : float :=
  if String.prefix "Infinity" s then (if neg then neg_infinity else infinity)
  else
    let (ip, r1) := span_digits s in
    let (fp, r2) := match r1 with
                    | String "."%char t => span_digits t
                    | _ => ("", r1)
                    end in
    if String.eqb ip "" && String.eqb fp "" then nan
    else decimal neg (digits_value (ip +:+ fp))
                 (exponent_part r2 - Z.of_nat (String.length fp)).

Definition decimal_literal (s : string) : float :=
  match s with
  | String "+"%char t => unsigned_literal false t
  | String "-"%char t => unsigned_literal true t
  | _ => unsigned_literal false s
  end.

(** [parseFloat(v)]: the argument is converted to a string, leading white
    space is dropped, and the longest decimal literal at the start is read. *)
Definition parseFloat (v : value) : result float :=
  s ← to_string v; Ok (decimal_literal (trim_start s)).

(** ** Arithmetic on values, as the handlers use it *)

(** [v + j] for a number [j]: numeric addition when [v] converts to a number
    without passing through a string, concatenation otherwise. *)
Definition add_number (v : value) (j : float) : result value :=
  match v with
  | VNumber a => Ok (VNumber (a + j))
  | VBool b => Ok (VNumber ((if b then 1 else 0) + j))
  | VNull => Ok (VNumber (0 + j))
  | VUndefined => Ok (VNumber (nan + j))
  | _ => s ← to_string v; Ok (VString (s +:+ Number_toString j))
  end.

(** [v.toFixed(f)]: only numbers have the method; calling what is not a
    function throws a TypeError. *)
Definition call_toFixed (v : value) (f : nat) : result string :=
  match v with
  | VNumber x => Ok (toFixed x f)
  | _ => Throw
  end.

End JS.

Import JS.

(** ** HTTP *)

(** What a handler answers: [res.status(s).json(body)]; the status is 200
    when the handler does not set it. *)
Record response : Type := Response { status : Z; json : value }.

(** What [await fetch(url)] gives when it does not throw: the [ok] flag of
    the response and what [await response.json()] gives. *)
Record fetched : Type := Fetched { ok : bool; body_json : result value }.

(** ** The training set (src/server.ts, lines 15 to 34) *)

Definition trainingData : list (list float) :=
  [ [50; 100; 50; 52; 3]; [0; 0];
    [200; 5; 2; 1; 1]; [1; 1];
    [150; 10; 5; 4; 1]; [1; 1];
    [20; 200; 150; 152; 3]; [0; 0];
    [300; 2; 1; 1; 1]; [1; 1];
    [80; 50; 20; 22; 2]; [0; 0];
    [120; 15; 8; 7; 2]; [0; 1];
    [180; 8; 4; 3; 1]; [1; 1];
    [40; 120; 80; 82; 3]; [0; 0];
    [250; 5; 3; 2; 1]; [1; 1];
    [60; 40; 15; 16; 2]; [0; 0];
    [220; 12; 6; 5; 1]; [1; 1];
    [10; 300; 250; 252; 3]; [0; 0];
    [100; 20; 10; 11; 2]; [0; 0];
    [140; 18; 9; 8; 1]; [0; 1] ]%float.

(** [l.filter((_, i) => p(i))], the indices counted from [i]. *)
Fixpoint filter_index {A : Type} (p : nat -> bool) (i : nat) (l : list A) : list A :=
  match l with
  | [] => []
  | x :: r => if p i then x :: filter_index p (S i) r else filter_index p (S i) r
  end.

Definition X : list (list float) :=
  filter_index (fun i => (i mod 2 =? 0)%nat) 0 trainingData.

(** [l => l[0]] is [head]: [None] stands for [undefined]. *)
Definition y : list (option float) :=
  map head (filter_index (fun i => negb (i mod 2 =? 0)%nat) 0 trainingData).

(** ** The classifier

    [RandomForestClassifier] comes from the package ml-random-forest, which
    is not part of the repository.  The handler sees the trained forest [rf]
    through two calls on the one-row matrix [[input]]:
    - [predict input] is [rf.predict([input])[0]], the label;
    - [predictProbability input] is [rf.predictProbability([input])[0]],
      the class probabilities of the row, entry 1 being the one of the flood
      class.  [Throw] stands for every way of not getting them: the method
      does not exist, the call throws, or there is no row to index.  The
      handler reads member 1 of the answer and nothing else; an answer that
      has no member 1 (a number for the row, or an array of one class) is a
      list without entry 1. *)
Record classifier : Type := Classifier {
  predict : list value -> result float;
  predictProbability : list value -> result (list float)
}.

(** ** POST /api/predict (src/server.ts, lines 42 to 83) *)

Definition drainageSystemMap : value :=
  VObject {[ "Fair" := VNumber 1; "Good" := VNumber 2; "Very Good" := VNumber 3 ]}.

(** [drainageSystemMap[drainageSystem] || 2] *)
Definition drainageValue (drainageSystem : value) : result value :=
  code ← get_computed drainageSystemMap drainageSystem;
  Ok (logical_or code (VNumber 2)).

(** [parseFloat(field) || 0] *)
Definition parse_or_0 (field : value) : result value :=
  n ← parseFloat field;
  Ok (logical_or (VNumber n) (VNumber 0)).

(** The destructuring of [req.body] and the array [input]. *)
Definition input (body : value) : result (list value) :=
  rainfall ← get body "rainfall";
  altitude ← get body "altitude";
  areaElevation ← get body "areaElevation";
  roadElevation ← get body "roadElevation";
  drainageSystem ← get body "drainageSystem";
  drainage ← drainageValue drainageSystem;
  r ← parse_or_0 rainfall;
  a ← parse_or_0 altitude;
  ae ← parse_or_0 areaElevation;
  re ← parse_or_0 roadElevation;
  Ok [r; a; ae; re; drainage].

(** [probabilities[1] || 0], where [None] stands for [undefined]. *)
Definition entry_or_0 (entry : option float) : float :=
  match entry with
  | Some p => if is_nan p || is_zero p then 0 else p
  | None => 0
  end.

(** The inner [try]/[catch] of the handler (lines 65 to 72). *)
Definition floodProb (rf : classifier) (input : list value) (prediction : float) : float :=
  try_catch
    (probabilities ← predictProbability rf input;
     Ok (entry_or_0 (probabilities !! 1%nat)))
    (if (prediction =? 1)%float then 0.85 else 0.15)%float.

Definition prediction_label (prediction : float) : string :=
  if (prediction =? 1)%float then "Flood Likely" else "No Flood Expected".

Definition riskLevel (floodProb : float) : string :=
  if (0.7 <? floodProb)%float then "High"
  else if (0.4 <? floodProb)%float then "Medium"
  else "Low".

Definition predict_ok (prediction floodProb : float) : response :=
  {| status := 200;
     json := VObject {[ "prediction" := VString (prediction_label prediction);
                        "probability" := VString (toFixed (floodProb * 100) 2);
                        "riskLevel" := VString (riskLevel floodProb) ]} |}.

Definition predict_failed : response :=
  {| status := 500;
     json := VObject {[ "error" := VString "Failed to process prediction" ]} |}.

Definition post_predict (rf : classifier) (body : value) : response :=
  try_catch
    (input ← input body;
     prediction ← predict rf input;
     Ok (predict_ok prediction (floodProb rf input prediction)))
    predict_failed.

(** ** GET /api/environmental-data (src/server.ts, lines 85 to 130) *)

Definition weather_url (lat lng : string) : string :=
  "https://api.open-meteo.com/v1/forecast?latitude=" +:+ lat +:+ "&longitude=" +:+ lng
  +:+ "&daily=precipitation_sum&timezone=auto".

Definition elevation_url (lat lng : string) : string :=
  "https://api.open-elevation.com/api/v1/lookup?locations=" +:+ lat +:+ "," +:+ lng.

(** Lines 93 to 102: [weatherData.daily?.precipitation_sum?.[0] || 0], or the
    initial 0 when the response is not ok or anything in the block throws. *)
Definition rainfall_of (fetch : string -> result fetched) (lat lng : value) : value :=
  try_catch
    (la ← to_string lat;
     ln ← to_string lng;
     weatherRes ← fetch (weather_url la ln);
     if ok weatherRes then
       weatherData ← body_json weatherRes;
       daily ← get weatherData "daily";
       Ok (logical_or (default VUndefined
                 (sums ← get_opt daily "precipitation_sum"; get_opt sums "0"))
              (VNumber 0))
     else Ok (VNumber 0))
    (VNumber 0).

(** Lines 105 to 114: [elevationData.results?.[0]?.elevation || 0], likewise. *)
Definition altitude_of (fetch : string -> result fetched) (lat lng : value) : value :=
  try_catch
    (la ← to_string lat;
     ln ← to_string lng;
     elevationRes ← fetch (elevation_url la ln);
     if ok elevationRes then
       elevationData ← body_json elevationRes;
       results ← get elevationData "results";
       Ok (logical_or (default VUndefined
                 (first ← get_opt results "0"; get_opt first "elevation"))
              (VNumber 0))
     else Ok (VNumber 0))
    (VNumber 0).

Definition environmental_bad_request : response :=
  {| status := 400;
     json := VObject {[ "error" := VString "Latitude and longitude are required" ]} |}.

Definition environmental_failed : response :=
  {| status := 500;
     json := VObject {[ "error" := VString "Failed to fetch environmental data" ]} |}.

(** The jitter of the two simulated elevations, from a draw of [Math.random()]. *)
Definition area_jitter (r : float) : float := (r * 2 - 1)%float.
Definition road_jitter (r : float) : float := (r * 0.5 - 0.25)%float.

(** The handler.  [fetch] is the network as the request finds it; [r1] and
    [r2] are the two draws of [Math.random()], in the order of the calls. *)
Definition get_environmental_data
    (fetch : string -> result fetched) (r1 r2 : float) (query : gmap string value)
    : response :=
  let lat := default VUndefined (query !! "lat") in
  let lng := default VUndefined (query !! "lng") in
  if negb (truthy lat) || negb (truthy lng) then environmental_bad_request
  else
    try_catch
      (let rainfall := rainfall_of fetch lat lng in
       let altitude := altitude_of fetch lat lng in
       areaElevation ← add_number altitude (area_jitter r1);
       roadElevation ← add_number altitude (road_jitter r2);
       s_rainfall ← call_toFixed rainfall 1;
       s_altitude ← call_toFixed altitude 1;
       s_area ← call_toFixed areaElevation 1;
       s_road ← call_toFixed roadElevation 1;
       Ok {| status := 200;
             json := VObject {[ "rainfall" := VString s_rainfall;
                                "altitude" := VString s_altitude;
                                "areaElevation" := VString s_area;
                                "roadElevation" := VString s_road ]} |})
      environmental_failed.

(** ** Reading a response *)

Definition field (r : response) (key : string) : option value :=
  match json r with
  | VObject props => props !! key
  | _ => None
  end.

(** ** The client (src/unnamed/part_000)

    The page keeps the five fields of the form in the state [inputs], an
    object, and the last answer of the prediction endpoint in [result].
    The embedding follows these two pieces of state through the handlers
    that write them, and through the expressions that draw [result]. *)

(** What the browser's [fetch] makes of an answer of the server: [ok] holds
    for the statuses 200 to 299, and [response.json()] parses the text
    [res.json] wrote.  The handlers answer with objects of strings, which
    JSON carries unchanged. *)
Definition http (r : response) : fetched :=
  {| ok := (200 <=? status r)%Z && (status r <=? 299)%Z;
     body_json := Ok (json r) |}.

(** The initial state of the form (lines 50 to 56). *)
Definition initial_inputs : gmap string value :=
  {[ "rainfall" := VString "0"; "altitude" := VString "0";
     "areaElevation" := VString "0"; "roadElevation" := VString "0";
     "drainageSystem" := VString "Good" ]}.

(** [setInputs({...inputs, [name]: e.target.value})], the [onChange] of the
    four number inputs and of the select; the value of a form control is a
    string. *)
Definition edit (name text : string) (inputs : gmap string value) : gmap string value :=
  <[ name := VString text ]> inputs.

Definition environmental_data_url (lat lng : string) : string :=
  "/api/environmental-data?lat=" +:+ lat +:+ "&lng=" +:+ lng.

(** The updater of a successful refresh (lines 70 to 76).  It runs when the
    state is next computed, outside the [try] of [fetchAutoData]: reading a
    field of a [data] that is [null] throws there. *)
Definition refreshed (data : value) (prev : gmap string value) : result (gmap string value) :=
  rainfall ← get data "rainfall";
  altitude ← get data "altitude";
  areaElevation ← get data "areaElevation";
  roadElevation ← get data "roadElevation";
  Ok (<[ "roadElevation" := roadElevation ]>
        (<[ "areaElevation" := areaElevation ]>
           (<[ "altitude" := altitude ]>
              (<[ "rainfall" := rainfall ]> prev)))).

(** The updater of the [catch] (lines 81 to 87), for the four draws of
    [Math.random()] in the order of the calls. *)
Definition randomised (r1 r2 r3 r4 : float) (prev : gmap string value) : gmap string value :=
  <[ "roadElevation" := VString (toFixed (r4 * 100) 1) ]>
    (<[ "areaElevation" := VString (toFixed (r3 * 100) 1) ]>
       (<[ "altitude" := VString (toFixed (r2 * 100) 1) ]>
          (<[ "rainfall" := VString (toFixed (r1 * 50) 1) ]> prev))).

(** [fetchAutoData(lat, lng)] (lines 63 to 91), as what it makes of [inputs].
    [fetch] is the network as the call finds it, and [persist] is the rest of
    the [try] block after [setInputs], which ends with
    [localStorage.setItem]: when that throws, the [catch] queues its own
    updater behind the one of the refresh. *)
Definition fetchAutoData
    (fetch : string -> result fetched) (persist : result unit) (r1 r2 r3 r4 : float)
    (lat lng : value) (prev : gmap string value) : result (gmap string value) :=
  match (la ← to_string lat;
         ln ← to_string lng;
         response ← fetch (environmental_data_url la ln);
         if ok response then body_json response else Throw) with
  | Ok data =>
      next ← refreshed data prev;
      match persist with
      | Ok _ => Ok next
      | Throw => Ok (randomised r1 r2 r3 r4 next)
      end
  | Throw => Ok (randomised r1 r2 r3 r4 prev)
  end.

(** What happens to the form: a number input is typed into (lines 219, 232,
    256 and 265), a drainage option is chosen (line 240), or the
    environmental data are fetched. *)
Inductive event : Type :=
  | Typed (name text : string)
  | Chosen (option : string)
  | AutoData (fetch : string -> result fetched) (persist : result unit)
             (r1 r2 r3 r4 : float) (lat lng : value).

Definition step (e : event) (inputs : gmap string value) : result (gmap string value) :=
  match e with
  | Typed name text => Ok (edit name text inputs)
  | Chosen option => Ok (edit "drainageSystem" option inputs)
  | AutoData fetch persist r1 r2 r3 r4 lat lng =>
      fetchAutoData fetch persist r1 r2 r3 r4 lat lng inputs
  end.

Fixpoint run (events : list event) (inputs : gmap string value) : result (gmap string value) :=
  match events with
  | [] => Ok inputs
  | e :: events => next ← step e inputs; run events next
  end.

(** [handlePredict] (lines 148 to 163), as what it makes of [result]:
    [answer] is what the [fetch] of the prediction endpoint gives and [shown]
    the result shown so far.  The parsed body is stored whatever the status
    of the answer. *)
Definition handlePredict (answer : result fetched) (shown : value) : value :=
  try_catch (response ← answer; body_json response) shown.

(** [v === s] for a string [s]. *)
Definition is_string (v : value) (s : string) : bool :=
  match v with
  | VString t => String.eqb t s
  | _ => false
  end.

(** The fill colour of the circle on the risk map (lines 347 to 357); the
    circle is drawn when the result [shown] is truthy. *)
Definition fillColor (shown : value) : result string :=
  level ← get shown "riskLevel";
  if is_string level "High" then Ok "#ef4444"
  else
    level ← get shown "riskLevel";
    Ok (if is_string level "Medium" then "#f97316" else "#10b981").

Definition heatmap (shown : value) : result (option string) :=
  if truthy shown then color ← fillColor shown; Ok (Some color) else Ok None.

(** Whether the EVACUATE banner is shown (line 419). *)
Definition evacuate (shown : value) : result bool :=
  if truthy shown then level ← get shown "riskLevel"; Ok (is_string level "High")
  else Ok false.

(** ** Sample requests, forests and networks *)

(** The request of the spec's example. *)
Definition sample_body : value :=
  VObject {[ "rainfall" := VString "200"; "altitude" := VString "5";
             "areaElevation" := VString "2"; "roadElevation" := VString "1";
             "drainageSystem" := VString "Fair" ]}.

(** A forest that labels every row as flood and gives its class
    probabilities. *)
Definition forest_with_probabilities : classifier :=
  {| predict := fun _ => Ok 1%float;
     predictProbability := fun _ => Ok [0.1; 0.9]%float |}.

(** A forest without [predictProbability]: the call throws. *)
Definition forest_without_probabilities (label : float) : classifier :=
  {| predict := fun _ => Ok label;
     predictProbability := fun _ => Throw |}.

(** A forest whose [predictProbability] answers the row with a number and
    not with an array of class probabilities.  A number has no member 1:
    [probabilities[1]] is [undefined], as the entry 1 of a list without
    entries is. *)
Definition forest_row_number (label : float) : classifier :=
  {| predict := fun _ => Ok label;
     predictProbability := fun _ => Ok [] |}.

(** A request whose rainfall is the JSON object [{"toString": 1}]. *)
Definition unstringifiable_body : value :=
  VObject {[ "rainfall" := VObject {[ "toString" := VNumber 1 ]};
             "altitude" := VString "5";
             "areaElevation" := VString "2"; "roadElevation" := VString "1";
             "drainageSystem" := VString "Fair" ]}.

(** A request none of whose first three fields starts with a number. *)
Definition unparsable_body : value :=
  VObject {[ "rainfall" := VString "heavy"; "altitude" := VNull;
             "areaElevation" := VArray []; "roadElevation" := VString "1";
             "drainageSystem" := VString "Fair" ]}.

(** The request of the spec's example, with the drainage system "constructor". *)
Definition constructor_body : value :=
  VObject {[ "rainfall" := VString "200"; "altitude" := VString "5";
             "areaElevation" := VString "2"; "roadElevation" := VString "1";
             "drainageSystem" := VString "constructor" ]}.

(** A network in which the weather service is down and the elevation service
    answers with the elevation as text. *)
Definition weather_down_elevation_text (url : string) : result fetched :=
  if String.prefix "https://api.open-meteo.com/" url then Throw
  else Ok (Fetched true
             (Ok (VObject {[ "results" :=
                    VArray [VObject {[ "elevation" := VString "12" ]}] ]}))).

(** The query [?lat=27.7172&lng=85.3240]. *)
Definition kathmandu : gmap string value :=
  {[ "lat" := VString "27.7172"; "lng" := VString "85.3240" ]}.

(** A network in which both services answer: the precipitation sum of the
    day and the elevation of the place. *)
Definition network_with (precipitation elevation : value) (url : string) : result fetched :=
  if String.prefix "https://api.open-meteo.com/" url then
    Ok (Fetched true
          (Ok (VObject {[ "daily" :=
                 VObject {[ "precipitation_sum" := VArray [precipitation] ]} ]})))
  else
    Ok (Fetched true
          (Ok (VObject {[ "results" :=
                 VArray [VObject {[ "elevation" := elevation ]}] ]}))).

(** A network in which the weather service answers and the elevation
    service is down. *)
Definition elevation_down (precipitation : value) (url : string) : result fetched :=
  if String.prefix "https://api.open-meteo.com/" url then
    Ok (Fetched true
          (Ok (VObject {[ "daily" :=
                 VObject {[ "precipitation_sum" := VArray [precipitation] ]} ]})))
  else Throw.

(** A server that answers every environmental request of Kathmandu with
    12.34 mm of rain at 1400 m. *)
Definition sample_server (url : string) : result fetched :=
  Ok (http (get_environmental_data (network_with (VNumber 12.34) (VNumber 1400))
              0.75 0.5 kathmandu)).

Definition sample_events : list event :=
  [ Typed "rainfall" "120"; Chosen "Fair";
    AutoData sample_server (Ok ()) 0.5 0.5 0.5 0.5 (VNumber 27.7172) (VNumber 85.324);
    Typed "altitude" "" ].

(** ** The vocabulary of the properties *)

Definition numeric_fields : list string :=
  ["rainfall"; "altitude"; "areaElevation"; "roadElevation"].

Definition request_fields : list string := numeric_fields ++ ["drainageSystem"].

Definition drainage_names : list string := ["Fair"; "Good"; "Very Good"].

(** The weather call fails: [fetch] throws (a network error) or the response
    is not ok. *)
Definition weather_fails (fetch : string -> result fetched) (lat lng : value) : Prop :=
  forall la ln, to_string lat = Ok la -> to_string lng = Ok ln ->
    fetch (weather_url la ln) = Throw \/
    exists j, fetch (weather_url la ln) = Ok (Fetched false j).

(** The digits of a string. *)
Fixpoint all_digits (s : string) : bool :=
  match s with
  | String c r => is_digit c && all_digits r
  | EmptyString => true
  end.

(** Digits, a point, and one more digit. *)
Fixpoint digits_point_digit (s : string) : bool :=
  match s with
  | String c r =>
      if is_digit c then digits_point_digit r
      else if Ascii.eqb c "." then
        match r with
        | String d EmptyString => is_digit d
        | _ => false
        end
      else false
  | EmptyString => false
  end.

(** A number written with one decimal place: an optional minus sign, at
    least one digit, a point, one digit. *)
Definition one_decimal (s : string) : bool :=
  let unsigned := match s with
                  | String "-" r => r
                  | _ => s
                  end in
  match unsigned with
  | String c _ => is_digit c && digits_point_digit unsigned
  | EmptyString => false
  end.

(** The measure of a mantissa [m] at the exponent [e]: its value times
    [2^2200], an integer for every exponent the operations on binary64 meet. *)
Definition scaled (m e : Z) : Z := (m * 2 ^ (e + 2200))%Z.

(** The float a rounding ends with, for the mantissa and exponent it found. *)
Definition SF_of (s : bool) (m e : Z) : spec_float :=
  match m with
  | Z0 => S754_zero s
  | Zpos p => if (e <=? emax - prec)%Z then S754_finite s p e else S754_infinity s
  | Zneg _ => S754_nan
  end.

(** The float [2^k], for a normal [k]. *)
Definition pow2_SF (k : Z) : spec_float := S754_finite false 4503599627370496 (k - 52)%Z.

(** A value that is a number. *)
Definition is_number (v : value) : bool :=
  match v with
  | VNumber _ => true
  | _ => false
  end.

(** The elevation call fails: [fetch] throws or the response is not ok. *)
Definition elevation_fails (fetch : string -> result fetched) (lat lng : value) : Prop :=
  forall la ln, to_string lat = Ok la -> to_string lng = Ok ln ->
    fetch (elevation_url la ln) = Throw \/
    exists j, fetch (elevation_url la ln) = Ok (Fetched false j).

(** The network of the client is the server of this repository: whatever a
    [fetch] delivers is an answer of the environmental endpoint. *)
Definition from_server (fetch : string -> result fetched) : Prop :=
  forall url f, fetch url = Ok f ->
    exists net j1 j2 query, f = http (get_environmental_data net j1 j2 query).

(** The events the page offers: the four number inputs, the three options
    of the select, and a fetch that is answered by the server. *)
Definition ui_event (e : event) : Prop :=
  match e with
  | Typed name _ => name ∈ numeric_fields
  | Chosen option => option ∈ drainage_names
  | AutoData fetch _ _ _ _ _ _ _ => from_server fetch
  end.

(** The five fields are strings, and the drainage system is one of the
    three names. *)
Definition well_formed (inputs : gmap string value) : Prop :=
  (forall name, name ∈ numeric_fields -> exists s, inputs !! name = Some (VString s)) /\
  exists option, option ∈ drainage_names /\
    inputs !! "drainageSystem" = Some (VString option).

(** The place of a float in the order of the numbers: its class (negative
    infinity, negative, zero, positive, positive infinity), then its exponent
    and its mantissa, negated for the negative numbers. *)
Definition SF_rank (x : spec_float) : Z * Z * Z :=
  match x with
  | S754_nan | S754_zero _ => (0, 0, 0)%Z
  | S754_infinity s => (if s then -2 else 2, 0, 0)%Z
  | S754_finite s m e => if s then (-1, - e, - Zpos m)%Z else (1, e, Zpos m)%Z
  end.

Definition lex_compare (a b : Z * Z * Z) : comparison :=
  match (a.1.1 ?= b.1.1)%Z with
  | Eq => match (a.1.2 ?= b.1.2)%Z with
          | Eq => (a.2 ?= b.2)%Z
          | c => c
          end
  | c => c
  end.

(** The tiers in their order. *)
Definition tier (level : string) : nat :=
  if String.eqb level "High" then 2
  else if String.eqb level "Medium" then 1
  else 0.

(** A number written with [f] decimal places: an optional minus sign, at
    least one digit, a point, and exactly [f] digits. *)
Definition decimals (f : nat) (s : string) : bool :=
  let unsigned := match s with
                  | String c r => if Ascii.eqb c "-" then r else s
                  | EmptyString => s
                  end in
  let (ip, rest) := span_digits unsigned in
  negb (String.eqb ip "") &&
  match rest with
  | String c fp => Ascii.eqb c "." && all_digits fp && (String.length fp =? f)%nat
  | EmptyString => false
  end.

(** The four random values of the client's fallback, each with the factor of
    its draw. *)
Definition fallback_draws (r1 r2 r3 r4 : float) : list (string * float * float) :=
  [ ("rainfall", 50, r1); ("altitude", 100, r2);
    ("areaElevation", 100, r3); ("roadElevation", 100, r4) ]%float.

(** The value is, or holds in an array at any depth, an object with an own
    property [toString]. *)
Fixpoint has_own_toString (v : value) : bool :=
  match v with
  | VArray elems =>
      (fix any (l : list value) : bool :=
         match l with
         | [] => false
         | x :: r => has_own_toString x || any r
         end) elems
  | VObject props =>
      match props !! "toString" with
      | Some _ => true
      | None => false
      end
  | _ => false
  end.

(** *** Decimal literals

    What a string must start with for [parseFloat] to read a number. *)

(** White space only. *)
Fixpoint all_white (s : string) : bool :=
  match s with
  | String c r => is_white c && all_white r
  | EmptyString => true
  end.

(** The string has a first character, and it satisfies [P]. *)
Definition starts (P : ascii -> bool) (s : string) : bool :=
  match s with
  | String c _ => P c
  | EmptyString => false
  end.

Definition is_sign (c : ascii) : bool := Ascii.eqb c "+" || Ascii.eqb c "-".
Definition is_point (c : ascii) : bool := Ascii.eqb c ".".
Definition is_exponent_letter (c : ascii) : bool := Ascii.eqb c "e" || Ascii.eqb c "E".

(** A decimal literal as it is written: a sign or none, the digits before the
    point, the digits after the point when there is a point, and an exponent
    or none (the letter in upper case or not, a sign or none, digits). *)
Inductive sign_mark : Type := NoSign | Plus | Minus.

Record literal : Type := Literal {
  literal_sign : sign_mark;
  integer_digits : string;
  fraction_digits : option string;
  exponent_digits : option (bool * sign_mark * string)
}.

Definition sign_text (m : sign_mark) : string :=
  match m with
  | NoSign => ""
  | Plus => "+"
  | Minus => "-"
  end.

Definition negative (m : sign_mark) : bool :=
  match m with
  | Minus => true
  | _ => false
  end.

Definition fraction_of (l : literal) : string := default "" (fraction_digits l).

(** The parts of the literal, each written before what follows it. *)
Definition exponent_text (e : option (bool * sign_mark * string)) (rest : string) : string :=
  match e with
  | Some (upper, m, ds) =>
      String (if upper then "E" else "e")%char (sign_text m +:+ ds +:+ rest)
  | None => rest
  end.

Definition fraction_text (f : option string) (rest : string) : string :=
  match f with
  | Some ds => String "." (ds +:+ rest)
  | None => rest
  end.

(** The literal [l], followed by [rest]. *)
Definition literal_text (l : literal) (rest : string) : string :=
  sign_text (literal_sign l) +:+ integer_digits l +:+
  fraction_text (fraction_digits l) (exponent_text (exponent_digits l) rest).

(** Digits where digits are due, at least one of them before or after the
    point, and at least one in the exponent. *)
Definition literal_ok (l : literal) : bool :=
  all_digits (integer_digits l) && all_digits (fraction_of l) &&
  negb (String.eqb (integer_digits l) "" && String.eqb (fraction_of l) "") &&
  match exponent_digits l with
  | Some (_, _, ds) => all_digits ds && negb (String.eqb ds "")
  | None => true
  end.

Definition exponent_value (l : literal) : Z :=
  match exponent_digits l with
  | Some (_, m, ds) => if negative m then (- digits_value ds)%Z else digits_value ds
  | None => 0%Z
  end.

(** The number the literal denotes: the digits before and after the point as
    one integer, times ten to the exponent less the number of digits after
    the point; the nearest binary64, with the sign of the literal. *)
Definition literal_value (l : literal) : float :=
  decimal (negative (literal_sign l))
    (digits_value (integer_digits l +:+ fraction_of l))
    (exponent_value l - Z.of_nat (String.length (fraction_of l))).

(** [s] starts with an exponent: the letter, a sign or none, a digit. *)
Definition starts_exponent (s : string) : bool :=
  match s with
  | String c r =>
      is_exponent_letter c &&
      (starts is_digit r ||
       match r with
       | String d r' => is_sign d && starts is_digit r'
       | EmptyString => false
       end)
  | EmptyString => false
  end.

(** The literal [l] followed by [rest] is the start of a longer literal:
    [rest] goes on with a digit, with a point where [l] has neither point nor
    exponent, or with an exponent where [l] has none. *)
Definition continues (l : literal) (rest : string) : bool :=
  starts is_digit rest ||
  (bool_decide (fraction_digits l = None) && bool_decide (exponent_digits l = None) &&
   starts is_point rest) ||
  (bool_decide (exponent_digits l = None) && starts_exponent rest).

(** [s] starts with a number: after a sign or none, a digit, a point and a
    digit, or the word Infinity. *)
Definition starts_number (s : string) : bool :=
  let u := match s with
           | String c r => if is_sign c then r else s
           | EmptyString => s
           end in
  starts is_digit u ||
  match u with
  | String c r => is_point c && starts is_digit r
  | EmptyString => false
  end ||
  String.prefix "Infinity" u.

(** 3.5e1 and -2.50E-1. *)
Definition sample_literal : literal :=
  {| literal_sign := NoSign; integer_digits := "3"; fraction_digits := Some "5";
     exponent_digits := Some (false, NoSign, "1") |}.

Definition sample_negative_literal : literal :=
  {| literal_sign := Minus; integer_digits := "2"; fraction_digits := Some "50";
     exponent_digits := Some (true, Minus, "1") |}.

(** * Properties *)

(** ** The runtime on examples *)

Example Number_toString_examples :
  Number_toString <$> [0.1; 100; 1e21; 123.456; 1e-7; -2.5; 0.30000000000000004]%float
  = ["0.1"; "100"; "1e+21"; "123.456"; "1e-7"; "-2.5"; "0.30000000000000004"].
Proof. vm_compute. reflexivity. Qed.

Example toFixed_examples :
  (fun x => toFixed x 1) <$> [0; -0.04; 0.05; 0.25; 12.345; 9.96; 1e21; infinity]%float
  = ["0.0"; "-0.0"; "0.1"; "0.3"; "12.3"; "10.0"; "1e+21"; "Infinity"] /\
  (fun x => toFixed x 2) <$> [85; 15; 1.005; 0.7 * 100]%float
  = ["85.00"; "15.00"; "1.00"; "70.00"].
Proof. split; vm_compute; reflexivity. Qed.

Example parseFloat_examples :
  (fun s => parseFloat (VString s)) <$>
    ["200"; "  42"; "3.14"; ".5"; "5."; "-.5e-2"; "1e"; "0x10"; "-Infinityx";
     "abc"; ""; "."; "e5"]
  = Ok <$> [200; 42; 3.14; 0.5; 5; -0.005; 1; 0; neg_infinity;
            nan; nan; nan; nan]%float /\
  parseFloat <$> [VUndefined; VNull; VBool true; VNumber 12.5; VArray [];
                  VArray [VString "5"; VNumber 2]; VObject ∅]
  = Ok <$> [nan; nan; nan; 12.5; nan; 5; nan]%float.
Proof. split; vm_compute; reflexivity. Qed.

Example get_examples :
  get (VObject {[ "a" := VNumber 1 ]}) "a" = Ok (VNumber 1) /\
  get (VObject {[ "a" := VNumber 1 ]}) "b" = Ok VUndefined /\
  get (VObject {[ "a" := VNumber 1 ]}) "toString" = Ok (VNative "toString") /\
  get (VArray [VNumber 3]) "0" = Ok (VNumber 3) /\
  get (VArray [VNumber 3]) "1" = Ok VUndefined /\
  get VNull "a" = Throw.
Proof. repeat split; vm_compute; reflexivity. Qed.

(** ** The order of numbers

    The comparisons of [float] are specified by those of [spec_float]; the
    facts below are the part of the order the handlers' thresholds need. *)

Lemma SFcompare_antisym (x y : spec_float) :
  SFcompare y x = CompOpp <$> SFcompare x y.
Proof.
  destruct x as [sx|sx| |sx mx ex], y as [sy|sy| |sy my ey]; simpl;
    try reflexivity;
    try (destruct sx; reflexivity); try (destruct sy; reflexivity);
    try (destruct sx, sy; reflexivity).
  destruct sx, sy; simpl; try reflexivity; f_equal;
    rewrite (Z.compare_antisym ex ey);
    destruct (ex ?= ey)%Z; simpl; try reflexivity;
    change (Pos.compare_cont Eq my mx) with (my ?= mx)%positive;
    change (Pos.compare_cont Eq mx my) with (mx ?= my)%positive;
    rewrite (Pos.compare_antisym mx my);
    destruct (mx ?= my)%positive; reflexivity.
Qed.

Lemma is_nan_false_compare (x : float) :
  is_nan x = false -> SFcompare (Prim2SF x) (Prim2SF x) = Some Eq.
Proof.
  unfold is_nan. rewrite FloatAxioms.eqb_spec. unfold SFeqb.
  destruct (SFcompare (Prim2SF x) (Prim2SF x)) as [[]|]; simpl; congruence.
Qed.

Lemma SFcompare_defined (x y : spec_float) :
  SFcompare x x = Some Eq -> SFcompare y y = Some Eq ->
  exists c, SFcompare x y = Some c.
Proof.
  destruct x, y; simpl; intros; try discriminate; eauto.
Qed.

(** [x <= y] excludes [y < x]. *)
Lemma leb_not_ltb (x y : float) :
  (x <=? y)%float = true -> (y <? x)%float = false.
Proof.
  rewrite FloatAxioms.leb_spec, FloatAxioms.ltb_spec. unfold SFleb, SFltb.
  rewrite (SFcompare_antisym (Prim2SF x) (Prim2SF y)).
  destruct (SFcompare (Prim2SF x) (Prim2SF y)) as [[]|]; simpl; congruence.
Qed.

(** Among numbers that are not NaN, [y < x] or [x <= y]. *)
Lemma not_ltb_leb (x y : float) :
  is_nan x = false -> is_nan y = false ->
  (y <? x)%float = false -> (x <=? y)%float = true.
Proof.
  intros Hx%is_nan_false_compare Hy%is_nan_false_compare.
  rewrite FloatAxioms.leb_spec, FloatAxioms.ltb_spec. unfold SFleb, SFltb.
  rewrite (SFcompare_antisym (Prim2SF x) (Prim2SF y)).
  destruct (SFcompare_defined _ _ Hx Hy) as [c ->].
  destruct c; simpl; congruence.
Qed.

Lemma eqb_sym (x y : float) : (x =? y)%float = (y =? x)%float.
Proof.
  rewrite !FloatAxioms.eqb_spec. unfold SFeqb. rewrite (SFcompare_antisym (Prim2SF x) (Prim2SF y)).
  destruct (SFcompare (Prim2SF x) (Prim2SF y)) as [[]|]; reflexivity.
Qed.

(** ** Rounding

    The arithmetic of [float] is specified by the functions of [SpecFloat],
    which round with [shr], [round_nearest_even] and [shl_align].  This
    section bounds what they return: a mantissa [m] at exponent [e] is
    measured by the integer [scaled m e], its value times [2^2200], so that
    every exponent the operations meet is a natural number. *)

Section Rounding.

Local Open Scope Z_scope.

Lemma iter_pos_nat {A : Type} (f : A -> A) (p : positive) (x : A) :
  SpecFloat.iter_pos f p x = Nat.iter (Pos.to_nat p) f x.
Proof.
  revert x. induction p as [p IH|p IH|]; intros x; cbn [SpecFloat.iter_pos].
  - rewrite !IH, Pos2Nat.inj_xI, <- Nat.iter_succ_r.
    replace (S (2 * Pos.to_nat p)) with (Pos.to_nat p + S (Pos.to_nat p))%nat by lia.
    by rewrite Nat.iter_add.
  - rewrite !IH, Pos2Nat.inj_xO.
    replace (2 * Pos.to_nat p)%nat with (Pos.to_nat p + Pos.to_nat p)%nat by lia.
    by rewrite Nat.iter_add.
  - reflexivity.
Qed.

Lemma shr_1_spec (x : shr_record) :
  (0 <= shr_m x)%Z ->
  shr_m (shr_1 x) = (shr_m x / 2)%Z /\
  shr_r (shr_1 x) = Z.odd (shr_m x) /\
  shr_s (shr_1 x) = shr_r x || shr_s x.
Proof.
  destruct x as [m r s]; cbn [shr_m shr_r shr_s]. intros Hm.
  rewrite <- Z.div2_div.
  destruct m as [|[p|p|]|p]; try lia; repeat split; reflexivity.
Qed.

(** [k] right shifts of an exact record: the quotient by [2^k], and an exact
    location when nothing was lost. *)
Lemma shr_iter_spec (M : Z) (k : nat) :
  (0 <= M)%Z ->
  let x := Nat.iter k shr_1 {| shr_m := M; shr_r := false; shr_s := false |} in
  shr_m x = (M / 2 ^ Z.of_nat k)%Z /\
  ((M mod 2 ^ Z.of_nat k = 0)%Z -> shr_r x = false /\ shr_s x = false).
Proof.
  intros HM. induction k as [|k IH]; cbn zeta.
  - change (Nat.iter 0 shr_1 ?x) with x. cbn [shr_m shr_r shr_s].
    change (2 ^ Z.of_nat 0)%Z with 1%Z. rewrite Z.div_1_r. auto.
  - cbn zeta in IH. destruct IH as [IHm IHl].
    rewrite !Nat.iter_succ.
    set (x := Nat.iter k shr_1 _) in *.
    assert (0 <= shr_m x)%Z as Hx.
    { rewrite IHm. apply Z.div_pos; [lia|]. apply Z.pow_pos_nonneg; lia. }
    destruct (shr_1_spec x Hx) as (-> & -> & ->).
    rewrite IHm, Nat2Z.inj_succ, Z.pow_succ_r by lia.
    assert (0 < 2 ^ Z.of_nat k)%Z as Hp by (apply Z.pow_pos_nonneg; lia).
    split.
    + rewrite Z.div_div by lia. f_equal. lia.
    + intros Hmod.
      apply Z.mod_divide in Hmod; [|lia]. destruct Hmod as [q Hq].
      assert (M = (2 * q) * 2 ^ Z.of_nat k)%Z as HM' by lia.
      assert (M mod 2 ^ Z.of_nat k = 0)%Z as H0.
      { rewrite HM'. apply Z.mod_mul. lia. }
      destruct (IHl H0) as [-> ->].
      split; [|reflexivity].
      rewrite HM', Z.div_mul by lia.
      rewrite Z.odd_mul. reflexivity.
Qed.

Lemma round_nearest_even_spec (m : Z) (l : location) :
  (m <= round_nearest_even m l <= m + 1)%Z /\
  (l = loc_Exact -> round_nearest_even m l = m).
Proof.
  destruct l as [|[]]; cbn [round_nearest_even]; try (split; [lia|]); try discriminate; auto.
  destruct (Z.even m); split; try lia; discriminate.
Qed.

(** [shr] of an exact record by [n]. *)
Lemma shr_spec (M e n : Z) :
  (0 <= M)%Z ->
  let k := Z.max 0 n in
  let mrs := fst (shr {| shr_m := M; shr_r := false; shr_s := false |} e n) in
  snd (shr {| shr_m := M; shr_r := false; shr_s := false |} e n) = (e + k)%Z /\
  shr_m mrs = (M / 2 ^ k)%Z /\
  ((M mod 2 ^ k = 0)%Z -> loc_of_shr_record mrs = loc_Exact).
Proof.
  intros HM. destruct n as [|p|p]; cbn [shr fst snd].
  - rewrite Z.max_l by lia. cbn [shr_m loc_of_shr_record].
    rewrite Z.add_0_r, Z.div_1_r. auto.
  - rewrite Z.max_r by lia. rewrite iter_pos_nat.
    pose proof (shr_iter_spec M (Pos.to_nat p) HM) as H. cbn zeta in H.
    rewrite positive_nat_Z in H. destruct H as [Hm Hl].
    split; [reflexivity|]. split; [exact Hm|].
    intros H0. destruct (Hl H0) as [Hr Hs].
    destruct (Nat.iter _ _ _) as [m' r' s']. cbn in *. by subst.
  - rewrite Z.max_l by lia. cbn [shr_m loc_of_shr_record].
    rewrite Z.add_0_r, Z.div_1_r. auto.
Qed.

Lemma binary_round_aux_bound (s : bool) (M e Bs : Z) :
  (0 < M)%Z -> (-2200 <= e)%Z ->
  (scaled M e <= Bs)%Z ->
  (2 ^ (Z.max e (fexp prec emax (Zdigits2 M + e)) + 2200) | Bs)%Z ->
  exists m' e',
    (0 <= m')%Z /\ (-2200 <= e')%Z /\ (scaled m' e' <= Bs)%Z /\
    binary_round_aux prec emax s M e loc_Exact =
      match m' with
      | Z0 => S754_zero s
      | Zpos p => if (e' <=? emax - prec)%Z then S754_finite s p e' else S754_infinity s
      | Zneg _ => S754_nan
      end.
Proof.
  intros HM He HB [c Hc].
  unfold binary_round_aux, shr_fexp.
  change (shr_record_of_loc M loc_Exact)
    with {| shr_m := M; shr_r := false; shr_s := false |}.
  set (F := fexp prec emax (Zdigits2 M + e)) in *.
  set (n := (F - e)%Z).
  pose proof (shr_spec M e n ltac:(lia)) as H1. cbn zeta in H1.
  destruct (shr _ e n) as [mrs1 e1]. cbn [fst snd] in H1.
  destruct H1 as (-> & Hm1 & Hl1).
  set (k := Z.max 0 n) in *.
  assert (e + k = Z.max e F)%Z as Hek by lia.
  rewrite <- Hek in Hc.
  set (mr := round_nearest_even (shr_m mrs1) (loc_of_shr_record mrs1)).
  assert (0 < 2 ^ k)%Z as Hk by (apply Z.pow_pos_nonneg; lia).
  assert (0 < 2 ^ (e + 2200))%Z as He2 by (apply Z.pow_pos_nonneg; lia).
  set (q := (M / 2 ^ k)%Z) in *.
  assert (0 <= q)%Z as Hq by (apply Z.div_pos; lia).
  assert (Bs = c * 2 ^ k * 2 ^ (e + 2200))%Z as HBs.
  { rewrite Hc. replace (e + k + 2200)%Z with (k + (e + 2200))%Z by lia.
    rewrite Z.pow_add_r by lia. lia. }
  assert (M <= c * 2 ^ k)%Z as HMc.
  { unfold scaled in HB. rewrite HBs in HB.
    apply Z.mul_le_mono_pos_r in HB; lia. }
  assert (q <= mr <= c)%Z as Hmr.
  { destruct (round_nearest_even_spec (shr_m mrs1) (loc_of_shr_record mrs1)) as [Hr1 Hr2].
    fold mr in Hr1, Hr2. rewrite Hm1 in Hr1, Hr2.
    split; [lia|].
    pose proof (Z.div_mod M (2 ^ k) ltac:(lia)) as Hdm. fold q in Hdm.
    pose proof (Z.mod_pos_bound M (2 ^ k) Hk) as Hmb.
    destruct (Z.eq_dec (M mod 2 ^ k)%Z 0%Z) as [H0|H0].
    - rewrite (Hr2 (Hl1 H0)). nia.
    - assert (q < c)%Z by nia. lia. }
  pose proof (shr_spec mr (e + k) (fexp prec emax (Zdigits2 mr + (e + k)) - (e + k))
                ltac:(lia)) as H2.
  cbn zeta in H2.
  change (shr_record_of_loc mr loc_Exact)
    with {| shr_m := mr; shr_r := false; shr_s := false |}.
  destruct (shr _ (e + k) _) as [mrs2 e2]. cbn [fst snd] in H2.
  destruct H2 as (-> & Hm2 & _).
  set (k2 := Z.max 0 (fexp prec emax (Zdigits2 mr + (e + k)) - (e + k))) in *.
  assert (0 < 2 ^ k2)%Z as Hk2 by (apply Z.pow_pos_nonneg; lia).
  exists (shr_m mrs2), (e + k + k2)%Z.
  split; [rewrite Hm2; apply Z.div_pos; lia|].
  split; [lia|]. split; [|reflexivity].
  unfold scaled. rewrite Hm2.
  replace (e + k + k2 + 2200)%Z with (k2 + (k + (e + 2200)))%Z by lia.
  rewrite !Z.pow_add_r by lia.
  pose proof (Z.mul_div_le mr (2 ^ k2) Hk2) as Hfl.
  rewrite HBs.
  assert (mr / 2 ^ k2 * 2 ^ k2 <= c)%Z by lia.
  assert (0 < 2 ^ k * 2 ^ (e + 2200))%Z by lia.
  nia.
Qed.

(** ** Digits and canonical mantissas *)

Lemma digits2_pos_bounds (m : positive) :
  (2 ^ (Zpos (digits2_pos m) - 1) <= Zpos m < 2 ^ Zpos (digits2_pos m))%Z.
Proof.
  induction m as [m IH|m IH|]; cbn [digits2_pos].
  - rewrite Pos2Z.inj_succ.
    replace (Z.succ (Zpos (digits2_pos m)) - 1)%Z with (Z.succ (Zpos (digits2_pos m) - 1))%Z by lia.
    rewrite !Z.pow_succ_r by lia. lia.
  - rewrite Pos2Z.inj_succ.
    replace (Z.succ (Zpos (digits2_pos m)) - 1)%Z with (Z.succ (Zpos (digits2_pos m) - 1))%Z by lia.
    rewrite !Z.pow_succ_r by lia. lia.
  - cbn. lia.
Qed.

Lemma Zdigits2_bounds (M : Z) :
  (0 < M)%Z -> (2 ^ (Zdigits2 M - 1) <= M < 2 ^ Zdigits2 M)%Z.
Proof. destruct M as [|m|m]; try lia. intros _. apply digits2_pos_bounds. Qed.

Lemma Zdigits2_pos (M : Z) : (0 < M)%Z -> (0 < Zdigits2 M)%Z.
Proof. destruct M; cbn; lia. Qed.

(** A number below [2^t] has at most [t] digits. *)
Lemma Zdigits2_le (M t : Z) : (0 < M)%Z -> (M < 2 ^ t)%Z -> (Zdigits2 M <= t)%Z.
Proof.
  intros HM Ht. pose proof (Zdigits2_bounds M HM) as [Hl _].
  pose proof (Zdigits2_pos M HM).
  destruct (Z.le_gt_cases (Zdigits2 M) t) as [|Hgt]; [done|].
  assert (0 <= t)%Z.
  { destruct (Z.le_gt_cases 0 t); [done|]. rewrite Z.pow_neg_r in Ht; lia. }
  assert (2 ^ t <= 2 ^ (Zdigits2 M - 1))%Z by (apply Z.pow_le_mono_r; lia).
  lia.
Qed.

Lemma Zdigits2_unique (M d : Z) :
  (2 ^ (d - 1) <= M < 2 ^ d)%Z -> (0 < M)%Z -> Zdigits2 M = d.
Proof.
  intros [Hl Hu] HM.
  pose proof (Zdigits2_bounds M HM) as [Hl' Hu'].
  pose proof (Zdigits2_pos M HM).
  assert (0 < d)%Z.
  { destruct (Z.le_gt_cases d 0); [|done]. 
    destruct (Z.eq_dec d 0) as [->|]; [cbn in Hu; lia|].
    rewrite Z.pow_neg_r in Hu; lia. }
  destruct (Z.lt_trichotomy (Zdigits2 M) d) as [Hlt|[Heq|Hgt]]; [|done|].
  - assert (2 ^ Zdigits2 M <= 2 ^ (d - 1))%Z by (apply Z.pow_le_mono_r; lia). lia.
  - assert (2 ^ d <= 2 ^ (Zdigits2 M - 1))%Z by (apply Z.pow_le_mono_r; lia). lia.
Qed.

Lemma Zdigits2_shift (M d : Z) :
  (0 < M)%Z -> (0 <= d)%Z -> Zdigits2 (M * 2 ^ d) = (Zdigits2 M + d)%Z.
Proof.
  intros HM Hd. pose proof (Zdigits2_bounds M HM) as [Hl Hu].
  pose proof (Zdigits2_pos M HM).
  assert (0 < 2 ^ d)%Z by (apply Z.pow_pos_nonneg; lia).
  apply Zdigits2_unique; [|nia].
  replace (Zdigits2 M + d - 1)%Z with ((Zdigits2 M - 1) + d)%Z by lia.
  rewrite !Z.pow_add_r by lia. nia.
Qed.

(** [shl_align]: the mantissa moved to the smaller exponent. *)
Lemma shl_align_spec (m : positive) (e e' : Z) :
  snd (shl_align m e e') = Z.min e e' /\
  Zpos (fst (shl_align m e e')) = (Zpos m * 2 ^ (e - Z.min e e'))%Z.
Proof.
  unfold shl_align. destruct (e' - e)%Z as [|d|d] eqn:Hd; cbn [fst snd].
  - rewrite Z.min_l by lia. rewrite Z.sub_diag. cbn. lia.
  - rewrite Z.min_l by lia. rewrite Z.sub_diag. cbn. lia.
  - rewrite Z.min_r by lia. split; [reflexivity|].
    change (Pos.iter xO m d) with (shift_pos d m).
    rewrite shift_pos_correct. replace (e - e')%Z with (Zpos d) by lia.
    change (Z.pow_pos 2 d) with (2 ^ Zpos d)%Z. lia.
Qed.

Lemma fexp64 (x : Z) : fexp prec emax x = Z.max (x - 53) (-1074).
Proof. reflexivity. Qed.

Lemma scaled_pos (m e : Z) : 0 < m -> -2200 <= e -> 2 ^ (e + 2200) <= scaled m e.
Proof.
  intros Hm He. unfold scaled.
  assert (0 < 2 ^ (e + 2200)) by (apply Z.pow_pos_nonneg; lia). nia.
Qed.

Lemma binary_round_bound (s : bool) (M : positive) (e Bs : Z) :
  -2200 <= e -> scaled (Zpos M) e <= Bs ->
  (2 ^ (fexp prec emax (Zdigits2 (Zpos M) + e) + 2200) | Bs) ->
  exists m' e',
    0 <= m' /\ -2200 <= e' /\ scaled m' e' <= Bs /\
    binary_round prec emax s M e = SF_of s m' e'.
Proof.
  intros He HB Hdiv. unfold binary_round.
  change (Zpos (digits2_pos M) + e) with (Zdigits2 (Zpos M) + e).
  set (F := fexp prec emax (Zdigits2 (Zpos M) + e)) in *.
  assert (-1074 <= F) as HF by (unfold F; rewrite fexp64; lia).
  destruct (shl_align_spec M e F) as [Hez Hmz].
  destruct (shl_align M e F) as [mz ez]. cbn [fst snd] in Hez, Hmz. subst ez.
  assert (0 < 2 ^ (e - Z.min e F)) as Hpow by (apply Z.pow_pos_nonneg; lia).
  assert (Zdigits2 (Zpos mz) + Z.min e F = Zdigits2 (Zpos M) + e) as Hdig.
  { rewrite Hmz, Zdigits2_shift by lia. lia. }
  apply binary_round_aux_bound.
  - lia.
  - lia.
  - unfold scaled in *. rewrite Hmz, <- Z.mul_assoc, <- Z.pow_add_r by lia.
    replace (e - Z.min e F + (Z.min e F + 2200)) with (e + 2200) by lia. exact HB.
  - rewrite Hdig. fold F. replace (Z.max (Z.min e F) F) with F by lia. exact Hdiv.
Qed.

(** *** What a canonical mantissa says about the value *)

Lemma bounded_spec (p : positive) (e : Z) :
  bounded prec emax p e = true ->
  -1074 <= e <= 971 /\ Zpos p < 2 ^ 53 /\ (-1074 < e -> 2 ^ 52 <= Zpos p).
Proof.
  unfold bounded, canonical_mantissa. intros [Hc He]%andb_true_iff.
  apply Z.eqb_eq in Hc. apply Z.leb_le in He. rewrite fexp64 in Hc.
  change (emax - prec) with 971 in He.
  pose proof (digits2_pos_bounds p) as [Hl Hu].
  assert (0 < Zpos (digits2_pos p)) by lia.
  split; [lia|]. split.
  - assert (2 ^ Zpos (digits2_pos p) <= 2 ^ 53) by (apply Z.pow_le_mono_r; lia). lia.
  - intros Hn. assert (Zpos (digits2_pos p) = 53) as Hd by lia.
    rewrite Hd in Hl. exact Hl.
Qed.

(** A canonical float below [2^(T-2200)] has an exponent of at most
    [T - 2253]. *)
Lemma bounded_exponent_le (p : positive) (e T : Z) :
  bounded prec emax p e = true -> scaled (Zpos p) e < 2 ^ T -> 1179 <= T ->
  e <= T - 2253.
Proof.
  intros (He & Hp & Hn)%bounded_spec Hs HT.
  destruct (Z.le_gt_cases e (T - 2253)) as [|Hgt]; [done|exfalso].
  assert (2 ^ 52 <= Zpos p) as Hp2 by (apply Hn; lia).
  unfold scaled in Hs.
  assert (2 ^ (T - 52) <= 2 ^ (e + 2200)) by (apply Z.pow_le_mono_r; lia).
  assert (2 ^ T = 2 ^ 52 * 2 ^ (T - 52)) as HT2.
  { rewrite <- Z.pow_add_r by lia. f_equal. lia. }
  assert (0 < 2 ^ (T - 52)) by (apply Z.pow_pos_nonneg; lia).
  nia.
Qed.

Lemma pow2_52 : 2 ^ 52 = 4503599627370496.
Proof. reflexivity. Qed.

Lemma magnitude_le (p : positive) (e k : Z) :
  bounded prec emax p e = true -> scaled (Zpos p) e <= 2 ^ (k + 2200) -> -1021 <= k ->
  e < k - 52 \/ (e = k - 52 /\ Zpos p <= 4503599627370496).
Proof.
  intros Hb Hs Hk.
  assert (e <= k - 52) as He.
  { assert (e <= (k + 2201) - 2253); [|lia].
    apply (bounded_exponent_le p); [done| |lia].
    assert (2 ^ (k + 2200) < 2 ^ (k + 2201)) by (apply Z.pow_lt_mono_r; lia). lia. }
  destruct (Z.eq_dec e (k - 52)) as [->|]; [right|left; lia].
  split; [done|]. unfold scaled in Hs.
  assert (2 ^ (k + 2200) = 4503599627370496 * 2 ^ (k - 52 + 2200)) as Hk2.
  { rewrite <- pow2_52, <- Z.pow_add_r by lia. f_equal. lia. }
  rewrite Hk2 in Hs.
  assert (0 < 2 ^ (k - 52 + 2200)) by (apply Z.pow_pos_nonneg; lia). nia.
Qed.

Lemma magnitude_lt (p : positive) (e k : Z) :
  bounded prec emax p e = true -> scaled (Zpos p) e < 2 ^ (k + 2200) -> -1021 <= k ->
  e < k - 52.
Proof.
  intros Hb Hs Hk.
  destruct (magnitude_le p e k Hb ltac:(lia) Hk) as [|[-> Hp]]; [done|exfalso].
  destruct (bounded_spec _ _ Hb) as (_ & _ & Hn).
  assert (2 ^ 52 <= Zpos p) as Hp2 by (apply Hn; lia). rewrite pow2_52 in Hp2.
  assert (Zpos p = 4503599627370496) as Hp3 by lia.
  assert (2 ^ (k + 2200) = 4503599627370496 * 2 ^ (k - 52 + 2200)) as Hk2.
  { rewrite <- pow2_52, <- Z.pow_add_r by lia. f_equal. lia. }
  unfold scaled in Hs. rewrite Hp3, Hk2 in Hs. lia.
Qed.

Lemma pow2_divide (a b c : Z) : 0 <= a <= b -> (2 ^ a | c * 2 ^ b).
Proof.
  intros H. exists (c * 2 ^ (b - a)).
  rewrite <- Z.mul_assoc, <- Z.pow_add_r by lia. do 2 f_equal. lia.
Qed.

Lemma SF_of_cases (s : bool) (m e T : Z) :
  0 <= m -> -2200 <= e -> scaled m e < 2 ^ T -> T <= 3172 ->
  SF_of s m e = S754_zero s \/
  exists p, m = Zpos p /\ SF_of s m e = S754_finite s p e.
Proof.
  intros Hm He Hs HT. destruct m as [|p|p]; [by left| |lia].
  right. exists p. split; [done|]. unfold SF_of.
  pose proof (scaled_pos (Zpos p) e ltac:(lia) He) as Hp.
  assert (0 < 2 ^ (e + 2200)) by (apply Z.pow_pos_nonneg; lia).
  assert (0 <= T).
  { destruct (Z.le_gt_cases 0 T); [done|]. rewrite Z.pow_neg_r in Hs; lia. }
  assert (e + 2200 < T) by (apply (Z.pow_lt_mono_r_iff 2); lia).
  change (emax - prec) with 971.
  destruct (Z.leb_spec e 971); [done|lia].
Qed.

Lemma SFcompare_finite_pos (p q : positive) (e f : Z) :
  SFcompare (S754_finite false p e) (S754_finite false q f) =
  Some (match e ?= f with Lt => Lt | Gt => Gt | Eq => Zpos p ?= Zpos q end).
Proof. reflexivity. Qed.

Lemma SFcompare_finite_neg (p q : positive) (e f : Z) :
  SFcompare (S754_finite true p e) (S754_finite true q f) =
  Some (match e ?= f with Lt => Gt | Gt => Lt | Eq => CompOpp (Zpos p ?= Zpos q) end).
Proof. reflexivity. Qed.

(** *** Numbers of the unit interval *)

Lemma unit_interval_SF (X : spec_float) :
  valid_binary X = true ->
  SFleb (S754_zero false) X = true -> SFltb X (pow2_SF 0) = true ->
  (exists s, X = S754_zero s) \/
  (exists p e, X = S754_finite false p e /\ bounded prec emax p e = true /\ e <= -53).
Proof.
  intros Hv Hle Hlt. destruct X as [s|s| |s p e].
  - left. by exists s.
  - destruct s; discriminate.
  - discriminate.
  - right. destruct s; [discriminate|]. exists p, e. split; [done|].
    cbn [valid_binary] in Hv. change (SpecFloat.valid_binary prec emax (S754_finite false p e))
      with (bounded prec emax p e) in Hv.
    split; [done|].
    destruct (bounded_spec _ _ Hv) as (He & Hp & Hn).
    unfold SFltb, pow2_SF in Hlt. rewrite SFcompare_finite_pos in Hlt.
    change (0 - 52) with (-52) in Hlt.
    destruct (Z.compare_spec e (-52)) as [->|?|?]; [|lia|discriminate].
    exfalso.
    assert (2 ^ 52 <= Zpos p) as Hp2 by (apply Hn; lia). rewrite pow2_52 in Hp2.
    destruct (Z.compare_spec (Zpos p) 4503599627370496) as [|Hlt'|]; try discriminate.
    clear -Hp2 Hlt'. lia.
Qed.

(** The product of a number below 1 and [2^(k+1)] stays below [2^(k+1)]. *)
Lemma mul_pow2_bound (p : positive) (e k : Z) :
  bounded prec emax p e = true -> e <= -53 -> -1021 <= k <= 900 ->
  exists m2 e2,
    0 <= m2 /\ -2200 <= e2 /\
    scaled m2 e2 <= (2 ^ 53 - 1) * 2 ^ (k + 2148) /\
    SFmul prec emax (S754_finite false p e) (pow2_SF (k + 1)) = SF_of false m2 e2.
Proof.
  intros Hb He Hk. destruct (bounded_spec _ _ Hb) as (He' & Hp & _).
  unfold SFmul, pow2_SF. cbn [xorb]. rewrite Pos2Z.inj_mul, <- pow2_52.
  assert (0 < 2 ^ 52) by lia.
  apply binary_round_aux_bound.
  - lia.
  - lia.
  - unfold scaled. rewrite <- Z.mul_assoc, <- Z.pow_add_r by lia.
    assert (2 ^ (52 + (e + (k + 1 - 52) + 2200)) <= 2 ^ (k + 2148))
      by (apply Z.pow_le_mono_r; lia).
    assert (0 < 2 ^ (52 + (e + (k + 1 - 52) + 2200))) by (apply Z.pow_pos_nonneg; lia).
    nia.
  - apply pow2_divide. rewrite Zdigits2_shift, fexp64 by lia.
    pose proof (Zdigits2_le (Zpos p) 53 ltac:(lia) Hp).
    pose proof (Zdigits2_pos (Zpos p) ltac:(lia)). lia.
Qed.

(** Subtracting [2^k] from a number below [2^(k+1)]. *)
Lemma sub_pow2_bound (p2 : positive) (e2 k : Z) :
  bounded prec emax p2 e2 = true ->
  scaled (Zpos p2) e2 <= (2 ^ 53 - 1) * 2 ^ (k + 2148) -> -1021 <= k <= 900 ->
  let W := SFsub prec emax (S754_finite false p2 e2) (pow2_SF k) in
  W = S754_zero false \/
  (exists m3 e3, 0 <= m3 /\ -2200 <= e3 /\
     scaled m3 e3 <= (2 ^ 52 - 1) * 2 ^ (k + 2148) /\ W = SF_of false m3 e3) \/
  (exists m3 e3, 0 <= m3 /\ -2200 <= e3 /\
     scaled m3 e3 <= 2 ^ (k + 2200) /\ W = SF_of true m3 e3).
Proof.
  intros Hb Hs Hk. destruct (bounded_spec _ _ Hb) as (He & Hp & Hn).
  assert (0 < 2 ^ (k + 2148)) as Hk1 by (apply Z.pow_pos_nonneg; lia).
  assert (e2 <= k - 52) as He2.
  { assert (e2 <= (k + 2201) - 2253); [|lia].
    apply (bounded_exponent_le p2); [done| |lia].
    replace (k + 2201) with (53 + (k + 2148)) by lia.
    rewrite Z.pow_add_r by lia. nia. }
  cbn zeta. unfold SFsub, pow2_SF. cbn [cond_Zopp].
  rewrite (Z.min_l e2 (k - 52)) by lia.
  destruct (shl_align_spec p2 e2 e2) as [_ ->].
  destruct (shl_align_spec 4503599627370496 (k - 52) e2) as [_ ->].
  rewrite Z.min_id, Z.sub_diag, Z.mul_1_r, (Z.min_r (k - 52) e2) by lia.
  rewrite <- pow2_52, <- Z.pow_add_r by lia.
  replace (52 + (k - 52 - e2)) with (k - e2) by lia.
  assert (0 < 2 ^ (e2 + 2200)) as Hpe by (apply Z.pow_pos_nonneg; lia).
  destruct (Zpos p2 - 2 ^ (k - e2)) as [|d|d] eqn:HD; cbn [binary_normalize].
  - by left.
  - right; left.
    assert (e2 = k - 52) as ->.
    { destruct (Z.eq_dec e2 (k - 52)); [done|exfalso].
      assert (2 ^ 53 <= 2 ^ (k - e2)) by (apply Z.pow_le_mono_r; lia). lia. }
    replace (k - (k - 52)) with 52 in HD by lia.
    assert (Zpos d <= 2 ^ 52 - 1) as Hd by lia.
    apply binary_round_bound.
    + lia.
    + unfold scaled. replace (k - 52 + 2200) with (k + 2148) by lia. nia.
    + apply pow2_divide. rewrite fexp64.
      pose proof (Zdigits2_le (Zpos d) 52 ltac:(lia) ltac:(lia)).
      pose proof (Zdigits2_pos (Zpos d) ltac:(lia)). lia.
  - right; right.
    assert (Zpos d < 2 ^ (k - e2)) as Hd by lia.
    apply binary_round_bound.
    + lia.
    + unfold scaled.
      replace (k + 2200) with ((k - e2) + (e2 + 2200)) by lia.
      rewrite (Z.pow_add_r 2 (k - e2) (e2 + 2200)) by lia.
      apply Z.mul_le_mono_nonneg_r; lia.
    + replace (2 ^ (k + 2200)) with (1 * 2 ^ (k + 2200)) by lia.
      apply pow2_divide. rewrite fexp64.
      pose proof (Zdigits2_le (Zpos d) (k - e2) ltac:(lia) Hd).
      pose proof (Zdigits2_pos (Zpos d) ltac:(lia)). lia.
Qed.

(** *** The range of a jitter *)

Lemma within_pos (k m3 e3 : Z) :
  -1021 <= k <= 900 -> 0 <= m3 -> -2200 <= e3 ->
  scaled m3 e3 <= (2 ^ 52 - 1) * 2 ^ (k + 2148) ->
  valid_binary (SF_of false m3 e3) = true ->
  SFleb (SFopp (pow2_SF k)) (SF_of false m3 e3) = true /\
  SFltb (SF_of false m3 e3) (pow2_SF k) = true.
Proof.
  intros Hk Hm He Hs Hv.
  assert (0 < 2 ^ (k + 2148)) by (apply Z.pow_pos_nonneg; lia).
  assert (2 ^ (k + 2200) = 2 ^ 52 * 2 ^ (k + 2148)) as Hp.
  { rewrite <- Z.pow_add_r by lia. f_equal. lia. }
  assert (scaled m3 e3 < 2 ^ (k + 2200)) as Hs' by nia.
  destruct (SF_of_cases false m3 e3 (k + 2200) Hm He Hs' ltac:(lia))
    as [Hz|(p & -> & Hf)].
  - rewrite Hz. split; reflexivity.
  - rewrite Hf in *.
    pose proof (magnitude_lt p e3 k Hv Hs' ltac:(lia)) as Hlt.
    split; [reflexivity|].
    unfold SFltb, pow2_SF. rewrite SFcompare_finite_pos.
    by rewrite (proj2 (Z.compare_lt_iff _ _) Hlt).
Qed.

Lemma within_neg (k m3 e3 : Z) :
  -1021 <= k <= 900 -> 0 <= m3 -> -2200 <= e3 ->
  scaled m3 e3 <= 2 ^ (k + 2200) ->
  valid_binary (SF_of true m3 e3) = true ->
  SFleb (SFopp (pow2_SF k)) (SF_of true m3 e3) = true /\
  SFltb (SF_of true m3 e3) (pow2_SF k) = true.
Proof.
  intros Hk Hm He Hs Hv.
  assert (2 ^ (k + 2200) < 2 ^ (k + 2201)) by (apply Z.pow_lt_mono_r; lia).
  destruct (SF_of_cases true m3 e3 (k + 2201) Hm He ltac:(lia) ltac:(lia))
    as [Hz|(p & -> & Hf)].
  - rewrite Hz. split; reflexivity.
  - rewrite Hf in *. split; [|reflexivity].
    unfold SFleb, pow2_SF, SFopp. rewrite SFcompare_finite_neg.
    destruct (magnitude_le p e3 k Hv Hs ltac:(lia)) as [Hlt|[-> Hp]].
    + by rewrite (proj2 (Z.compare_gt_iff _ _) Hlt).
    + rewrite Z.compare_refl.
      destruct (Z.compare_spec 4503599627370496 (Zpos p)); [done|lia|done].
Qed.

(** For [X] in the unit interval, [X * 2^(k+1) - 2^k] lies between [-2^k]
    (included) and [2^k] (excluded), roundings included. *)
Lemma jitter_SF_range (k : Z) (X : spec_float) :
  -1021 <= k <= 900 ->
  valid_binary X = true ->
  SFleb (S754_zero false) X = true -> SFltb X (pow2_SF 0) = true ->
  valid_binary (SFmul prec emax X (pow2_SF (k + 1))) = true ->
  valid_binary (SFsub prec emax (SFmul prec emax X (pow2_SF (k + 1))) (pow2_SF k)) = true ->
  SFleb (SFopp (pow2_SF k))
        (SFsub prec emax (SFmul prec emax X (pow2_SF (k + 1))) (pow2_SF k)) = true /\
  SFltb (SFsub prec emax (SFmul prec emax X (pow2_SF (k + 1))) (pow2_SF k))
        (pow2_SF k) = true.
Proof.
  intros Hk Hv Hle Hlt HvY HvW.
  assert (forall s,
    SFleb (SFopp (pow2_SF k)) (SFsub prec emax (S754_zero s) (pow2_SF k)) = true /\
    SFltb (SFsub prec emax (S754_zero s) (pow2_SF k)) (pow2_SF k) = true) as Hzero.
  { intros s. unfold pow2_SF, SFsub, SFopp. cbn [negb]. split; [|reflexivity].
    unfold SFleb. rewrite SFcompare_finite_neg, !Z.compare_refl. reflexivity. }
  destruct (unit_interval_SF X Hv Hle Hlt) as [[s ->]|(p & e & -> & Hb & He)].
  - apply Hzero.
  - destruct (mul_pow2_bound p e k Hb He Hk) as (m2 & e2 & Hm2 & He2 & Hs2 & HY).
    rewrite HY in *.
    assert (0 < 2 ^ (k + 2148)) by (apply Z.pow_pos_nonneg; lia).
    assert (2 ^ (k + 2201) = 2 ^ 53 * 2 ^ (k + 2148)) as Hp.
    { rewrite <- Z.pow_add_r by lia. f_equal. lia. }
    destruct (SF_of_cases false m2 e2 (k + 2201) Hm2 He2 ltac:(nia) ltac:(lia))
      as [Hz|(p2 & -> & Hf)].
    + rewrite Hz. apply Hzero.
    + rewrite Hf in *.
      destruct (sub_pow2_bound p2 e2 k HvY Hs2 Hk)
        as [HW|[(m3 & e3 & Hm3 & He3 & Hs3 & HW)|(m3 & e3 & Hm3 & He3 & Hs3 & HW)]];
        cbn zeta in HW; rewrite HW in *.
      * split; reflexivity.
      * by apply within_pos.
      * by apply within_neg.
Qed.

End Rounding.

(** ** POST /api/predict *)

(** The handler answers 200 exactly when the body normalises to a feature
    vector and the forest labels it; everything else is the 500 of its
    [catch]. *)
Lemma post_predict_ok (rf : classifier) (body : value) (inp : list value) (prediction : float) :
  input body = Ok inp -> predict rf inp = Ok prediction ->
  post_predict rf body = predict_ok prediction (floodProb rf inp prediction).
Proof. intros Hi Hp. unfold post_predict. rewrite Hi. cbn. rewrite Hp. reflexivity. Qed.

Lemma post_predict_cases (rf : classifier) (body : value) :
  post_predict rf body = predict_failed \/
  exists inp prediction,
    input body = Ok inp /\ predict rf inp = Ok prediction /\
    post_predict rf body = predict_ok prediction (floodProb rf inp prediction).
Proof.
  unfold post_predict.
  destruct (input body) as [inp|] eqn:Hi; cbn; [|by left].
  destruct (predict rf inp) as [prediction|] eqn:Hp; cbn; [|by left].
  right. by exists inp, prediction.
Qed.

Lemma predict_ok_fields (prediction p : float) :
  status (predict_ok prediction p) = 200%Z /\
  field (predict_ok prediction p) "prediction" = Some (VString (prediction_label prediction)) /\
  field (predict_ok prediction p) "probability" = Some (VString (toFixed (p * 100) 2)) /\
  field (predict_ok prediction p) "riskLevel" = Some (VString (riskLevel p)).
Proof. repeat split; reflexivity. Qed.

Lemma predict_failed_fields (key : string) :
  field predict_failed key = None \/ key = "error".
Proof.
  unfold field, predict_failed; cbn.
  destruct (decide (key = "error")) as [->|Hne]; [by right|left].
  by apply lookup_singleton_ne.
Qed.

Lemma entry_or_0_not_nan (entry : option float) : is_nan (entry_or_0 entry) = false.
Proof.
  destruct entry as [p|]; unfold entry_or_0; [|reflexivity].
  destruct (is_nan p) eqn:Hn; [reflexivity|].
  destruct (is_zero p); [reflexivity|exact Hn].
Qed.

Lemma floodProb_not_nan (rf : classifier) (inp : list value) (prediction : float) :
  is_nan (floodProb rf inp prediction) = false.
Proof.
  unfold floodProb.
  destruct (predictProbability rf inp) as [ps|]; unfold try_catch; cbn [mbind result_bind].
  - apply entry_or_0_not_nan.
  - destruct (prediction =? 1)%float; reflexivity.
Qed.

(** The tiers of [riskLevel] against the two thresholds, for a probability
    that is a number. *)
Lemma riskLevel_tiers (p : float) :
  is_nan p = false ->
  ((0.7 <? p)%float = true -> riskLevel p = "High") /\
  ((0.4 <? p)%float = true -> (p <=? 0.7)%float = true -> riskLevel p = "Medium") /\
  ((p <=? 0.4)%float = true -> riskLevel p = "Low") /\
  ((0.7 <? p)%float = true \/
   ((0.4 <? p)%float = true /\ (p <=? 0.7)%float = true) \/
   (p <=? 0.4)%float = true).
Proof.
  intros Hn. unfold riskLevel. split; [|split; [|split]].
  - intros ->. reflexivity.
  - intros H4 H7%leb_not_ltb. rewrite H7, H4. reflexivity.
  - intros H4. pose proof (leb_not_ltb _ _ H4) as H4'.
    destruct (0.7 <? p)%float eqn:H7; [|rewrite H4'; reflexivity].
    (* 0.7 < p and p <= 0.4 cannot both hold *)
    exfalso. revert H7 H4.
    rewrite FloatAxioms.ltb_spec, FloatAxioms.leb_spec. unfold SFltb, SFleb.
    change (Prim2SF 0.7) with (S754_finite false 6305039478318694 (-53)).
    change (Prim2SF 0.4) with (S754_finite false 7205759403792794 (-54)).
    destruct (Prim2SF p) as [s|s| |s m e];
      try (destruct s; discriminate); try discriminate.
    destruct s; [discriminate|].
    cbv beta iota delta [SFcompare].
    destruct (-53 ?= e)%Z eqn:He1; destruct (e ?= -54)%Z eqn:He2; try discriminate;
      try (apply Z.compare_eq in He1); try (apply Z.compare_eq in He2);
      rewrite ?Z.compare_lt_iff, ?Z.compare_gt_iff in *; lia.
  - destruct (0.7 <? p)%float eqn:H7; [by left|right].
    destruct (0.4 <? p)%float eqn:H4; [left|right].
    + split; [done|]. by apply not_ltb_leb.
    + by apply not_ltb_leb.
Qed.

(** C1.  Whenever the prediction endpoint returns a riskLevel, it is the tier
    of the flood probability [p] the handler computed: "High" when
    [0.7 < p], "Medium" when [0.4 < p <= 0.7], "Low" when [p <= 0.4]; [p] is
    never NaN, so the three tiers cover every probability. *)
Theorem risk_level_thresholds (rf : classifier) (body level : value) :
  field (post_predict rf body) "riskLevel" = Some level ->
  exists inp prediction,
    input body = Ok inp /\ predict rf inp = Ok prediction /\
    let p := floodProb rf inp prediction in
    is_nan p = false /\
    ((0.7 <? p)%float = true -> level = VString "High") /\
    ((0.4 <? p)%float = true -> (p <=? 0.7)%float = true -> level = VString "Medium") /\
    ((p <=? 0.4)%float = true -> level = VString "Low") /\
    ((0.7 <? p)%float = true \/
     ((0.4 <? p)%float = true /\ (p <=? 0.7)%float = true) \/
     (p <=? 0.4)%float = true).
Proof.
  intros Hl.
  destruct (post_predict_cases rf body) as [Hf|(inp & prediction & Hi & Hp & Hr)].
  - rewrite Hf in Hl. destruct (predict_failed_fields "riskLevel"); congruence.
  - exists inp, prediction. split; [done|]. split; [done|].
    rewrite Hr in Hl.
    destruct (predict_ok_fields prediction (floodProb rf inp prediction)) as (_ & _ & _ & Hrl).
    rewrite Hrl in Hl. injection Hl as <-.
    pose proof (floodProb_not_nan rf inp prediction) as Hn.
    destruct (riskLevel_tiers _ Hn) as (H1 & H2 & H3 & H4).
    cbn zeta. split; [done|]. split; [by intros ->%H1|].
    split; [intros Ha Hb; by rewrite (H2 Ha Hb)|]. split; [by intros ->%H3|done].
Qed.

Lemma sample_input :
  input sample_body = Ok [VNumber 200; VNumber 5; VNumber 2; VNumber 1; VNumber 1].
Proof. vm_compute. reflexivity. Qed.

(** The thresholds are those of the probability itself, not of its text: a
    probability just above 0.7 is written "70.00" and is "High". *)
Example probability_text_is_rounded :
  field (predict_ok 1 0.7000001) "probability" = Some (VString "70.00") /\
  field (predict_ok 1 0.7000001) "riskLevel" = Some (VString "High").
Proof. split; vm_compute; reflexivity. Qed.

Lemma risk_level_thresholds_witness :
  field (post_predict forest_with_probabilities sample_body) "riskLevel"
    = Some (VString "High") /\
  exists inp prediction,
    input sample_body = Ok inp /\
    predict forest_with_probabilities inp = Ok prediction /\
    let p := floodProb forest_with_probabilities inp prediction in
    is_nan p = false /\
    ((0.7 <? p)%float = true -> VString "High" = VString "High") /\
    ((0.4 <? p)%float = true -> (p <=? 0.7)%float = true -> VString "High" = VString "Medium") /\
    ((p <=? 0.4)%float = true -> VString "High" = VString "Low") /\
    ((0.7 <? p)%float = true \/
     ((0.4 <? p)%float = true /\ (p <=? 0.7)%float = true) \/
     (p <=? 0.4)%float = true).
Proof.
  split; [vm_compute; reflexivity|].
  apply (risk_level_thresholds forest_with_probabilities sample_body (VString "High")).
  vm_compute; reflexivity.
Defined.

(** C9.  On the fallback path (the forest gives no probabilities, so the
    handler takes 0.85 or 0.15) the riskLevel is "High" exactly when the
    prediction is "Flood Likely" and "Low" otherwise; it is never "Medium". *)
Theorem fallback_risk_level
    (rf : classifier) (body : value) (inp : list value) (prediction : float) :
  input body = Ok inp -> predict rf inp = Ok prediction ->
  predictProbability rf inp = Throw ->
  exists label level,
    field (post_predict rf body) "prediction" = Some (VString label) /\
    field (post_predict rf body) "riskLevel" = Some (VString level) /\
    (level = "High" <-> label = "Flood Likely") /\
    (level = "High" \/ level = "Low") /\
    level <> "Medium".
Proof.
  intros Hi Hp Ht. rewrite (post_predict_ok _ _ _ _ Hi Hp).
  destruct (predict_ok_fields prediction (floodProb rf inp prediction))
    as (_ & Hl & _ & Hr).
  rewrite Hl, Hr. unfold floodProb, prediction_label. rewrite Ht.
  unfold try_catch; cbn [mbind result_bind].
  destruct (prediction =? 1)%float.
  - exists "Flood Likely", "High". change (riskLevel 0.85) with "High".
    repeat split; auto; discriminate.
  - exists "No Flood Expected", "Low". change (riskLevel 0.15) with "Low".
    repeat split; auto; discriminate.
Qed.

Lemma fallback_risk_level_witness :
  input sample_body = Ok [VNumber 200; VNumber 5; VNumber 2; VNumber 1; VNumber 1] /\
  exists label level,
    field (post_predict (forest_without_probabilities 1) sample_body) "prediction"
      = Some (VString label) /\
    field (post_predict (forest_without_probabilities 1) sample_body) "riskLevel"
      = Some (VString level) /\
    (level = "High" <-> label = "Flood Likely") /\
    (level = "High" \/ level = "Low") /\
    level <> "Medium".
Proof.
  split; [exact sample_input|].
  apply (fallback_risk_level (forest_without_probabilities 1) sample_body
           [VNumber 200; VNumber 5; VNumber 2; VNumber 1; VNumber 1] 1%float).
  - exact sample_input.
  - reflexivity.
  - reflexivity.
Defined.

(** C6.  The handler loses the flood probability whenever the forest's answer
    for the row has no entry 1 (an array of one class, or a number): the
    answer then carries the probability "0.00" and the risk level "Low"
    whatever the label, "Flood Likely" included.  It is neither the estimate
    of the forest nor the heuristic 0.85 or 0.15, which the handler reaches
    only when the call throws. *)
Theorem flood_probability_is_lost
    (rf : classifier) (body : value) (inp : list value) (prediction : float)
    (ps : list float) :
  input body = Ok inp -> predict rf inp = Ok prediction ->
  predictProbability rf inp = Ok ps -> ps !! 1%nat = None ->
  field (post_predict rf body) "prediction"
    = Some (VString (prediction_label prediction)) /\
  field (post_predict rf body) "probability" = Some (VString "0.00") /\
  field (post_predict rf body) "riskLevel" = Some (VString "Low").
Proof.
  intros Hi Hp Hps Hq. rewrite (post_predict_ok _ _ _ _ Hi Hp).
  assert (floodProb rf inp prediction = 0%float) as ->.
  { unfold floodProb. rewrite Hps. unfold try_catch; cbn [mbind result_bind].
    rewrite Hq. reflexivity. }
  repeat split; vm_compute; reflexivity.
Qed.

Lemma flood_probability_is_lost_witness :
  (input sample_body = Ok [VNumber 200; VNumber 5; VNumber 2; VNumber 1; VNumber 1] /\
   predict (forest_row_number 1)
     [VNumber 200; VNumber 5; VNumber 2; VNumber 1; VNumber 1] = Ok 1%float /\
   predictProbability (forest_row_number 1)
     [VNumber 200; VNumber 5; VNumber 2; VNumber 1; VNumber 1] = Ok [] /\
   ([] : list float) !! 1%nat = None /\
   prediction_label 1 = "Flood Likely") /\
  field (post_predict (forest_row_number 1) sample_body) "prediction"
    = Some (VString (prediction_label 1)) /\
  field (post_predict (forest_row_number 1) sample_body) "probability"
    = Some (VString "0.00") /\
  field (post_predict (forest_row_number 1) sample_body) "riskLevel"
    = Some (VString "Low").
Proof.
  split; [split; [exact sample_input|repeat split; reflexivity]|].
  apply (flood_probability_is_lost (forest_row_number 1) sample_body
           [VNumber 200; VNumber 5; VNumber 2; VNumber 1; VNumber 1] 1%float []).
  - exact sample_input.
  - reflexivity.
  - reflexivity.
  - reflexivity.
Defined.

(** What the handler takes for the flood probability [p], whose percentage
    it writes with [toFixed(2)]: if the call of [predictProbability] throws,
    0.85 for the label 1 and 0.15 otherwise; if the call returns and entry 1
    of its answer is a number, that number (a zero entry counts as 0); if
    entry 1 is missing or NaN, 0. *)
Theorem flood_probability_source
    (rf : classifier) (body : value) (inp : list value) (prediction : float) :
  input body = Ok inp -> predict rf inp = Ok prediction ->
  exists p,
    field (post_predict rf body) "probability" = Some (VString (toFixed (p * 100) 2)) /\
    (predictProbability rf inp = Throw ->
       p = if (prediction =? 1)%float then 0.85%float else 0.15%float) /\
    (forall ps q, predictProbability rf inp = Ok ps -> ps !! 1%nat = Some q ->
       is_nan q = false ->
       (p =? q)%float = true /\ (is_zero q = false -> p = q)) /\
    (forall ps, predictProbability rf inp = Ok ps ->
       ps !! 1%nat = None \/ (exists q, ps !! 1%nat = Some q /\ is_nan q = true) ->
       p = 0%float).
Proof.
  intros Hi Hp. exists (floodProb rf inp prediction).
  rewrite (post_predict_ok _ _ _ _ Hi Hp).
  split; [apply predict_ok_fields|].
  unfold floodProb. split; [|split].
  - intros ->. reflexivity.
  - intros ps q -> Hq Hn. unfold try_catch; cbn [mbind result_bind].
    rewrite Hq. unfold entry_or_0. rewrite Hn.
    destruct (is_zero q) eqn:Hz; cbn [orb].
    + split; [|discriminate]. rewrite eqb_sym. exact Hz.
    + split; [|reflexivity]. unfold is_nan in Hn.
      by apply negb_false_iff in Hn.
  - intros ps -> [Hq|(q & Hq & Hn)]; unfold try_catch; cbn [mbind result_bind];
      rewrite Hq; unfold entry_or_0; [reflexivity|by rewrite Hn].
Qed.

Lemma flood_probability_source_witness :
  input sample_body = Ok [VNumber 200; VNumber 5; VNumber 2; VNumber 1; VNumber 1] /\
  exists p,
    field (post_predict forest_with_probabilities sample_body) "probability"
      = Some (VString (toFixed (p * 100) 2)) /\
    (predictProbability forest_with_probabilities
       [VNumber 200; VNumber 5; VNumber 2; VNumber 1; VNumber 1] = Throw ->
       p = if (1 =? 1)%float then 0.85%float else 0.15%float) /\
    (forall ps q,
       predictProbability forest_with_probabilities
         [VNumber 200; VNumber 5; VNumber 2; VNumber 1; VNumber 1] = Ok ps ->
       ps !! 1%nat = Some q -> is_nan q = false ->
       (p =? q)%float = true /\ (is_zero q = false -> p = q)) /\
    (forall ps,
       predictProbability forest_with_probabilities
         [VNumber 200; VNumber 5; VNumber 2; VNumber 1; VNumber 1] = Ok ps ->
       ps !! 1%nat = None \/ (exists q, ps !! 1%nat = Some q /\ is_nan q = true) ->
       p = 0%float).
Proof.
  split; [exact sample_input|].
  apply (flood_probability_source forest_with_probabilities sample_body
           [VNumber 200; VNumber 5; VNumber 2; VNumber 1; VNumber 1] 1%float).
  - exact sample_input.
  - reflexivity.
Defined.

(** *** The feature vector *)

Lemma bind_Ok {A B : Type} (r : result A) (k : A -> result B) (b : B) :
  r ≫= k = Ok b -> exists a, r = Ok a /\ k a = Ok b.
Proof. destruct r as [a|]; cbn; [eauto|discriminate]. Qed.

Ltac inv_bind H :=
  let a := fresh "v" in
  let Ha := fresh "Hv" in
  apply bind_Ok in H; destruct H as (a & Ha & H).

(** What [parseFloat(v) || 0] leaves in the vector. *)
Lemma parse_or_0_spec (v e : value) :
  parse_or_0 v = Ok e ->
  exists x n,
    parseFloat v = Ok x /\ e = VNumber n /\ is_nan n = false /\
    (is_nan x = true -> n = 0%float) /\
    (is_nan x = false -> is_zero x = false -> n = x).
Proof.
  unfold parse_or_0. intros H. inv_bind H. injection H as <-.
  exists v0. unfold logical_or, truthy.
  destruct (is_nan v0) eqn:Hn; cbn [orb negb].
  - exists 0%float. repeat split; auto; discriminate.
  - destruct (is_zero v0) eqn:Hz; cbn [negb].
    + exists 0%float. repeat split; auto; discriminate.
    + exists v0. repeat split; auto; discriminate.
Qed.

Lemma parse_or_0_defined (v : value) (s : string) :
  to_string v = Ok s -> exists e, parse_or_0 v = Ok e.
Proof. intros H. unfold parse_or_0, parseFloat. rewrite H. cbn. eauto. Qed.

Lemma drainageValue_defined (v : value) (s : string) :
  to_string v = Ok s -> exists e, drainageValue v = Ok e.
Proof.
  intros H. unfold drainageValue, get_computed. rewrite H. cbn. eauto.
Qed.

Lemma input_inv (body : value) (vec : list value) :
  input body = Ok vec ->
  exists rainfall altitude areaElevation roadElevation drainageSystem r a ae re d,
    get body "rainfall" = Ok rainfall /\ get body "altitude" = Ok altitude /\
    get body "areaElevation" = Ok areaElevation /\
    get body "roadElevation" = Ok roadElevation /\
    get body "drainageSystem" = Ok drainageSystem /\
    drainageValue drainageSystem = Ok d /\
    parse_or_0 rainfall = Ok r /\ parse_or_0 altitude = Ok a /\
    parse_or_0 areaElevation = Ok ae /\ parse_or_0 roadElevation = Ok re /\
    vec = [r; a; ae; re; d].
Proof.
  unfold input. intros H.
  do 10 (let a := fresh "x" in let Ha := fresh "Hx" in
         apply bind_Ok in H; destruct H as (a & Ha & H)).
  injection H as <-.
  exists x, x0, x1, x2, x3, x5, x6, x7, x8, x4. repeat split; assumption.
Qed.

(** C10.  In every feature vector the handler builds, each of the first four
    entries is a number that is not NaN; where the parse of the field gave
    NaN, the entry is 0. *)
Theorem input_entries_not_nan (body : value) (vec : list value) :
  input body = Ok vec ->
  forall (i : nat) (name : string), numeric_fields !! i = Some name ->
  exists v x n,
    get body name = Ok v /\ parseFloat v = Ok x /\
    vec !! i = Some (VNumber n) /\ is_nan n = false /\
    (is_nan x = true -> n = 0%float).
Proof.
  intros H i name Hname.
  destruct (input_inv _ _ H)
    as (f0 & f1 & f2 & f3 & f4 & r & a & ae & re & d &
        G0 & G1 & G2 & G3 & G4 & Hd & P0 & P1 & P2 & P3 & ->).
  destruct i as [|[|[|[|i]]]]; cbn in Hname; try discriminate;
    injection Hname as <-.
  - destruct (parse_or_0_spec _ _ P0) as (x & n & Hx & -> & Hn & Hz & _).
    exists f0, x, n. auto.
  - destruct (parse_or_0_spec _ _ P1) as (x & n & Hx & -> & Hn & Hz & _).
    exists f1, x, n. auto.
  - destruct (parse_or_0_spec _ _ P2) as (x & n & Hx & -> & Hn & Hz & _).
    exists f2, x, n. auto.
  - destruct (parse_or_0_spec _ _ P3) as (x & n & Hx & -> & Hn & Hz & _).
    exists f3, x, n. auto.
Qed.

Lemma input_entries_not_nan_witness :
  input sample_body = Ok [VNumber 200; VNumber 5; VNumber 2; VNumber 1; VNumber 1] /\
  forall (i : nat) (name : string), numeric_fields !! i = Some name ->
  exists v x n,
    get sample_body name = Ok v /\ parseFloat v = Ok x /\
    [VNumber 200; VNumber 5; VNumber 2; VNumber 1; VNumber 1] !! i = Some (VNumber n) /\
    is_nan n = false /\
    (is_nan x = true -> n = 0%float).
Proof.
  split; [exact sample_input|].
  apply (input_entries_not_nan sample_body). exact sample_input.
Defined.

(** C3, the claim as stated fails: a field holding an object with an own
    property [toString] cannot be converted to a string, [parseFloat] throws,
    and the request is answered with 500. *)
Lemma unstringifiable_field_fails :
  parseFloat (VObject {[ "toString" := VNumber 1 ]}) = Throw /\
  input unstringifiable_body = Throw /\
  status (post_predict forest_with_probabilities unstringifiable_body) = 500%Z.
Proof. repeat split; vm_compute; reflexivity. Qed.

(** When the five fields can be converted to strings, a feature vector is
    built; in it, every numeric field whose parse gives NaN is 0, and the
    request fails only if the forest's [predict] throws. *)
Lemma convertible_fields_are_normalised (rf : classifier) (body : value) :
  (forall name, name ∈ request_fields ->
     exists v s, get body name = Ok v /\ to_string v = Ok s) ->
  exists vec,
    input body = Ok vec /\
    (forall (i : nat) (name : string) (v : value) (x : float),
       numeric_fields !! i = Some name -> get body name = Ok v ->
       parseFloat v = Ok x -> is_nan x = true ->
       vec !! i = Some (VNumber 0)) /\
    (forall prediction, predict rf vec = Ok prediction ->
       status (post_predict rf body) = 200%Z) /\
    (predict rf vec = Throw -> post_predict rf body = predict_failed).
Proof.
  intros Hf.
  assert (exists vec, input body = Ok vec) as [vec Hvec].
  { destruct (Hf "rainfall") as (f0 & s0 & G0 & S0); [by repeat constructor|].
    destruct (Hf "altitude") as (f1 & s1 & G1 & S1); [by repeat constructor|].
    destruct (Hf "areaElevation") as (f2 & s2 & G2 & S2); [by repeat constructor|].
    destruct (Hf "roadElevation") as (f3 & s3 & G3 & S3); [by repeat constructor|].
    destruct (Hf "drainageSystem") as (f4 & s4 & G4 & S4); [by repeat constructor|].
    destruct (drainageValue_defined _ _ S4) as [d Hd].
    destruct (parse_or_0_defined _ _ S0) as [r P0].
    destruct (parse_or_0_defined _ _ S1) as [a P1].
    destruct (parse_or_0_defined _ _ S2) as [ae P2].
    destruct (parse_or_0_defined _ _ S3) as [re P3].
    exists [r; a; ae; re; d]. unfold input.
    rewrite G0, G1, G2, G3, G4. cbn [mbind result_bind].
    rewrite Hd, P0, P1, P2, P3. reflexivity. }
  exists vec. split; [exact Hvec|]. split; [|split].
  - intros i name v x Hname Hg Hp Hn.
    destruct (input_inv _ _ Hvec)
      as (f0 & f1 & f2 & f3 & f4 & r & a & ae & re & d &
          G0 & G1 & G2 & G3 & G4 & Hd & P0 & P1 & P2 & P3 & ->).
    destruct i as [|[|[|[|i]]]]; cbn in Hname; try discriminate;
      injection Hname as <-.
    + destruct (parse_or_0_spec _ _ P0) as (x' & n & Hx & -> & _ & Hz & _).
      rewrite G0 in Hg. injection Hg as <-. rewrite Hp in Hx. injection Hx as <-.
      by rewrite (Hz Hn).
    + destruct (parse_or_0_spec _ _ P1) as (x' & n & Hx & -> & _ & Hz & _).
      rewrite G1 in Hg. injection Hg as <-. rewrite Hp in Hx. injection Hx as <-.
      by rewrite (Hz Hn).
    + destruct (parse_or_0_spec _ _ P2) as (x' & n & Hx & -> & _ & Hz & _).
      rewrite G2 in Hg. injection Hg as <-. rewrite Hp in Hx. injection Hx as <-.
      by rewrite (Hz Hn).
    + destruct (parse_or_0_spec _ _ P3) as (x' & n & Hx & -> & _ & Hz & _).
      rewrite G3 in Hg. injection Hg as <-. rewrite Hp in Hx. injection Hx as <-.
      by rewrite (Hz Hn).
  - intros prediction Hp. rewrite (post_predict_ok _ _ _ _ Hvec Hp). reflexivity.
  - intros Hp. unfold post_predict. rewrite Hvec. cbn [mbind result_bind].
    rewrite Hp. reflexivity.
Qed.

Lemma unparsable_body_fields (name : string) :
  name ∈ request_fields ->
  exists v s, get unparsable_body name = Ok v /\ to_string v = Ok s.
Proof.
  unfold request_fields, numeric_fields; cbn [app].
  rewrite !elem_of_cons, elem_of_nil.
  intros [->|[->|[->|[->|[->|[]]]]]]; eexists; eexists;
    (split; [vm_compute; reflexivity|]); vm_compute; reflexivity.
Qed.

(** A field that cannot be converted to a string makes the conversion
    throw: no feature vector is built, and the answer is the 500 error. *)
Lemma unconvertible_field_fails
    (rf : classifier) (body : value) (name : string) (v : value) :
  name ∈ request_fields -> get body name = Ok v -> to_string v = Throw ->
  (name ∈ numeric_fields -> parseFloat v = Throw) /\
  input body = Throw /\
  post_predict rf body = predict_failed.
Proof.
  intros Hname Hg Hs.
  assert (parseFloat v = Throw) as Hpf by (unfold parseFloat; by rewrite Hs).
  assert (parse_or_0 v = Throw) as Hp0 by (unfold parse_or_0; by rewrite Hpf).
  assert (drainageValue v = Throw) as Hdv
    by (unfold drainageValue, get_computed; by rewrite Hs).
  assert (input body = Throw) as Hin.
  { destruct (input body) as [vec|] eqn:Hvec; [exfalso|reflexivity].
    destruct (input_inv _ _ Hvec)
      as (f0 & f1 & f2 & f3 & f4 & r & a & ae & re & d &
          G0 & G1 & G2 & G3 & G4 & Hd & P0 & P1 & P2 & P3 & _).
    unfold request_fields, numeric_fields in Hname; cbn [app] in Hname.
    rewrite !elem_of_cons, elem_of_nil in Hname.
    destruct Hname as [->|[->|[->|[->|[->|[]]]]]]; congruence. }
  split; [by intros _|]. split; [exact Hin|].
  unfold post_predict. rewrite Hin. reflexivity.
Qed.

(** The values that cannot be converted to a string: the objects with an own
    property [toString], and the arrays that hold one at any depth. *)
Lemma to_string_throws (v : value) : to_string v = Throw <-> has_own_toString v = true.
Proof.
  revert v. fix IH 1. intros [| |b|n|s|elems|props|name];
    cbn [to_string has_own_toString]; try (split; discriminate).
  - revert elems. fix IHl 1. intros [|x r]; [split; discriminate|].
    specialize (IH x). specialize (IHl r).
    rewrite orb_true_iff, <- IH, <- IHl. clear IH IHl.
    set (join := fix join (l : list value) : result string := _) in *.
    assert (nullish x = true -> exists s, to_string x = Ok s) as Hnull
      by (destruct x; try discriminate; intros _; eexists; reflexivity).
    destruct r as [|y r'].
    + change (join []) with (Ok "" : result string).
      destruct (nullish x); [destruct Hnull as [s ->]; [reflexivity|]|];
        [|destruct (to_string x)]; cbn [mbind result_bind];
        split; try discriminate; try tauto; intros [?|?]; discriminate.
    + generalize (join (y :: r')). intros [t|];
        (destruct (nullish x); [destruct Hnull as [s ->]; [reflexivity|]|];
         [|destruct (to_string x)]); cbn [mbind result_bind];
        split; try discriminate; try tauto; intros [?|?]; discriminate.
  - destruct (props !! "toString"); split; congruence.
Qed.

(** C3, amended.  For every request body whose five fields can be converted
    to strings, a feature vector is built and handed to the forest; in it,
    every numeric field whose parse gives NaN is 0, and the request fails
    only if the forest's [predict] throws.  A field that cannot be converted
    to a string makes the conversion throw ([parseFloat] for a numeric
    field): no vector is built and the request is answered with 500, whatever
    the forest.  The values that cannot be converted are the objects with an
    own property [toString], alone or inside an array. *)
Theorem unparsable_field_is_0 (rf : classifier) (body : value) :
  ((forall name, name ∈ request_fields ->
      exists v s, get body name = Ok v /\ to_string v = Ok s) ->
   exists vec,
     input body = Ok vec /\
     (forall (i : nat) (name : string) (v : value) (x : float),
        numeric_fields !! i = Some name -> get body name = Ok v ->
        parseFloat v = Ok x -> is_nan x = true ->
        vec !! i = Some (VNumber 0)) /\
     (forall prediction, predict rf vec = Ok prediction ->
        status (post_predict rf body) = 200%Z) /\
     (predict rf vec = Throw -> post_predict rf body = predict_failed)) /\
  (forall (name : string) (v : value),
     name ∈ request_fields -> get body name = Ok v -> to_string v = Throw ->
     (name ∈ numeric_fields -> parseFloat v = Throw) /\
     input body = Throw /\
     post_predict rf body = predict_failed) /\
  (forall v : value, to_string v = Throw <-> has_own_toString v = true).
Proof.
  split; [|split].
  - apply convertible_fields_are_normalised.
  - intros name v. apply unconvertible_field_fails.
  - apply to_string_throws.
Qed.

Lemma unparsable_field_is_0_witness :
  ((forall name, name ∈ request_fields ->
      exists v s, get unparsable_body name = Ok v /\ to_string v = Ok s) /\
   exists vec,
     input unparsable_body = Ok vec /\
     (forall (i : nat) (name : string) (v : value) (x : float),
        numeric_fields !! i = Some name -> get unparsable_body name = Ok v ->
        parseFloat v = Ok x -> is_nan x = true ->
        vec !! i = Some (VNumber 0)) /\
     (forall prediction, predict forest_with_probabilities vec = Ok prediction ->
        status (post_predict forest_with_probabilities unparsable_body) = 200%Z) /\
     (predict forest_with_probabilities vec = Throw ->
        post_predict forest_with_probabilities unparsable_body = predict_failed)) /\
  (("rainfall" ∈ request_fields /\
    get unstringifiable_body "rainfall" = Ok (VObject {[ "toString" := VNumber 1 ]}) /\
    to_string (VObject {[ "toString" := VNumber 1 ]}) = Throw) /\
   ("rainfall" ∈ numeric_fields ->
      parseFloat (VObject {[ "toString" := VNumber 1 ]}) = Throw) /\
   input unstringifiable_body = Throw /\
   post_predict forest_with_probabilities unstringifiable_body = predict_failed) /\
  has_own_toString (VArray [VNull; VObject {[ "toString" := VNumber 1 ]}]) = true /\
  to_string (VArray [VNull; VObject {[ "toString" := VNumber 1 ]}]) = Throw.
Proof.
  assert ("rainfall" ∈ request_fields) as Hin
    by (unfold request_fields, numeric_fields; cbn [app]; rewrite !elem_of_cons; auto).
  split; [|split; [|split]].
  - split; [exact unparsable_body_fields|].
    apply (proj1 (unparsable_field_is_0 forest_with_probabilities unparsable_body)).
    exact unparsable_body_fields.
  - split; [split; [exact Hin|split; vm_compute; reflexivity]|].
    apply (proj1 (proj2 (unparsable_field_is_0 forest_with_probabilities
                           unstringifiable_body))
             "rainfall" (VObject {[ "toString" := VNumber 1 ]})).
    + exact Hin.
    + vm_compute; reflexivity.
    + vm_compute; reflexivity.
  - vm_compute; reflexivity.
  - apply (proj2 (proj2 (unparsable_field_is_0 forest_with_probabilities
                           unstringifiable_body))
             (VArray [VNull; VObject {[ "toString" := VNumber 1 ]}])).
    vm_compute; reflexivity.
Defined.

Example unparsable_body_input :
  input unparsable_body = Ok [VNumber 0; VNumber 0; VNumber 0; VNumber 1; VNumber 1].
Proof. vm_compute. reflexivity. Qed.

(** A string that merely starts with a number is not coerced to 0. *)
Example numeric_prefix_examples :
  parse_or_0 (VString "12abc") = Ok (VNumber 12) /\
  parse_or_0 (VString "  3.5e1 mm") = Ok (VNumber 35) /\
  parse_or_0 (VString "abc12") = Ok (VNumber 0).
Proof. repeat split; vm_compute; reflexivity. Qed.

(** *** The drainage code *)

(** The three names have the codes 1, 2 and 3. *)
Lemma drainageValue_named :
  drainageValue (VString "Fair") = Ok (VNumber 1) /\
  drainageValue (VString "Good") = Ok (VNumber 2) /\
  drainageValue (VString "Very Good") = Ok (VNumber 3).
Proof. repeat split; vm_compute; reflexivity. Qed.

(** Every other string has the code 2, provided it does not name a member
    of [Object.prototype]. *)
Lemma drainageValue_default (s : string) :
  s ∉ drainage_names -> s ∉ Object_prototype_names ->
  drainageValue (VString s) = Ok (VNumber 2).
Proof.
  unfold drainage_names. rewrite !not_elem_of_cons. intros (H1 & H2 & H3 & _) Hp.
  unfold drainageValue, get_computed, drainageSystemMap.
  cbn [to_string mbind result_bind get].
  rewrite !lookup_insert_ne, lookup_singleton_ne by congruence.
  cbn [default]. unfold Object_prototype.
  rewrite bool_decide_eq_false_2 by exact Hp. reflexivity.
Qed.

(** A missing field ([undefined]) and [null] have the code 2 as well. *)
Lemma drainageValue_missing :
  drainageValue VUndefined = Ok (VNumber 2) /\ drainageValue VNull = Ok (VNumber 2).
Proof. split; vm_compute; reflexivity. Qed.

(** C2, the failing request: the drainage system "constructor" is none of the
    three names, yet the lookup finds [Object.prototype.constructor], which is
    truthy, so the fifth entry of the feature vector is that function and not
    the code 2. *)
Theorem drainage_constructor_is_not_2 :
  input constructor_body
    = Ok [VNumber 200; VNumber 5; VNumber 2; VNumber 1; VNative "Object"].
Proof. vm_compute. reflexivity. Qed.

(** The same happens for every name [Object.prototype] defines. *)
Lemma drainageValue_inherited (s : string) :
  s ∈ Object_prototype_names ->
  exists name, drainageValue (VString s) = Ok (VNative name).
Proof.
  unfold Object_prototype_names. rewrite !elem_of_cons, elem_of_nil.
  intros H; repeat (destruct H as [->|H]; [eexists; vm_compute; reflexivity|]).
  destruct H.
Qed.

(** ** GET /api/environmental-data *)

(** C4.  A request without the [lat] parameter, or without the [lng]
    parameter, is answered with status 400 and an error body. *)
Theorem missing_coordinate_is_400
    (fetch : string -> result fetched) (r1 r2 : float) (query : gmap string value) :
  query !! "lat" = None \/ query !! "lng" = None ->
  status (get_environmental_data fetch r1 r2 query) = 400%Z /\
  field (get_environmental_data fetch r1 r2 query) "error"
    = Some (VString "Latitude and longitude are required").
Proof.
  intros H. unfold get_environmental_data.
  assert (negb (truthy (default VUndefined (query !! "lat")))
          || negb (truthy (default VUndefined (query !! "lng"))) = true) as ->.
  { destruct H as [-> | ->];
      change (default VUndefined None) with VUndefined; cbn [truthy negb];
      [reflexivity|apply orb_true_r]. }
  split; reflexivity.
Qed.

Lemma missing_coordinate_is_400_witness :
  ((∅ : gmap string value) !! "lat" = None
   \/ (∅ : gmap string value) !! "lng" = None) /\
  status (get_environmental_data (fun _ => Throw) 0 0 ∅) = 400%Z /\
  field (get_environmental_data (fun _ => Throw) 0 0 ∅) "error"
    = Some (VString "Latitude and longitude are required").
Proof.
  split; [left; reflexivity|].
  apply (missing_coordinate_is_400 (fun _ => Throw) 0 0 ∅). left; reflexivity.
Defined.

Lemma rainfall_of_failed (fetch : string -> result fetched) (lat lng : value) :
  weather_fails fetch lat lng -> rainfall_of fetch lat lng = VNumber 0.
Proof.
  intros Hw. unfold rainfall_of.
  destruct (to_string lat) as [la|] eqn:Hla; [|reflexivity].
  destruct (to_string lng) as [ln|] eqn:Hln; [|reflexivity].
  cbn [mbind result_bind].
  destruct (Hw la ln Hla Hln) as [->|[j ->]]; reflexivity.
Qed.

(** The last block of the handler (lines 117 to 125): it answers 200 when the
    rainfall and the altitude are both numbers, and throws otherwise. *)
Lemma environmental_block (rainfall altitude : value) (j1 j2 : float) :
  try_catch
    (areaElevation ← add_number altitude j1;
     roadElevation ← add_number altitude j2;
     s_rainfall ← call_toFixed rainfall 1;
     s_altitude ← call_toFixed altitude 1;
     s_area ← call_toFixed areaElevation 1;
     s_road ← call_toFixed roadElevation 1;
     Ok {| status := 200;
           json := VObject {[ "rainfall" := VString s_rainfall;
                              "altitude" := VString s_altitude;
                              "areaElevation" := VString s_area;
                              "roadElevation" := VString s_road ]} |})
    environmental_failed
  = match rainfall, altitude with
    | VNumber x, VNumber a =>
        {| status := 200;
           json := VObject {[ "rainfall" := VString (toFixed x 1);
                              "altitude" := VString (toFixed a 1);
                              "areaElevation" := VString (toFixed (a + j1) 1);
                              "roadElevation" := VString (toFixed (a + j2) 1) ]} |}
    | _, _ => environmental_failed
    end.
Proof.
  destruct altitude as [| |b|a|s|l|o|n];
    cbn [add_number mbind result_bind call_toFixed try_catch];
    try (destruct rainfall; reflexivity).
  - destruct (to_string (VArray l));
      cbn [add_number mbind result_bind call_toFixed try_catch];
      destruct rainfall; reflexivity.
  - destruct (to_string (VObject o));
      cbn [add_number mbind result_bind call_toFixed try_catch];
      destruct rainfall; reflexivity.
Qed.

(** What the handler obtains for the altitude is 0 or a truthy value. *)
Lemma altitude_of_truthy (fetch : string -> result fetched) (lat lng : value) :
  altitude_of fetch lat lng = VNumber 0 \/ truthy (altitude_of fetch lat lng) = true.
Proof.
  unfold altitude_of.
  destruct (to_string lat) as [la|]; [|by left].
  destruct (to_string lng) as [ln|]; [|by left].
  cbn [mbind result_bind].
  destruct (fetch (elevation_url la ln)) as [[[] [elevationData|]]|];
    cbn [ok body_json mbind result_bind try_catch]; try (by left).
  destruct (get elevationData "results") as [results|];
    cbn [mbind result_bind try_catch]; [|by left].
  unfold logical_or. destruct (truthy _) eqn:Ht; [by right|by left].
Qed.

(** C5, the claim as stated fails: the coordinates are present, the weather
    call throws and the rainfall is 0, yet the request is answered with 500,
    because the elevation service delivered the elevation "12", a string. *)
Lemma weather_failure_not_always_200 :
  kathmandu !! "lat" = Some (VString "27.7172") /\
  kathmandu !! "lng" = Some (VString "85.3240") /\
  weather_down_elevation_text (weather_url "27.7172" "85.3240") = Throw /\
  rainfall_of weather_down_elevation_text (VString "27.7172") (VString "85.3240")
    = VNumber 0 /\
  altitude_of weather_down_elevation_text (VString "27.7172") (VString "85.3240")
    = VString "12" /\
  status (get_environmental_data weather_down_elevation_text 0.5 0.5 kathmandu) = 500%Z.
Proof. repeat split; vm_compute; reflexivity. Qed.

(** C5, amended.  For every request whose two coordinates are truthy, if the
    weather call fails the rainfall is 0.  The altitude the handler obtained
    is 0 or a truthy value.  When it is a number, the request is answered
    with status 200 and the rainfall "0.0"; when it is not a number, the
    request is answered with the 500 error, and so it is in every network
    that yields that altitude, whether its weather call fails or not. *)
Theorem weather_failure_is_absorbed
    (fetch : string -> result fetched) (r1 r2 : float) (query : gmap string value)
    (lat lng : value) :
  query !! "lat" = Some lat -> query !! "lng" = Some lng ->
  truthy lat = true -> truthy lng = true ->
  weather_fails fetch lat lng ->
  rainfall_of fetch lat lng = VNumber 0 /\
  (altitude_of fetch lat lng = VNumber 0 \/ truthy (altitude_of fetch lat lng) = true) /\
  match altitude_of fetch lat lng with
  | VNumber _ =>
      status (get_environmental_data fetch r1 r2 query) = 200%Z /\
      field (get_environmental_data fetch r1 r2 query) "rainfall" = Some (VString "0.0")
  | _ =>
      get_environmental_data fetch r1 r2 query = environmental_failed /\
      forall (fetch' : string -> result fetched) (r1' r2' : float),
        altitude_of fetch' lat lng = altitude_of fetch lat lng ->
        get_environmental_data fetch' r1' r2' query = environmental_failed
  end.
Proof.
  intros Hlat Hlng Tlat Tlng Hw.
  pose proof (rainfall_of_failed _ _ _ Hw) as Hr.
  split; [exact Hr|]. split; [apply altitude_of_truthy|].
  assert (forall (fetch' : string -> result fetched) (r1' r2' : float),
            get_environmental_data fetch' r1' r2' query
            = match rainfall_of fetch' lat lng, altitude_of fetch' lat lng with
              | VNumber x, VNumber a =>
                  {| status := 200;
                     json := VObject {[ "rainfall" := VString (toFixed x 1);
                                        "altitude" := VString (toFixed a 1);
                                        "areaElevation" :=
                                          VString (toFixed (a + area_jitter r1') 1);
                                        "roadElevation" :=
                                          VString (toFixed (a + road_jitter r2') 1) ]} |}
              | _, _ => environmental_failed
              end) as Hcases.
  { intros fetch' r1' r2'. unfold get_environmental_data. rewrite Hlat, Hlng.
    change (default VUndefined (Some lat)) with lat.
    change (default VUndefined (Some lng)) with lng.
    rewrite Tlat, Tlng. cbn [negb orb]. apply environmental_block. }
  destruct (altitude_of fetch lat lng) as [| |b|a|s|l|o|n] eqn:Ha.
  4: { rewrite Hcases, Hr, Ha. split; reflexivity. }
  all: split;
    [rewrite Hcases, Hr, Ha; reflexivity
    |intros fetch' r1' r2' Ha'; rewrite Hcases, Ha';
     destruct (rainfall_of fetch' lat lng); reflexivity].
Qed.

Lemma weather_failure_is_absorbed_witness :
  (kathmandu !! "lat" = Some (VString "27.7172") /\
   kathmandu !! "lng" = Some (VString "85.3240") /\
   truthy (VString "27.7172") = true /\ truthy (VString "85.3240") = true /\
   weather_fails (fun _ => Throw) (VString "27.7172") (VString "85.3240")) /\
  rainfall_of (fun _ => Throw) (VString "27.7172") (VString "85.3240") = VNumber 0 /\
  (altitude_of (fun _ => Throw) (VString "27.7172") (VString "85.3240") = VNumber 0 \/
   truthy (altitude_of (fun _ => Throw) (VString "27.7172") (VString "85.3240")) = true) /\
  match altitude_of (fun _ => Throw) (VString "27.7172") (VString "85.3240") with
  | VNumber _ =>
      status (get_environmental_data (fun _ => Throw) 0.5 0.5 kathmandu) = 200%Z /\
      field (get_environmental_data (fun _ => Throw) 0.5 0.5 kathmandu) "rainfall"
        = Some (VString "0.0")
  | _ =>
      get_environmental_data (fun _ => Throw) 0.5 0.5 kathmandu = environmental_failed /\
      forall (fetch' : string -> result fetched) (r1' r2' : float),
        altitude_of fetch' (VString "27.7172") (VString "85.3240")
          = altitude_of (fun _ => Throw) (VString "27.7172") (VString "85.3240") ->
        get_environmental_data fetch' r1' r2' kathmandu = environmental_failed
  end.
Proof.
  assert (weather_fails (fun _ => Throw) (VString "27.7172") (VString "85.3240")) as Hw.
  { intros la ln _ _. left. reflexivity. }
  split; [repeat split; try reflexivity; exact Hw|].
  apply (weather_failure_is_absorbed (fun _ => Throw) 0.5 0.5 kathmandu
           (VString "27.7172") (VString "85.3240"));
    try reflexivity; exact Hw.
Defined.

(** *** The two jitters *)

Lemma jitter_range (k : Z) (r c1 c0 : float) :
  (-1021 <= k <= 900)%Z ->
  Prim2SF c1 = pow2_SF (k + 1) -> Prim2SF c0 = pow2_SF k ->
  (0 <=? r)%float = true -> (r <? 1)%float = true ->
  (- c0 <=? r * c1 - c0)%float = true /\ (r * c1 - c0 <? c0)%float = true.
Proof.
  intros Hk H1 H0 Hle Hlt.
  rewrite FloatAxioms.leb_spec in Hle. rewrite FloatAxioms.ltb_spec in Hlt.
  change (Prim2SF 0) with (S754_zero false) in Hle.
  change (Prim2SF 1) with (pow2_SF 0) in Hlt.
  pose proof (Prim2SF_valid r) as Hv.
  pose proof (Prim2SF_valid (r * c1)) as HvY.
  pose proof (Prim2SF_valid (r * c1 - c0)) as HvW.
  rewrite FloatAxioms.leb_spec, FloatAxioms.ltb_spec, opp_spec.
  rewrite sub_spec, mul_spec, H1, H0 in *.
  by apply jitter_SF_range.
Qed.

Lemma area_jitter_range (r : float) :
  (0 <=? r)%float = true -> (r <? 1)%float = true ->
  (-1 <=? area_jitter r)%float = true /\ (area_jitter r <? 1)%float = true.
Proof. apply (jitter_range 0 r 2 1); [lia|reflexivity|reflexivity]. Qed.

Lemma road_jitter_range (r : float) :
  (0 <=? r)%float = true -> (r <? 1)%float = true ->
  (-0.25 <=? road_jitter r)%float = true /\ (road_jitter r <? 0.25)%float = true.
Proof. apply (jitter_range (-2) r 0.5 0.25); [lia|reflexivity|reflexivity]. Qed.

(** *** The text of [toFixed(1)] *)

Lemma append_cons (c : ascii) (s t : string) : String c s +:+ t = String c (s +:+ t).
Proof. reflexivity. Qed.

Lemma append_nil (t : string) : "" +:+ t = t.
Proof. reflexivity. Qed.

Lemma digits_point_digit_app (ip : string) (d : ascii) :
  all_digits ip = true -> is_digit d = true ->
  digits_point_digit (ip +:+ "." +:+ String d "") = true.
Proof.
  intros Hip Hd. induction ip as [|c ip IH].
  - rewrite append_nil, append_cons, append_nil. exact Hd.
  - rewrite append_cons. cbn [all_digits digits_point_digit] in *.
    apply andb_true_iff in Hip as [-> Hip]. by apply IH.
Qed.

Lemma all_digits_uint (u : Decimal.uint) : all_digits (NilEmpty.string_of_uint u) = true.
Proof. induction u; cbn [NilEmpty.string_of_uint all_digits]; try done. Qed.

Lemma Z_to_string_digits (z : Z) :
  all_digits (Z_to_string z) = true /\ (1 <= String.length (Z_to_string z))%nat.
Proof.
  unfold Z_to_string, NilZero.string_of_uint.
  destruct (N.to_uint (Z.to_N z)) as [|u|u|u|u|u|u|u|u|u|u] eqn:Hu;
    try (split; [reflexivity|cbn; lia]);
    (split; [apply (all_digits_uint (_ u))|cbn; lia]).
Qed.

Lemma substring_0_S (m : nat) (c : ascii) (s : string) :
  substring 0 (S m) (String c s) = String c (substring 0 m s).
Proof. reflexivity. Qed.

Lemma substring_S (n m : nat) (c : ascii) (s : string) :
  substring (S n) m (String c s) = substring n m s.
Proof. reflexivity. Qed.

(** The last character of a string of digits, and what precedes it. *)
Lemma split_last_digit (ds : string) :
  all_digits ds = true -> (1 <= String.length ds)%nat ->
  all_digits (substring 0 (String.length ds - 1) ds) = true /\
  exists d, substring (String.length ds - 1) 1 ds = String d "" /\ is_digit d = true.
Proof.
  induction ds as [|c ds IH]; cbn [String.length all_digits]; [lia|].
  intros [Hc Hds]%andb_true_iff _.
  destruct ds as [|c' ds'].
  - cbn. split; [done|]. by exists c.
  - destruct (IH Hds ltac:(cbn; lia)) as [IH1 (d & IH2 & Hd)].
    cbn [String.length] in *.
    replace (S (S (String.length ds')) - 1)%nat with (S (String.length ds')) by lia.
    replace (S (String.length ds') - 1)%nat with (String.length ds') in IH1, IH2 by lia.
    rewrite substring_0_S, substring_S.
    split.
    + cbn [all_digits]. by rewrite Hc, IH1.
    + exists d. split; [exact IH2|exact Hd].
Qed.

Lemma one_decimal_digits (neg : bool) (ds : string) :
  all_digits ds = true -> (2 <= String.length ds)%nat ->
  one_decimal ((if neg then "-" else "") +:+
               substring 0 (String.length ds - 1) ds +:+ "." +:+
               substring (String.length ds - 1) 1 ds) = true.
Proof.
  intros Hds Hlen.
  destruct (split_last_digit ds Hds ltac:(lia)) as [Hip (d & -> & Hd)].
  assert (exists c ip, substring 0 (String.length ds - 1) ds = String c ip) as (c & ip & Hsub).
  { destruct ds as [|c [|c' ds']]; cbn [String.length] in Hlen; try lia.
    cbn [String.length].
    replace (S (S (String.length ds')) - 1)%nat with (S (String.length ds')) by lia.
    rewrite substring_0_S. eauto. }
  rewrite Hsub in *.
  pose proof Hip as Hip'. cbn [all_digits] in Hip'. apply andb_true_iff in Hip' as [Hc _].
  assert (one_decimal (String c ip +:+ "." +:+ String d "") = true) as Hpos.
  { pose proof (digits_point_digit_app _ d Hip Hd) as Hdp.
    rewrite append_cons in *. unfold one_decimal.
    destruct (Ascii.eqb_spec c "-") as [->|Hne]; [discriminate|].
    assert (match String c (ip +:+ "." +:+ String d "") with
            | String "-" r => r
            | _ => String c (ip +:+ "." +:+ String d "")
            end = String c (ip +:+ "." +:+ String d "")) as ->.
    { destruct c as [[] [] [] [] [] [] [] []]; try reflexivity. by destruct Hne. }
    by rewrite Hc, Hdp. }
  destruct neg; [|exact Hpos].
  pose proof (digits_point_digit_app _ d Hip Hd) as Hdp.
  change ("-" +:+ String c ip +:+ "." +:+ String d "")
    with (String "-" (String c ip +:+ "." +:+ String d "")).
  rewrite append_cons in *. unfold one_decimal. by rewrite Hc, Hdp.
Qed.

(** Below [1e21] in magnitude, [toFixed(1)] writes one decimal place. *)
Lemma toFixed_one_decimal (x : float) :
  (abs x <? 1e21)%float = true -> one_decimal (toFixed x 1) = true.
Proof.
  rewrite FloatAxioms.ltb_spec, abs_spec.
  change (Prim2SF 1e21) with (S754_finite false 7629394531250000 17).
  pose proof (Prim2SF_valid x) as Hv. unfold toFixed.
  destruct (Prim2SF x) as [s|s| |s m e]; try discriminate.
  - intros _. reflexivity.
  - cbn [SFabs]. unfold SFltb. rewrite SFcompare_finite_pos. intros Hlt.
    destruct (bounded_spec m e Hv) as (He & Hm & _).
    assert ((e < 17 \/ e = 17 /\ Zpos m < 7629394531250000)%Z) as Hcmp.
    { destruct (Z.compare_spec e 17) as [->|?|?]; [right|left; lia|discriminate].
      split; [done|]. by destruct (Z.compare_spec (Zpos m) 7629394531250000). }
    clear Hlt Hv.
    assert (exists a b, ratio m e = (a, b) /\ (a < 10 ^ 21 * b)%Z) as (a & b & -> & Hab).
    { unfold ratio. destruct (Z.leb_spec 0 e) as [Hpos|Hneg]; eexists; eexists;
        (split; [reflexivity|]).
      - destruct Hcmp as [Hlt|[-> Hlt]].
        + assert (2 ^ e <= 2 ^ 16)%Z by (apply Z.pow_le_mono_r; lia).
          assert (0 < 2 ^ e)%Z by (apply Z.pow_pos_nonneg; lia).
          change (2 ^ 16)%Z with 65536%Z in *. change (2 ^ 53)%Z with 9007199254740992%Z in *.
          change (10 ^ 21)%Z with 1000000000000000000000%Z. nia.
        + change (2 ^ 17)%Z with 131072%Z. change (10 ^ 21)%Z with 1000000000000000000000%Z. lia.
      - assert (0 < 2 ^ (- e))%Z by (apply Z.pow_pos_nonneg; lia).
        change (2 ^ 53)%Z with 9007199254740992%Z in *.
        change (10 ^ 21)%Z with 1000000000000000000000%Z. nia. }
    destruct (Z.leb_spec (10 ^ 21 * b) a) as [|_]; [lia|].
    set (n := ((2 * a * 10 ^ Z.of_nat 1 + b) / (2 * b))%Z).
    destruct (Z_to_string_digits n) as [Hd Hl].
    set (ds0 := Z_to_string n) in *.
    set (ds := if (String.length ds0 <=? 1)%nat then zeros (1 + 1 - String.length ds0) +:+ ds0 else ds0).
    assert (all_digits ds = true /\ (2 <= String.length ds)%nat) as [Hds Hlen].
    { unfold ds. destruct (Nat.leb_spec (String.length ds0) 1) as [H1|H1].
      - assert (String.length ds0 = 1%nat) as -> by lia.
        change (zeros (1 + 1 - 1)) with "0". rewrite append_cons, append_nil.
        cbn [all_digits String.length]. rewrite Hd. split; [reflexivity|lia].
      - split; [exact Hd|lia]. }
    exact (one_decimal_digits s ds Hds Hlen).
Qed.

(** *** The fields of a successful response *)

Example environmental_data_sample :
  json (get_environmental_data (network_with (VNumber 12.34) (VNumber 1400)) 0.75 0.5 kathmandu)
  = VObject {[ "rainfall" := VString "12.3"; "altitude" := VString "1400.0";
               "areaElevation" := VString "1400.5"; "roadElevation" := VString "1400.0" ]}.
Proof. vm_compute. reflexivity. Qed.

(** C7, the claim as stated fails: a number of magnitude [1e21] or more is
    not written with one decimal place. *)
Lemma huge_rainfall_is_not_one_decimal :
  status (get_environmental_data (network_with (VNumber 1e21) (VNumber 1400)) 0.75 0.5 kathmandu)
    = 200%Z /\
  field (get_environmental_data (network_with (VNumber 1e21) (VNumber 1400)) 0.75 0.5 kathmandu)
    "rainfall" = Some (VString "1e+21") /\
  one_decimal "1e+21" = false.
Proof. repeat split; vm_compute; reflexivity. Qed.

(** C7, amended.  In every successful response the four fields are
    [toFixed(1)] of four numbers: the rainfall and the altitude the handler
    obtained, and the altitude plus the area jitter and plus the road jitter.
    For draws of [Math.random()] in the unit interval the area jitter lies in
    [-1, 1) and the road jitter in [-0.25, 0.25).  Each of the four numbers
    that is below [1e21] in magnitude is written with one decimal place. *)
Theorem environmental_fields
    (fetch : string -> result fetched) (r1 r2 : float) (query : gmap string value) :
  status (get_environmental_data fetch r1 r2 query) = 200%Z ->
  (0 <=? r1)%float = true -> (r1 <? 1)%float = true ->
  (0 <=? r2)%float = true -> (r2 <? 1)%float = true ->
  exists rainfall altitude : float,
    let lat := default VUndefined (query !! "lat") in
    let lng := default VUndefined (query !! "lng") in
    let response := get_environmental_data fetch r1 r2 query in
    let areaElevation := (altitude + area_jitter r1)%float in
    let roadElevation := (altitude + road_jitter r2)%float in
    rainfall_of fetch lat lng = VNumber rainfall /\
    altitude_of fetch lat lng = VNumber altitude /\
    field response "rainfall" = Some (VString (toFixed rainfall 1)) /\
    field response "altitude" = Some (VString (toFixed altitude 1)) /\
    field response "areaElevation" = Some (VString (toFixed areaElevation 1)) /\
    field response "roadElevation" = Some (VString (toFixed roadElevation 1)) /\
    ((-1 <=? area_jitter r1)%float = true /\ (area_jitter r1 <? 1)%float = true) /\
    ((-0.25 <=? road_jitter r2)%float = true /\ (road_jitter r2 <? 0.25)%float = true) /\
    (forall x, x ∈ [rainfall; altitude; areaElevation; roadElevation] ->
       (abs x <? 1e21)%float = true -> one_decimal (toFixed x 1) = true).
Proof.
  intros Hs H1 H1' H2 H2'. unfold get_environmental_data in *.
  set (lat := default VUndefined (query !! "lat")) in *.
  set (lng := default VUndefined (query !! "lng")) in *.
  destruct (negb (truthy lat) || negb (truthy lng)); [discriminate|].
  destruct (altitude_of fetch lat lng) as [| |b|a|s|l|o|n] eqn:Ha;
    cbn [add_number mbind result_bind call_toFixed try_catch] in Hs.
  4: { destruct (rainfall_of fetch lat lng) as [| |b|x|s|l|o|n] eqn:Hr;
         cbn [add_number mbind result_bind call_toFixed try_catch] in Hs;
         try discriminate.
       exists x, a. cbn zeta.
       cbn [add_number mbind result_bind call_toFixed try_catch].
       repeat (split; [reflexivity|]).
       split; [by apply area_jitter_range|].
       split; [by apply road_jitter_range|].
       intros y _. apply toFixed_one_decimal. }
  all: try (destruct (rainfall_of fetch lat lng);
            cbn [add_number mbind result_bind call_toFixed try_catch] in Hs;
            discriminate).
  all: destruct (to_string _);
       cbn [add_number mbind result_bind call_toFixed try_catch] in Hs;
       try discriminate;
       destruct (rainfall_of fetch lat lng);
       cbn [add_number mbind result_bind call_toFixed try_catch] in Hs;
       discriminate.
Qed.

Lemma environmental_fields_witness :
  (status (get_environmental_data (network_with (VNumber 12.34) (VNumber 1400))
             0.75 0.5 kathmandu) = 200%Z /\
   (0 <=? 0.75)%float = true /\ (0.75 <? 1)%float = true /\
   (0 <=? 0.5)%float = true /\ (0.5 <? 1)%float = true) /\
  exists rainfall altitude : float,
    let lat := default VUndefined (kathmandu !! "lat") in
    let lng := default VUndefined (kathmandu !! "lng") in
    let response :=
      get_environmental_data (network_with (VNumber 12.34) (VNumber 1400))
        0.75 0.5 kathmandu in
    let areaElevation := (altitude + area_jitter 0.75)%float in
    let roadElevation := (altitude + road_jitter 0.5)%float in
    rainfall_of (network_with (VNumber 12.34) (VNumber 1400)) lat lng = VNumber rainfall /\
    altitude_of (network_with (VNumber 12.34) (VNumber 1400)) lat lng = VNumber altitude /\
    field response "rainfall" = Some (VString (toFixed rainfall 1)) /\
    field response "altitude" = Some (VString (toFixed altitude 1)) /\
    field response "areaElevation" = Some (VString (toFixed areaElevation 1)) /\
    field response "roadElevation" = Some (VString (toFixed roadElevation 1)) /\
    ((-1 <=? area_jitter 0.75)%float = true /\ (area_jitter 0.75 <? 1)%float = true) /\
    ((-0.25 <=? road_jitter 0.5)%float = true /\ (road_jitter 0.5 <? 0.25)%float = true) /\
    (forall x, x ∈ [rainfall; altitude; areaElevation; roadElevation] ->
       (abs x <? 1e21)%float = true -> one_decimal (toFixed x 1) = true).
Proof.
  split; [repeat split; vm_compute; reflexivity|].
  apply (environmental_fields (network_with (VNumber 12.34) (VNumber 1400))
           0.75 0.5 kathmandu); vm_compute; reflexivity.
Defined.

(** ** The training set and the spec's example request *)

(** [X] holds the 15 feature rows and [y] the first element of each of the 15
    label rows. *)
Lemma training_set_split :
  X = [ [50; 100; 50; 52; 3]; [200; 5; 2; 1; 1]; [150; 10; 5; 4; 1];
        [20; 200; 150; 152; 3]; [300; 2; 1; 1; 1]; [80; 50; 20; 22; 2];
        [120; 15; 8; 7; 2]; [180; 8; 4; 3; 1]; [40; 120; 80; 82; 3];
        [250; 5; 3; 2; 1]; [60; 40; 15; 16; 2]; [220; 12; 6; 5; 1];
        [10; 300; 250; 252; 3]; [100; 20; 10; 11; 2]; [140; 18; 9; 8; 1] ]%float /\
  y = [Some 0; Some 1; Some 1; Some 0; Some 1; Some 0; Some 0; Some 1;
       Some 0; Some 1; Some 0; Some 1; Some 0; Some 0; Some 0]%float.
Proof. split; vm_compute; reflexivity. Qed.

(** The feature vector of the example request is the second training row,
    whose label is 1. *)
Lemma sample_request_is_training_row :
  exists row,
    X !! 1%nat = Some row /\ y !! 1%nat = Some (Some 1%float) /\
    input sample_body = Ok (VNumber <$> row).
Proof.
  exists [200; 5; 2; 1; 1]%float.
  split; [vm_compute; reflexivity|]. split; [vm_compute; reflexivity|].
  exact sample_input.
Qed.

(** If the forest gives the example request's vector the label of that
    training row, the response says "Flood Likely" and carries one of the
    three risk levels. *)
Lemma example_request_flood_likely (rf : classifier) :
  predict rf [VNumber 200; VNumber 5; VNumber 2; VNumber 1; VNumber 1] = Ok 1%float ->
  status (post_predict rf sample_body) = 200%Z /\
  field (post_predict rf sample_body) "prediction" = Some (VString "Flood Likely") /\
  exists level,
    field (post_predict rf sample_body) "riskLevel" = Some (VString level) /\
    level ∈ ["High"; "Medium"; "Low"].
Proof.
  intros Hp. rewrite (post_predict_ok _ _ _ _ sample_input Hp).
  destruct (predict_ok_fields 1
              (floodProb rf [VNumber 200; VNumber 5; VNumber 2; VNumber 1; VNumber 1] 1))
    as (Hs & Hl & _ & Hr).
  split; [exact Hs|]. split; [exact Hl|].
  eexists. split; [exact Hr|].
  unfold riskLevel. destruct (0.7 <? _)%float; [|destruct (0.4 <? _)%float];
    rewrite !elem_of_cons; auto.
Qed.

Lemma example_request_flood_likely_witness :
  predict forest_with_probabilities
    [VNumber 200; VNumber 5; VNumber 2; VNumber 1; VNumber 1] = Ok 1%float /\
  status (post_predict forest_with_probabilities sample_body) = 200%Z /\
  field (post_predict forest_with_probabilities sample_body) "prediction"
    = Some (VString "Flood Likely") /\
  exists level,
    field (post_predict forest_with_probabilities sample_body) "riskLevel"
      = Some (VString level) /\
    level ∈ ["High"; "Medium"; "Low"].
Proof.
  split; [reflexivity|].
  apply (example_request_flood_likely forest_with_probabilities). reflexivity.
Defined.

Lemma drainageValue_default_witness :
  (("Excellent" ∉ drainage_names) /\ ("Excellent" ∉ Object_prototype_names)) /\
  drainageValue (VString "Excellent") = Ok (VNumber 2).
Proof.
  assert ("Excellent" ∉ drainage_names) as H1.
  { unfold drainage_names. rewrite !not_elem_of_cons. repeat split; try discriminate.
    apply not_elem_of_nil. }
  assert ("Excellent" ∉ Object_prototype_names) as H2.
  { unfold Object_prototype_names. rewrite !not_elem_of_cons.
    repeat split; try discriminate. apply not_elem_of_nil. }
  split; [by split|]. exact (drainageValue_default "Excellent" H1 H2).
Defined.

(** ** More on POST /api/predict *)

(** The prediction endpoint has two answers: the 500 of its [catch], whose
    body holds nothing but the error text, and a 200 whose body holds exactly
    the three fields, the prediction being one of the two labels and the risk
    level one of the three tiers. *)
Theorem prediction_answer_shape (rf : classifier) (body : value) :
  (status (post_predict rf body) = 500%Z /\
   json (post_predict rf body)
     = VObject {[ "error" := VString "Failed to process prediction" ]}) \/
  (status (post_predict rf body) = 200%Z /\
   exists label probability level,
     json (post_predict rf body)
       = VObject {[ "prediction" := VString label;
                    "probability" := VString probability;
                    "riskLevel" := VString level ]} /\
     label ∈ ["Flood Likely"; "No Flood Expected"] /\
     level ∈ ["High"; "Medium"; "Low"]).
Proof.
  unfold post_predict.
  destruct (input body) as [inp|]; cbn [mbind result_bind try_catch]; [|by left].
  destruct (predict rf inp) as [prediction|]; cbn [mbind result_bind try_catch]; [|by left].
  right. split; [reflexivity|].
  exists (prediction_label prediction),
         (toFixed (floodProb rf inp prediction * 100) 2),
         (riskLevel (floodProb rf inp prediction)).
  split; [reflexivity|]. split.
  - unfold prediction_label. destruct (prediction =? 1)%float;
      rewrite !elem_of_cons; auto.
  - unfold riskLevel. destruct (0.7 <? _)%float; [|destruct (0.4 <? _)%float];
      rewrite !elem_of_cons; auto.
Qed.

(** A body that has none of the five fields is classified as the vector
    [0, 0, 0, 0, 2]: every absent number reads as 0 and the absent drainage
    system as "Good". *)
Theorem absent_fields_take_defaults (body : value) :
  (forall name, name ∈ request_fields -> get body name = Ok VUndefined) ->
  input body = Ok [VNumber 0; VNumber 0; VNumber 0; VNumber 0; VNumber 2].
Proof.
  intros H. unfold input.
  rewrite (H "rainfall"), (H "altitude"), (H "areaElevation"),
    (H "roadElevation"), (H "drainageSystem")
    by (unfold request_fields, numeric_fields; cbn [app]; rewrite !elem_of_cons; auto 10).
  vm_compute. reflexivity.
Qed.

Lemma other_fields_absent (name : string) :
  name ∈ request_fields ->
  get (VObject {[ "unit" := VString "mm" ]}) name = Ok VUndefined.
Proof.
  unfold request_fields, numeric_fields; cbn [app].
  rewrite !elem_of_cons, elem_of_nil.
  intros [->|[->|[->|[->|[->|[]]]]]]; vm_compute; reflexivity.
Qed.

Lemma absent_fields_take_defaults_witness :
  (forall name, name ∈ request_fields ->
     get (VObject {[ "unit" := VString "mm" ]}) name = Ok VUndefined) /\
  input (VObject {[ "unit" := VString "mm" ]})
    = Ok [VNumber 0; VNumber 0; VNumber 0; VNumber 0; VNumber 2].
Proof.
  split; [exact other_fields_absent|].
  apply (absent_fields_take_defaults (VObject {[ "unit" := VString "mm" ]})).
  exact other_fields_absent.
Defined.

(** A request without a body ([req.body] is [undefined] or [null]) is
    answered with 500, whatever the forest: the destructuring throws. *)
Theorem bodiless_request_is_500 (rf : classifier) (body : value) :
  nullish body = true -> post_predict rf body = predict_failed.
Proof. destruct body; try discriminate; reflexivity. Qed.

Lemma bodiless_request_is_500_witness :
  nullish VUndefined = true /\
  post_predict forest_with_probabilities VUndefined = predict_failed.
Proof.
  split; [reflexivity|].
  apply (bodiless_request_is_500 forest_with_probabilities VUndefined). reflexivity.
Defined.

(** On the fallback path the probability is written "85.00" for the label 1
    and "15.00" for every other label. *)
Theorem fallback_probability_text
    (rf : classifier) (body : value) (inp : list value) (prediction : float) :
  input body = Ok inp -> predict rf inp = Ok prediction ->
  predictProbability rf inp = Throw ->
  field (post_predict rf body) "probability"
    = Some (VString (if (prediction =? 1)%float then "85.00" else "15.00")).
Proof.
  intros Hi Hp Ht. rewrite (post_predict_ok _ _ _ _ Hi Hp).
  destruct (predict_ok_fields prediction (floodProb rf inp prediction)) as (_ & _ & -> & _).
  unfold floodProb. rewrite Ht. unfold try_catch; cbn [mbind result_bind].
  destruct (prediction =? 1)%float; vm_compute; reflexivity.
Qed.

Lemma fallback_probability_text_witness :
  (input sample_body = Ok [VNumber 200; VNumber 5; VNumber 2; VNumber 1; VNumber 1] /\
   predict (forest_without_probabilities 0)
     [VNumber 200; VNumber 5; VNumber 2; VNumber 1; VNumber 1] = Ok 0%float /\
   predictProbability (forest_without_probabilities 0)
     [VNumber 200; VNumber 5; VNumber 2; VNumber 1; VNumber 1] = Throw) /\
  field (post_predict (forest_without_probabilities 0) sample_body) "probability"
    = Some (VString (if (0 =? 1)%float then "85.00" else "15.00")).
Proof.
  split; [split; [exact sample_input|split; reflexivity]|].
  apply (fallback_probability_text (forest_without_probabilities 0) sample_body
           [VNumber 200; VNumber 5; VNumber 2; VNumber 1; VNumber 1] 0%float).
  - exact sample_input.
  - reflexivity.
  - reflexivity.
Defined.

(** ** More on GET /api/environmental-data *)

(** The environmental endpoint has three answers.  It answers 400 exactly
    when a coordinate is falsy; otherwise it answers 200 exactly when the
    rainfall and the altitude it obtained are both numbers, and 500 when one
    of them is a truthy value of another type. *)
Theorem environmental_answer_cases
    (fetch : string -> result fetched) (r1 r2 : float) (query : gmap string value) :
  let lat := default VUndefined (query !! "lat") in
  let lng := default VUndefined (query !! "lng") in
  let answer := get_environmental_data fetch r1 r2 query in
  (truthy lat && truthy lng = false /\ answer = environmental_bad_request) \/
  (truthy lat && truthy lng = true /\
   is_number (rainfall_of fetch lat lng) && is_number (altitude_of fetch lat lng) = false /\
   answer = environmental_failed) \/
  (truthy lat && truthy lng = true /\
   is_number (rainfall_of fetch lat lng) && is_number (altitude_of fetch lat lng) = true /\
   status answer = 200%Z).
Proof.
  cbn zeta. unfold get_environmental_data.
  set (lat := default VUndefined (query !! "lat")).
  set (lng := default VUndefined (query !! "lng")).
  destruct (truthy lat) eqn:Tlat; [destruct (truthy lng) eqn:Tlng|];
    cbn [negb orb andb]; [|by left|by left].
  right. rewrite environmental_block.
  destruct (rainfall_of fetch lat lng); cbn [is_number andb]; try (by left);
    destruct (altitude_of fetch lat lng); cbn [is_number andb]; try (by left).
  right. done.
Qed.

(** For coordinates that are strings, as the parameters of a query string
    are, the answer is 400 exactly when one of them is empty. *)
Theorem empty_coordinate_is_400
    (fetch : string -> result fetched) (r1 r2 : float) (query : gmap string value)
    (la ln : string) :
  query !! "lat" = Some (VString la) -> query !! "lng" = Some (VString ln) ->
  status (get_environmental_data fetch r1 r2 query) = 400%Z <-> la = "" \/ ln = "".
Proof.
  intros Hla Hln. unfold get_environmental_data. rewrite Hla, Hln.
  change (default VUndefined (Some ?v)) with v. cbn [truthy]. rewrite !negb_involutive.
  destruct (String.eqb_spec la "") as [->|Ha]; cbn [orb].
  { split; [by left|reflexivity]. }
  destruct (String.eqb_spec ln "") as [->|Hn]; cbn [orb].
  { split; [by right|reflexivity]. }
  rewrite environmental_block. split; [|by intros [?|?]].
  destruct (rainfall_of _ _ _); try discriminate.
  destruct (altitude_of _ _ _); discriminate.
Qed.

Lemma empty_coordinate_is_400_witness :
  ((({[ "lat" := VString ""; "lng" := VString "85.3240" ]} : gmap string value) !! "lat"
      = Some (VString "")) /\
   (({[ "lat" := VString ""; "lng" := VString "85.3240" ]} : gmap string value) !! "lng"
      = Some (VString "85.3240"))) /\
  (status (get_environmental_data (fun _ => Throw) 0.5 0.5
             {[ "lat" := VString ""; "lng" := VString "85.3240" ]}) = 400%Z
   <-> "" = "" \/ "85.3240" = "").
Proof.
  split; [split; reflexivity|].
  apply (empty_coordinate_is_400 (fun _ => Throw) 0.5 0.5
           {[ "lat" := VString ""; "lng" := VString "85.3240" ]} "" "85.3240");
    reflexivity.
Defined.

(** One link of an optional chain either stops the chain, at [undefined] or
    [null], or reads the member. *)
Lemma get_opt_cases (v : value) (key : string) :
  get_opt v key = None \/ exists w, get_opt v key = Some w /\ get v key = Ok w.
Proof.
  unfold get_opt. destruct v; cbn [nullish]; auto; right; eexists; split; reflexivity.
Qed.

(** The rainfall the handler obtains is 0, or it is a truthy value the
    weather service delivered: the member [daily.precipitation_sum[0]] of the
    body of a response that was ok.  Nothing else is ever used: a response
    that is not ok, a body that does not parse, a missing member, and a
    falsy member all give 0. *)
Theorem rainfall_provenance (fetch : string -> result fetched) (lat lng : value) :
  rainfall_of fetch lat lng = VNumber 0 \/
  exists la ln weatherData daily sums v,
    to_string lat = Ok la /\ to_string lng = Ok ln /\
    fetch (weather_url la ln) = Ok (Fetched true (Ok weatherData)) /\
    get weatherData "daily" = Ok daily /\
    get daily "precipitation_sum" = Ok sums /\
    get sums "0" = Ok v /\
    truthy v = true /\
    rainfall_of fetch lat lng = v.
Proof.
  unfold rainfall_of.
  destruct (to_string lat) as [la|] eqn:Hla; [|by left].
  destruct (to_string lng) as [ln|] eqn:Hln; [|by left].
  cbn [mbind result_bind].
  destruct (fetch (weather_url la ln)) as [[[] [weatherData|]]|] eqn:Hf;
    cbn [ok body_json mbind result_bind try_catch]; try (by left).
  destruct (get weatherData "daily") as [daily|] eqn:Hd;
    cbn [mbind result_bind try_catch]; [|by left].
  destruct (get_opt_cases daily "precipitation_sum") as [->|(sums & -> & Hs)];
    cbn [mbind option_bind default]; [by left|].
  destruct (get_opt_cases sums "0") as [->|(v & -> & Hv)];
    [by left|].
  change (default VUndefined (Some v)) with v. unfold logical_or.
  destruct (truthy v) eqn:Tv; [|by left].
  right. exists la, ln, weatherData, daily, sums, v. done.
Qed.

(** Likewise for the altitude and the member [results[0].elevation] of the
    answer of the elevation service. *)
Theorem altitude_provenance (fetch : string -> result fetched) (lat lng : value) :
  altitude_of fetch lat lng = VNumber 0 \/
  exists la ln elevationData results first v,
    to_string lat = Ok la /\ to_string lng = Ok ln /\
    fetch (elevation_url la ln) = Ok (Fetched true (Ok elevationData)) /\
    get elevationData "results" = Ok results /\
    get results "0" = Ok first /\
    get first "elevation" = Ok v /\
    truthy v = true /\
    altitude_of fetch lat lng = v.
Proof.
  unfold altitude_of.
  destruct (to_string lat) as [la|] eqn:Hla; [|by left].
  destruct (to_string lng) as [ln|] eqn:Hln; [|by left].
  cbn [mbind result_bind].
  destruct (fetch (elevation_url la ln)) as [[[] [elevationData|]]|] eqn:Hf;
    cbn [ok body_json mbind result_bind try_catch]; try (by left).
  destruct (get elevationData "results") as [results|] eqn:Hd;
    cbn [mbind result_bind try_catch]; [|by left].
  destruct (get_opt_cases results "0") as [->|(first & -> & Hs)];
    cbn [mbind option_bind default]; [by left|].
  destruct (get_opt_cases first "elevation") as [->|(v & -> & Hv)];
    [by left|].
  change (default VUndefined (Some v)) with v. unfold logical_or.
  destruct (truthy v) eqn:Tv; [|by left].
  right. exists la, ln, elevationData, results, first, v. done.
Qed.

(** ** What the handlers do not read *)

(** The prediction endpoint reads the five fields of the body and nothing
    else: two bodies that agree on them get the same answer. *)
Theorem other_fields_are_ignored (rf : classifier) (body body' : value) :
  (forall name, name ∈ request_fields -> get body name = get body' name) ->
  post_predict rf body = post_predict rf body'.
Proof.
  intros H. unfold post_predict, input.
  rewrite (H "rainfall"), (H "altitude"), (H "areaElevation"),
    (H "roadElevation"), (H "drainageSystem")
    by (unfold request_fields, numeric_fields; cbn [app]; rewrite !elem_of_cons; auto 10).
  reflexivity.
Qed.

Lemma sample_body_with_unit (name : string) :
  name ∈ request_fields ->
  get sample_body name = get (VObject (<[ "unit" := VString "mm" ]> {[
      "rainfall" := VString "200"; "altitude" := VString "5";
      "areaElevation" := VString "2"; "roadElevation" := VString "1";
      "drainageSystem" := VString "Fair" ]})) name.
Proof.
  unfold request_fields, numeric_fields; cbn [app].
  rewrite !elem_of_cons, elem_of_nil.
  intros [->|[->|[->|[->|[->|[]]]]]]; vm_compute; reflexivity.
Qed.

Lemma other_fields_are_ignored_witness :
  (forall name, name ∈ request_fields ->
     get sample_body name = get (VObject (<[ "unit" := VString "mm" ]> {[
         "rainfall" := VString "200"; "altitude" := VString "5";
         "areaElevation" := VString "2"; "roadElevation" := VString "1";
         "drainageSystem" := VString "Fair" ]})) name) /\
  post_predict forest_with_probabilities sample_body
  = post_predict forest_with_probabilities
      (VObject (<[ "unit" := VString "mm" ]> {[
         "rainfall" := VString "200"; "altitude" := VString "5";
         "areaElevation" := VString "2"; "roadElevation" := VString "1";
         "drainageSystem" := VString "Fair" ]})).
Proof.
  split; [exact sample_body_with_unit|].
  apply (other_fields_are_ignored forest_with_probabilities sample_body).
  exact sample_body_with_unit.
Defined.

(** ** When the elevation service fails *)

Lemma altitude_of_failed (fetch : string -> result fetched) (lat lng : value) :
  elevation_fails fetch lat lng -> altitude_of fetch lat lng = VNumber 0.
Proof.
  intros Hw. unfold altitude_of.
  destruct (to_string lat) as [la|] eqn:Hla; [|reflexivity].
  destruct (to_string lng) as [ln|] eqn:Hln; [|reflexivity].
  cbn [mbind result_bind].
  destruct (Hw la ln Hla Hln) as [->|[j ->]]; reflexivity.
Qed.

(** Adding a number to the altitude 0 does not change its text. *)
Lemma toFixed_zero_add (j : float) (f : nat) : toFixed (0 + j) f = toFixed j f.
Proof.
  unfold toFixed, Number_toString. rewrite add_spec.
  change (Prim2SF 0) with (S754_zero false).
  destruct (Prim2SF j) as [s|s| |s m e]; try reflexivity.
  destruct s; reflexivity.
Qed.

(** When the elevation call fails (fetch throws or the response is not ok)
    the altitude is 0, and a request whose rainfall is a number is answered
    with the altitude "0.0" and with the two jitters themselves as the area
    and road elevations. *)
Theorem elevation_failure_is_absorbed
    (fetch : string -> result fetched) (r1 r2 x : float) (query : gmap string value)
    (lat lng : value) :
  query !! "lat" = Some lat -> query !! "lng" = Some lng ->
  truthy lat = true -> truthy lng = true ->
  elevation_fails fetch lat lng ->
  rainfall_of fetch lat lng = VNumber x ->
  altitude_of fetch lat lng = VNumber 0 /\
  get_environmental_data fetch r1 r2 query
  = {| status := 200;
       json := VObject {[ "rainfall" := VString (toFixed x 1);
                          "altitude" := VString "0.0";
                          "areaElevation" := VString (toFixed (area_jitter r1) 1);
                          "roadElevation" := VString (toFixed (road_jitter r2) 1) ]} |}.
Proof.
  intros Hlat Hlng Tlat Tlng He Hr.
  pose proof (altitude_of_failed _ _ _ He) as Ha.
  split; [exact Ha|].
  unfold get_environmental_data. rewrite Hlat, Hlng.
  change (default VUndefined (Some lat)) with lat.
  change (default VUndefined (Some lng)) with lng.
  rewrite Tlat, Tlng. cbn [negb orb]. rewrite environmental_block, Hr, Ha.
  rewrite !toFixed_zero_add. reflexivity.
Qed.

Lemma elevation_failure_is_absorbed_witness :
  (kathmandu !! "lat" = Some (VString "27.7172") /\
   kathmandu !! "lng" = Some (VString "85.3240") /\
   truthy (VString "27.7172") = true /\ truthy (VString "85.3240") = true /\
   elevation_fails (elevation_down (VNumber 12.34)) (VString "27.7172") (VString "85.3240") /\
   rainfall_of (elevation_down (VNumber 12.34)) (VString "27.7172") (VString "85.3240")
     = VNumber 12.34) /\
  altitude_of (elevation_down (VNumber 12.34)) (VString "27.7172") (VString "85.3240")
    = VNumber 0 /\
  get_environmental_data (elevation_down (VNumber 12.34)) 0.75 0.5 kathmandu
  = {| status := 200;
       json := VObject {[ "rainfall" := VString (toFixed 12.34 1);
                          "altitude" := VString "0.0";
                          "areaElevation" := VString (toFixed (area_jitter 0.75) 1);
                          "roadElevation" := VString (toFixed (road_jitter 0.5) 1) ]} |}.
Proof.
  assert (elevation_fails (elevation_down (VNumber 12.34))
            (VString "27.7172") (VString "85.3240")) as He.
  { intros la ln [= <-] [= <-]. left. vm_compute. reflexivity. }
  split; [repeat split; try (vm_compute; reflexivity); exact He|].
  apply (elevation_failure_is_absorbed (elevation_down (VNumber 12.34)) 0.75 0.5 12.34
           kathmandu (VString "27.7172") (VString "85.3240"));
    try (vm_compute; reflexivity); exact He.
Defined.

(** ** What the client draws *)

(** An answer with status 500 is stored as the result all the same: it has
    no [riskLevel], so the risk map is drawn in the colour of the level "Low"
    and no EVACUATE banner is shown. *)
Theorem failed_prediction_is_drawn_as_low_risk
    (rf : classifier) (body shown : value) :
  status (post_predict rf body) = 500%Z ->
  heatmap (handlePredict (Ok (http (post_predict rf body))) shown) = Ok (Some "#10b981") /\
  evacuate (handlePredict (Ok (http (post_predict rf body))) shown) = Ok false.
Proof.
  intros Hs.
  destruct (post_predict_cases rf body) as [->|(inp & prediction & _ & _ & Hr)].
  - split; vm_compute; reflexivity.
  - rewrite Hr in Hs. discriminate.
Qed.

Lemma failed_prediction_is_drawn_as_low_risk_witness :
  status (post_predict forest_with_probabilities unstringifiable_body) = 500%Z /\
  heatmap (handlePredict
             (Ok (http (post_predict forest_with_probabilities unstringifiable_body)))
             VNull) = Ok (Some "#10b981") /\
  evacuate (handlePredict
              (Ok (http (post_predict forest_with_probabilities unstringifiable_body)))
              VNull) = Ok false.
Proof.
  split; [vm_compute; reflexivity|].
  apply (failed_prediction_is_drawn_as_low_risk
           forest_with_probabilities unstringifiable_body VNull).
  vm_compute; reflexivity.
Defined.

(** For an answer with status 200 the colour of the risk map follows the
    thresholds of the server: red above 0.7, orange above 0.4, green
    otherwise; the EVACUATE banner is shown exactly above 0.7. *)
Theorem heatmap_follows_probability
    (rf : classifier) (body shown : value) (inp : list value) (prediction : float) :
  input body = Ok inp -> predict rf inp = Ok prediction ->
  heatmap (handlePredict (Ok (http (post_predict rf body))) shown)
    = Ok (Some (if (0.7 <? floodProb rf inp prediction)%float then "#ef4444"
                else if (0.4 <? floodProb rf inp prediction)%float then "#f97316"
                else "#10b981")) /\
  evacuate (handlePredict (Ok (http (post_predict rf body))) shown)
    = Ok (0.7 <? floodProb rf inp prediction)%float.
Proof.
  intros Hi Hp. rewrite (post_predict_ok _ _ _ _ Hi Hp).
  unfold handlePredict, http, predict_ok, heatmap, evacuate, fillColor, riskLevel.
  cbn [mbind result_bind body_json json try_catch truthy get].
  destruct (0.7 <? floodProb rf inp prediction)%float;
    [|destruct (0.4 <? floodProb rf inp prediction)%float];
    split; reflexivity.
Qed.

Lemma heatmap_follows_probability_witness :
  (input sample_body = Ok [VNumber 200; VNumber 5; VNumber 2; VNumber 1; VNumber 1] /\
   predict forest_with_probabilities
     [VNumber 200; VNumber 5; VNumber 2; VNumber 1; VNumber 1] = Ok 1%float) /\
  heatmap (handlePredict (Ok (http (post_predict forest_with_probabilities sample_body))) VNull)
    = Ok (Some (if (0.7 <? floodProb forest_with_probabilities
                             [VNumber 200; VNumber 5; VNumber 2; VNumber 1; VNumber 1] 1)%float
                then "#ef4444"
                else if (0.4 <? floodProb forest_with_probabilities
                                  [VNumber 200; VNumber 5; VNumber 2; VNumber 1; VNumber 1] 1)%float
                then "#f97316"
                else "#10b981")) /\
  evacuate (handlePredict (Ok (http (post_predict forest_with_probabilities sample_body))) VNull)
    = Ok (0.7 <? floodProb forest_with_probabilities
                   [VNumber 200; VNumber 5; VNumber 2; VNumber 1; VNumber 1] 1)%float.
Proof.
  split; [split; [exact sample_input|reflexivity]|].
  apply (heatmap_follows_probability forest_with_probabilities sample_body VNull
           [VNumber 200; VNumber 5; VNumber 2; VNumber 1; VNumber 1] 1%float).
  - exact sample_input.
  - reflexivity.
Defined.

(** ** What a refresh makes of the form *)

Lemma randomised_lookup (r1 r2 r3 r4 : float) (prev : gmap string value) (key : string) :
  randomised r1 r2 r3 r4 prev !! key =
    if decide (key = "roadElevation") then Some (VString (toFixed (r4 * 100) 1))
    else if decide (key = "areaElevation") then Some (VString (toFixed (r3 * 100) 1))
    else if decide (key = "altitude") then Some (VString (toFixed (r2 * 100) 1))
    else if decide (key = "rainfall") then Some (VString (toFixed (r1 * 50) 1))
    else prev !! key.
Proof.
  unfold randomised.
  repeat (case_decide; [subst key; rewrite lookup_insert_eq; reflexivity
                       |rewrite lookup_insert_ne by congruence]).
  reflexivity.
Qed.

Lemma refreshed_lookup (data : value) (prev next : gmap string value) (key : string) :
  refreshed data prev = Ok next ->
  exists rainfall altitude areaElevation roadElevation,
    get data "rainfall" = Ok rainfall /\ get data "altitude" = Ok altitude /\
    get data "areaElevation" = Ok areaElevation /\
    get data "roadElevation" = Ok roadElevation /\
    next !! key =
      if decide (key = "roadElevation") then Some roadElevation
      else if decide (key = "areaElevation") then Some areaElevation
      else if decide (key = "altitude") then Some altitude
      else if decide (key = "rainfall") then Some rainfall
      else prev !! key.
Proof.
  unfold refreshed. intros H.
  inv_bind H. inv_bind H. inv_bind H. inv_bind H. injection H as <-.
  exists v, v0, v1, v2. repeat (split; [assumption|]).
  repeat (case_decide; [subst key; rewrite lookup_insert_eq; reflexivity
                       |rewrite lookup_insert_ne by congruence]).
  reflexivity.
Qed.

Lemma numeric_fields_cases (key : string) :
  key ∈ numeric_fields <->
  key = "rainfall" \/ key = "altitude" \/ key = "areaElevation" \/ key = "roadElevation".
Proof.
  unfold numeric_fields. rewrite !elem_of_cons, elem_of_nil. tauto.
Qed.

(** Whatever the network, the storage and the answer, a call of
    [fetchAutoData] whose updaters run leaves every field of the form other
    than the four numbers as it was (the drainage system among them), and
    gives each of the four numbers a value. *)
Theorem refresh_keeps_other_fields
    (fetch : string -> result fetched) (persist : result unit) (r1 r2 r3 r4 : float)
    (lat lng : value) (prev next : gmap string value) :
  fetchAutoData fetch persist r1 r2 r3 r4 lat lng prev = Ok next ->
  (forall key, key ∉ numeric_fields -> next !! key = prev !! key) /\
  (forall key, key ∈ numeric_fields -> is_Some (next !! key)).
Proof.
  unfold fetchAutoData. intros H.
  assert (forall m : gmap string value,
            (forall key, key ∉ numeric_fields -> randomised r1 r2 r3 r4 m !! key = m !! key) /\
            (forall key, key ∈ numeric_fields -> is_Some (randomised r1 r2 r3 r4 m !! key)))
    as Hrand.
  { intros m. split; intros key Hk; rewrite randomised_lookup;
      rewrite numeric_fields_cases in Hk;
      repeat case_decide; eauto; tauto. }
  destruct (_ ≫= _) as [data|] in H.
  - destruct (refreshed data prev) as [mid|] eqn:Hmid; [|discriminate].
    cbn [mbind result_bind] in H.
    assert ((forall key, key ∉ numeric_fields -> mid !! key = prev !! key) /\
            (forall key, key ∈ numeric_fields -> is_Some (mid !! key))) as [Hm1 Hm2].
    { split; intros key Hk;
        destruct (refreshed_lookup data prev mid key Hmid) as (a & b & c & d & _ & _ & _ & _ & ->);
        rewrite numeric_fields_cases in Hk;
        repeat case_decide; eauto; tauto. }
    destruct persist; injection H as <-; [by split|].
    destruct (Hrand mid) as [H1 H2]. split; [|exact H2].
    intros key Hk. by rewrite H1, Hm1.
  - injection H as <-. apply Hrand.
Qed.

Lemma refresh_keeps_other_fields_witness :
  fetchAutoData sample_server (Ok ()) 0.5 0.5 0.5 0.5 (VNumber 27.7172) (VNumber 85.324)
      initial_inputs
    = Ok (<[ "roadElevation" := VString "1400.0" ]>
            (<[ "areaElevation" := VString "1400.5" ]>
               (<[ "altitude" := VString "1400.0" ]>
                  (<[ "rainfall" := VString "12.3" ]> initial_inputs)))) /\
  (forall key, key ∉ numeric_fields ->
     (<[ "roadElevation" := VString "1400.0" ]>
        (<[ "areaElevation" := VString "1400.5" ]>
           (<[ "altitude" := VString "1400.0" ]>
              (<[ "rainfall" := VString "12.3" ]> initial_inputs)))) !! key
     = initial_inputs !! key) /\
  (forall key, key ∈ numeric_fields ->
     is_Some ((<[ "roadElevation" := VString "1400.0" ]>
                 (<[ "areaElevation" := VString "1400.5" ]>
                    (<[ "altitude" := VString "1400.0" ]>
                       (<[ "rainfall" := VString "12.3" ]> initial_inputs)))) !! key)).
Proof.
  split; [vm_compute; reflexivity|].
  apply (refresh_keeps_other_fields sample_server (Ok ()) 0.5 0.5 0.5 0.5
           (VNumber 27.7172) (VNumber 85.324) initial_inputs).
  vm_compute; reflexivity.
Defined.

(** The three forms of an answer of the environmental endpoint. *)
Lemma environmental_answer_forms
    (net : string -> result fetched) (j1 j2 : float) (query : gmap string value) :
  get_environmental_data net j1 j2 query = environmental_bad_request \/
  get_environmental_data net j1 j2 query = environmental_failed \/
  exists s1 s2 s3 s4,
    get_environmental_data net j1 j2 query
    = {| status := 200;
         json := VObject {[ "rainfall" := VString s1; "altitude" := VString s2;
                            "areaElevation" := VString s3;
                            "roadElevation" := VString s4 ]} |}.
Proof.
  unfold get_environmental_data.
  destruct (negb _ || negb _); [by left|right].
  rewrite environmental_block.
  destruct (rainfall_of _ _ _); auto.
  destruct (altitude_of _ _ _); auto.
  right. eauto.
Qed.

Lemma refreshed_from_server (s1 s2 s3 s4 : string) (prev : gmap string value) :
  refreshed (VObject {[ "rainfall" := VString s1; "altitude" := VString s2;
                        "areaElevation" := VString s3; "roadElevation" := VString s4 ]}) prev
  = Ok (<[ "roadElevation" := VString s4 ]>
          (<[ "areaElevation" := VString s3 ]>
             (<[ "altitude" := VString s2 ]>
                (<[ "rainfall" := VString s1 ]> prev)))).
Proof. reflexivity. Qed.

Lemma inserted_lookup (v1 v2 v3 v4 : value) (prev : gmap string value) (key : string) :
  (<[ "roadElevation" := v4 ]>
     (<[ "areaElevation" := v3 ]>
        (<[ "altitude" := v2 ]> (<[ "rainfall" := v1 ]> prev)))) !! key =
    if decide (key = "roadElevation") then Some v4
    else if decide (key = "areaElevation") then Some v3
    else if decide (key = "altitude") then Some v2
    else if decide (key = "rainfall") then Some v1
    else prev !! key.
Proof.
  repeat (case_decide; [subst key; rewrite lookup_insert_eq; reflexivity
                       |rewrite lookup_insert_ne by congruence]).
  reflexivity.
Qed.

(** When the server answers the environmental request with 400 or 500, the
    client fills the four numbers of the form with the random values of its
    [catch]. *)
Theorem server_error_randomises_inputs
    (fetch net : string -> result fetched) (persist : result unit)
    (r1 r2 r3 r4 j1 j2 : float) (lat lng : value) (la ln : string)
    (query prev : gmap string value) :
  to_string lat = Ok la -> to_string lng = Ok ln ->
  fetch (environmental_data_url la ln) = Ok (http (get_environmental_data net j1 j2 query)) ->
  status (get_environmental_data net j1 j2 query) = 400%Z \/
  status (get_environmental_data net j1 j2 query) = 500%Z ->
  fetchAutoData fetch persist r1 r2 r3 r4 lat lng prev = Ok (randomised r1 r2 r3 r4 prev).
Proof.
  intros Hla Hln Hf Hs. unfold fetchAutoData. rewrite Hla, Hln. cbn [mbind result_bind].
  rewrite Hf. unfold http. cbn [ok body_json].
  destruct Hs as [-> | ->]; reflexivity.
Qed.

Lemma server_error_randomises_inputs_witness :
  (to_string (VNumber 27.7172) = Ok "27.7172" /\ to_string (VNumber 85.324) = Ok "85.324" /\
   (status (get_environmental_data (fun _ => Throw) 0 0 ∅) = 400%Z \/
    status (get_environmental_data (fun _ => Throw) 0 0 ∅) = 500%Z)) /\
  fetchAutoData (fun _ => Ok (http (get_environmental_data (fun _ => Throw) 0 0 ∅)))
      (Ok ()) 0.5 0.5 0.5 0.5 (VNumber 27.7172) (VNumber 85.324) initial_inputs
    = Ok (randomised 0.5 0.5 0.5 0.5 initial_inputs).
Proof.
  split; [split; [vm_compute; reflexivity|split; [vm_compute; reflexivity|left; reflexivity]]|].
  apply (server_error_randomises_inputs
           (fun _ => Ok (http (get_environmental_data (fun _ => Throw) 0 0 ∅)))
           (fun _ => Throw) (Ok ()) 0.5 0.5 0.5 0.5 0 0
           (VNumber 27.7172) (VNumber 85.324) "27.7172" "85.324" ∅ initial_inputs).
  - vm_compute; reflexivity.
  - vm_compute; reflexivity.
  - reflexivity.
  - left; reflexivity.
Defined.

(** When the server answers with 200 and the rest of the [try] block
    completes, the four numbers of the form are the four strings of the
    answer. *)
Theorem refresh_takes_server_data
    (fetch net : string -> result fetched) (r1 r2 r3 r4 j1 j2 : float)
    (lat lng : value) (la ln : string) (query prev : gmap string value) :
  to_string lat = Ok la -> to_string lng = Ok ln ->
  fetch (environmental_data_url la ln) = Ok (http (get_environmental_data net j1 j2 query)) ->
  status (get_environmental_data net j1 j2 query) = 200%Z ->
  exists next,
    fetchAutoData fetch (Ok ()) r1 r2 r3 r4 lat lng prev = Ok next /\
    forall name, name ∈ numeric_fields ->
      next !! name = field (get_environmental_data net j1 j2 query) name /\
      exists s, next !! name = Some (VString s).
Proof.
  intros Hla Hln Hf Hs. unfold fetchAutoData. rewrite Hla, Hln. cbn [mbind result_bind].
  rewrite Hf.
  destruct (environmental_answer_forms net j1 j2 query)
    as [He|[He|(s1 & s2 & s3 & s4 & He)]]; rewrite He in *; try discriminate.
  unfold http. cbn [ok body_json status json].
  change ((200 <=? 200)%Z && (200 <=? 299)%Z) with true.
  cbn [mbind result_bind ok body_json].
  rewrite refreshed_from_server. cbn [mbind result_bind].
  eexists. split; [reflexivity|].
  intros name Hn. rewrite inserted_lookup. unfold field; cbn [json].
  apply numeric_fields_cases in Hn as [->|[->|[->| ->]]];
    (split; [vm_compute; reflexivity|eexists; vm_compute; reflexivity]).
Qed.

Lemma refresh_takes_server_data_witness :
  (to_string (VNumber 27.7172) = Ok "27.7172" /\ to_string (VNumber 85.324) = Ok "85.324" /\
   status (get_environmental_data (network_with (VNumber 12.34) (VNumber 1400))
             0.75 0.5 kathmandu) = 200%Z) /\
  exists next,
    fetchAutoData sample_server (Ok ()) 0.5 0.5 0.5 0.5
      (VNumber 27.7172) (VNumber 85.324) initial_inputs = Ok next /\
    forall name, name ∈ numeric_fields ->
      next !! name
        = field (get_environmental_data (network_with (VNumber 12.34) (VNumber 1400))
                   0.75 0.5 kathmandu) name /\
      exists s, next !! name = Some (VString s).
Proof.
  split; [repeat split; vm_compute; reflexivity|].
  apply (refresh_takes_server_data sample_server
           (network_with (VNumber 12.34) (VNumber 1400)) 0.5 0.5 0.5 0.5 0.75 0.5
           (VNumber 27.7172) (VNumber 85.324) "27.7172" "85.324" kathmandu initial_inputs).
  - vm_compute; reflexivity.
  - vm_compute; reflexivity.
  - reflexivity.
  - vm_compute; reflexivity.
Defined.

(** When the data arrive but the [try] block fails after [setInputs] (the
    write to the local storage throws), the updater of the [catch] runs after
    the one of the refresh: the form ends with the random values, and the
    data that arrived are lost. *)
Theorem storage_failure_discards_fetched_data
    (fetch : string -> result fetched) (r1 r2 r3 r4 : float)
    (lat lng data : value) (la ln : string) (prev : gmap string value) :
  to_string lat = Ok la -> to_string lng = Ok ln ->
  fetch (environmental_data_url la ln) = Ok (Fetched true (Ok data)) ->
  nullish data = false ->
  fetchAutoData fetch Throw r1 r2 r3 r4 lat lng prev = Ok (randomised r1 r2 r3 r4 prev).
Proof.
  intros Hla Hln Hf Hd. unfold fetchAutoData. rewrite Hla, Hln. cbn [mbind result_bind].
  rewrite Hf. cbn [mbind result_bind ok body_json].
  destruct (refreshed data prev) as [mid|] eqn:Hmid.
  - cbn [mbind result_bind]. f_equal. apply map_eq. intros key.
    rewrite !randomised_lookup.
    destruct (refreshed_lookup data prev mid key Hmid) as (a & b & c & d & _ & _ & _ & _ & ->).
    repeat case_decide; reflexivity.
  - unfold refreshed in Hmid. destruct data; discriminate.
Qed.

Lemma storage_failure_discards_fetched_data_witness :
  (to_string (VNumber 27.7172) = Ok "27.7172" /\ to_string (VNumber 85.324) = Ok "85.324" /\
   nullish (VObject {[ "rainfall" := VString "12.3" ]}) = false) /\
  fetchAutoData (fun _ => Ok (Fetched true (Ok (VObject {[ "rainfall" := VString "12.3" ]}))))
      Throw 0.5 0.5 0.5 0.5 (VNumber 27.7172) (VNumber 85.324) initial_inputs
    = Ok (randomised 0.5 0.5 0.5 0.5 initial_inputs).
Proof.
  split; [repeat split; vm_compute; reflexivity|].
  apply (storage_failure_discards_fetched_data
           (fun _ => Ok (Fetched true (Ok (VObject {[ "rainfall" := VString "12.3" ]}))))
           0.5 0.5 0.5 0.5 (VNumber 27.7172) (VNumber 85.324)
           (VObject {[ "rainfall" := VString "12.3" ]}) "27.7172" "85.324" initial_inputs).
  - vm_compute; reflexivity.
  - vm_compute; reflexivity.
  - reflexivity.
  - reflexivity.
Defined.

(** ** The requests the page can send *)

Lemma well_formed_inserted (s1 s2 s3 s4 : string) (prev : gmap string value) :
  well_formed prev ->
  well_formed (<[ "roadElevation" := VString s4 ]>
                 (<[ "areaElevation" := VString s3 ]>
                    (<[ "altitude" := VString s2 ]>
                       (<[ "rainfall" := VString s1 ]> prev)))).
Proof.
  intros [_ (o & Ho & Hd)]. split.
  - intros name Hn. rewrite inserted_lookup.
    apply numeric_fields_cases in Hn as [->|[->|[->| ->]]]; eexists; reflexivity.
  - exists o. split; [exact Ho|]. rewrite inserted_lookup. exact Hd.
Qed.

Lemma well_formed_edit (name text : string) (prev : gmap string value) :
  name ∈ numeric_fields -> well_formed prev -> well_formed (edit name text prev).
Proof.
  intros Hn [Hf (o & Ho & Hd)]. unfold edit. split.
  - intros key Hk. destruct (decide (key = name)) as [->|Hne].
    + rewrite lookup_insert_eq. eauto.
    + rewrite lookup_insert_ne by congruence. by apply Hf.
  - exists o. split; [exact Ho|].
    rewrite lookup_insert_ne; [exact Hd|].
    apply numeric_fields_cases in Hn as [->|[->|[->| ->]]]; discriminate.
Qed.

Lemma well_formed_chosen (option : string) (prev : gmap string value) :
  option ∈ drainage_names -> well_formed prev ->
  well_formed (edit "drainageSystem" option prev).
Proof.
  intros Ho [Hf _]. unfold edit. split.
  - intros key Hk. rewrite lookup_insert_ne; [by apply Hf|].
    apply numeric_fields_cases in Hk as [->|[->|[->| ->]]]; discriminate.
  - exists option. split; [exact Ho|]. apply lookup_insert_eq.
Qed.

Lemma well_formed_fetchAutoData
    (fetch : string -> result fetched) (persist : result unit) (r1 r2 r3 r4 : float)
    (lat lng : value) (prev : gmap string value) :
  from_server fetch -> well_formed prev ->
  exists next,
    fetchAutoData fetch persist r1 r2 r3 r4 lat lng prev = Ok next /\ well_formed next.
Proof.
  intros Hfrom Hwf. unfold fetchAutoData.
  assert (forall m, well_formed m -> well_formed (randomised r1 r2 r3 r4 m)) as Hrand.
  { intros m. apply well_formed_inserted. }
  destruct (to_string lat) as [la|]; cbn [mbind result_bind]; [|eauto].
  destruct (to_string lng) as [ln|]; cbn [mbind result_bind]; [|eauto].
  destruct (fetch (environmental_data_url la ln)) as [f|] eqn:Hf;
    cbn [mbind result_bind]; [|eauto].
  destruct (Hfrom _ _ Hf) as (net & j1 & j2 & query & ->).
  destruct (environmental_answer_forms net j1 j2 query)
    as [->|[->|(s1 & s2 & s3 & s4 & ->)]]; [eauto|eauto|].
  unfold http. cbn [ok body_json status json].
  change ((200 <=? 200)%Z && (200 <=? 299)%Z) with true.
  cbn [mbind result_bind ok body_json].
  rewrite refreshed_from_server. cbn [mbind result_bind].
  pose proof (well_formed_inserted s1 s2 s3 s4 prev Hwf) as Hmid.
  destruct persist; eauto.
Qed.

(** Every sequence of events of the page keeps the form well formed. *)
Lemma run_well_formed (events : list event) (inputs : gmap string value) :
  Forall ui_event events -> well_formed inputs ->
  exists next, run events inputs = Ok next /\ well_formed next.
Proof.
  intros Hev. revert inputs.
  induction Hev as [|e events He _ IH]; intros inputs Hwf; cbn [run]; [eauto|].
  assert (exists mid, step e inputs = Ok mid /\ well_formed mid) as (mid & -> & Hmid).
  { destruct e as [name text|option|fetch persist r1 r2 r3 r4 lat lng]; cbn [step ui_event] in *.
    - eexists. split; [reflexivity|]. by apply well_formed_edit.
    - eexists. split; [reflexivity|]. by apply well_formed_chosen.
    - by apply well_formed_fetchAutoData. }
  cbn [mbind result_bind]. by apply IH.
Qed.

Lemma initial_inputs_well_formed : well_formed initial_inputs.
Proof.
  split.
  - intros name Hn.
    apply numeric_fields_cases in Hn as [->|[->|[->| ->]]]; eexists; vm_compute; reflexivity.
  - exists "Good". split; [|vm_compute; reflexivity].
    unfold drainage_names. rewrite !elem_of_cons. auto.
Qed.

Lemma parse_or_0_string (s : string) :
  exists n, parse_or_0 (VString s) = Ok (VNumber n) /\ is_nan n = false.
Proof.
  destruct (parse_or_0_defined (VString s) s eq_refl) as [e He].
  destruct (parse_or_0_spec _ _ He) as (x & n & _ & -> & Hn & _).
  eauto.
Qed.

(** Whatever is typed, chosen and fetched on the page, starting from its
    initial state, the form never fails to update, and the request it holds
    is normalised by the prediction endpoint to five numbers: none of the
    first four is NaN and the drainage code is 1, 2 or 3, so the inherited
    members of [drainageSystemMap] cannot be reached from the page; the
    request is answered with 200 whenever the forest labels that vector.
    (The body of the request is the form itself: JSON carries an object of
    strings unchanged.) *)
Theorem page_request_is_normalised (events : list event) :
  Forall ui_event events ->
  exists inputs a b c d code,
    run events initial_inputs = Ok inputs /\
    input (VObject inputs) = Ok [VNumber a; VNumber b; VNumber c; VNumber d; VNumber code] /\
    is_nan a = false /\ is_nan b = false /\ is_nan c = false /\ is_nan d = false /\
    code ∈ [1; 2; 3]%float /\
    forall rf label,
      predict rf [VNumber a; VNumber b; VNumber c; VNumber d; VNumber code] = Ok label ->
      status (post_predict rf (VObject inputs)) = 200%Z.
Proof.
  intros Hev.
  destruct (run_well_formed events initial_inputs Hev initial_inputs_well_formed)
    as (inputs & Hrun & Hf & o & Ho & Hd).
  destruct (Hf "rainfall") as [s1 H1]; [apply numeric_fields_cases; auto|].
  destruct (Hf "altitude") as [s2 H2]; [apply numeric_fields_cases; auto|].
  destruct (Hf "areaElevation") as [s3 H3]; [apply numeric_fields_cases; auto|].
  destruct (Hf "roadElevation") as [s4 H4]; [apply numeric_fields_cases; auto|].
  destruct (parse_or_0_string s1) as (a & Pa & Na).
  destruct (parse_or_0_string s2) as (b & Pb & Nb).
  destruct (parse_or_0_string s3) as (c & Pc & Nc).
  destruct (parse_or_0_string s4) as (d & Pd & Nd).
  assert (exists code, drainageValue (VString o) = Ok (VNumber code) /\ code ∈ [1; 2; 3]%float)
    as (code & Hcode & Hin).
  { unfold drainage_names in Ho. rewrite !elem_of_cons, elem_of_nil in Ho.
    destruct Ho as [->|[->|[->|[]]]]; eexists;
      (split; [vm_compute; reflexivity|]); rewrite !elem_of_cons; auto. }
  assert (input (VObject inputs)
          = Ok [VNumber a; VNumber b; VNumber c; VNumber d; VNumber code]) as Hin'.
  { unfold input. cbn [get]. rewrite H1, H2, H3, H4, Hd.
    change (default ?x (Some ?v)) with v. cbn [mbind result_bind].
    rewrite Hcode, Pa, Pb, Pc, Pd. reflexivity. }
  exists inputs, a, b, c, d, code. split; [exact Hrun|]. split; [exact Hin'|].
  repeat (split; [assumption|]).
  intros rf label Hp. rewrite (post_predict_ok _ _ _ _ Hin' Hp). reflexivity.
Qed.

Lemma sample_events_ui : Forall ui_event sample_events.
Proof.
  unfold sample_events.
  apply Forall_cons_2. { apply numeric_fields_cases; auto. }
  apply Forall_cons_2. { unfold ui_event, drainage_names. rewrite !elem_of_cons. auto. }
  apply Forall_cons_2. { intros url f [= <-]. unfold sample_server. eauto. }
  apply Forall_cons_2. { apply numeric_fields_cases; auto. }
  apply Forall_nil_2.
Qed.

Lemma page_request_is_normalised_witness :
  Forall ui_event sample_events /\
  exists inputs a b c d code,
    run sample_events initial_inputs = Ok inputs /\
    input (VObject inputs) = Ok [VNumber a; VNumber b; VNumber c; VNumber d; VNumber code] /\
    is_nan a = false /\ is_nan b = false /\ is_nan c = false /\ is_nan d = false /\
    code ∈ [1; 2; 3]%float /\
    forall rf label,
      predict rf [VNumber a; VNumber b; VNumber c; VNumber d; VNumber code] = Ok label ->
      status (post_predict rf (VObject inputs)) = 200%Z.
Proof.
  split; [exact sample_events_ui|].
  apply (page_request_is_normalised sample_events). exact sample_events_ui.
Defined.

(** ** The order of the floats *)

Lemma SFcompare_rank (x y : spec_float) :
  SFcompare x y =
    match x, y with
    | S754_nan, _ | _, S754_nan => None
    | _, _ => Some (lex_compare (SF_rank x) (SF_rank y))
    end.
Proof.
  destruct x as [s|s| |s m e], y as [t|t| |t q f]; try reflexivity;
    try (destruct s; reflexivity); try (destruct t; reflexivity);
    try (destruct s, t; reflexivity).
  destruct s, t; try reflexivity.
  rewrite SFcompare_finite_neg. unfold SF_rank, lex_compare. cbn [fst snd].
  change (-1 ?= -1)%Z with Eq. rewrite !Z.compare_opp, (Z.compare_antisym e f).
  rewrite (Z.compare_antisym (Zpos m) (Zpos q)).
  destruct (e ?= f)%Z; reflexivity.
Qed.

Lemma lex_compare_lt_le_trans (a b c : Z * Z * Z) :
  lex_compare a b = Lt -> lex_compare b c <> Gt -> lex_compare a c = Lt.
Proof.
  destruct a as [[a1 a2] a3], b as [[b1 b2] b3], c as [[c1 c2] c3].
  unfold lex_compare; cbn [fst snd].
  destruct (Z.compare_spec a1 b1), (Z.compare_spec a2 b2), (Z.compare_spec a3 b3);
    try discriminate;
    destruct (Z.compare_spec b1 c1), (Z.compare_spec b2 c2), (Z.compare_spec b3 c3);
    try congruence; intros _ _;
    destruct (Z.compare_spec a1 c1), (Z.compare_spec a2 c2), (Z.compare_spec a3 c3);
    try reflexivity; lia.
Qed.

Lemma lex_compare_le_lt_trans (a b c : Z * Z * Z) :
  lex_compare a b <> Gt -> lex_compare b c = Lt -> lex_compare a c = Lt.
Proof.
  destruct a as [[a1 a2] a3], b as [[b1 b2] b3], c as [[c1 c2] c3].
  unfold lex_compare; cbn [fst snd].
  destruct (Z.compare_spec a1 b1), (Z.compare_spec a2 b2), (Z.compare_spec a3 b3);
    try congruence;
    destruct (Z.compare_spec b1 c1), (Z.compare_spec b2 c2), (Z.compare_spec b3 c3);
    try discriminate; intros _ _;
    destruct (Z.compare_spec a1 c1), (Z.compare_spec a2 c2), (Z.compare_spec a3 c3);
    try reflexivity; lia.
Qed.

Lemma SFltb_rank (x y : spec_float) :
  SFltb x y = true -> SFcompare x y = Some Lt /\ lex_compare (SF_rank x) (SF_rank y) = Lt.
Proof.
  unfold SFltb. rewrite SFcompare_rank.
  destruct x, y; try discriminate;
    (destruct (lex_compare _ _); try discriminate; by split).
Qed.

Lemma SFleb_rank (x y : spec_float) :
  SFleb x y = true ->
  x <> S754_nan /\ y <> S754_nan /\ lex_compare (SF_rank x) (SF_rank y) <> Gt.
Proof.
  unfold SFleb. rewrite SFcompare_rank.
  destruct x, y; try discriminate;
    (destruct (lex_compare _ _); try discriminate; by repeat split).
Qed.

Lemma SFltb_leb_trans (x y z : spec_float) :
  SFltb x y = true -> SFleb y z = true -> SFltb x z = true.
Proof.
  intros [Hc Hxy]%SFltb_rank (Hy & Hz & Hyz)%SFleb_rank.
  pose proof (lex_compare_lt_le_trans _ _ _ Hxy Hyz) as Hxz.
  unfold SFltb. rewrite SFcompare_rank.
  destruct x; try discriminate; destruct z; try congruence; by rewrite Hxz.
Qed.

Lemma SFleb_ltb_trans (x y z : spec_float) :
  SFleb x y = true -> SFltb y z = true -> SFltb x z = true.
Proof.
  intros (Hx & Hy & Hxy)%SFleb_rank [Hc Hyz]%SFltb_rank.
  pose proof (lex_compare_le_lt_trans _ _ _ Hxy Hyz) as Hxz.
  unfold SFltb. rewrite SFcompare_rank.
  destruct x; try congruence; destruct z; try (by destruct y); by rewrite Hxz.
Qed.

Lemma ltb_leb_trans (x y z : float) :
  (x <? y)%float = true -> (y <=? z)%float = true -> (x <? z)%float = true.
Proof.
  rewrite !FloatAxioms.ltb_spec, FloatAxioms.leb_spec. apply SFltb_leb_trans.
Qed.

Lemma leb_ltb_trans (x y z : float) :
  (x <=? y)%float = true -> (y <? z)%float = true -> (x <? z)%float = true.
Proof.
  rewrite !FloatAxioms.ltb_spec, FloatAxioms.leb_spec. apply SFleb_ltb_trans.
Qed.

(** ** The risk level grows with the probability *)

(** [riskLevel] is monotone: a probability that is at least another one has
    at least its tier. *)
Theorem riskLevel_monotone (p q : float) :
  (p <=? q)%float = true -> (tier (riskLevel p) <= tier (riskLevel q))%nat.
Proof.
  intros Hpq. unfold riskLevel.
  destruct (0.7 <? p)%float eqn:H7.
  - rewrite (ltb_leb_trans _ _ _ H7 Hpq). reflexivity.
  - destruct (0.4 <? p)%float eqn:H4.
    + rewrite (ltb_leb_trans _ _ _ H4 Hpq).
      destruct (0.7 <? q)%float; cbn; lia.
    + cbn. lia.
Qed.

Lemma riskLevel_monotone_witness :
  (0.41 <=? 0.69)%float = true /\
  (tier (riskLevel 0.41) <= tier (riskLevel 0.69))%nat.
Proof.
  split; [reflexivity|].
  apply (riskLevel_monotone 0.41 0.69). reflexivity.
Defined.

(** ** Products with a number of the unit interval *)

Section Products.

Local Open Scope Z_scope.

(** A number between 0 and 1, both included. *)
Lemma unit_closed_SF (X : spec_float) :
  valid_binary X = true ->
  SFleb (S754_zero false) X = true -> SFleb X (pow2_SF 0) = true ->
  (exists s, X = S754_zero s) \/
  (exists p e, X = S754_finite false p e /\ bounded prec emax p e = true /\
     e <= 0 /\ Zpos p <= 2 ^ (- e)).
Proof.
  intros Hv Hle Hlt. destruct X as [s|s| |s p e].
  - left. by exists s.
  - destruct s; discriminate.
  - discriminate.
  - right. destruct s; [discriminate|]. exists p, e. split; [done|].
    cbn [valid_binary] in Hv. change (SpecFloat.valid_binary prec emax (S754_finite false p e))
      with (bounded prec emax p e) in Hv.
    split; [done|].
    destruct (bounded_spec _ _ Hv) as (He & Hp & Hn).
    unfold SFleb, pow2_SF in Hlt. rewrite SFcompare_finite_pos in Hlt.
    change (0 - 52) with (-52) in Hlt.
    destruct (Z.compare_spec e (-52)) as [->|Hlt'|?]; [| |discriminate].
    + split; [lia|]. change (2 ^ (- -52)) with 4503599627370496.
      destruct (Z.compare_spec (Zpos p) 4503599627370496) as [Heq|Hlt2|];
        try discriminate; [clear -Heq|clear -Hlt2]; lia.
    + split; [lia|].
      assert (2 ^ 53 <= 2 ^ (- e)) by (apply Z.pow_le_mono_r; lia). lia.
Qed.

(** Two canonical positive floats compare as their values do. *)
Lemma scaled_le_SFleb (p q : positive) (e f : Z) :
  bounded prec emax p e = true -> bounded prec emax q f = true ->
  scaled (Zpos p) e <= scaled (Zpos q) f ->
  SFleb (S754_finite false p e) (S754_finite false q f) = true.
Proof.
  intros (He & Hp & Hn)%bounded_spec (Hf & Hq & _)%bounded_spec Hs.
  unfold SFleb. rewrite SFcompare_finite_pos. unfold scaled in Hs.
  destruct (Z.compare_spec e f) as [->|Hlt|Hgt]; [|reflexivity|exfalso].
  - assert (0 < 2 ^ (f + 2200)) by (apply Z.pow_pos_nonneg; lia).
    assert (Zpos p <= Zpos q) as Hpq by nia.
    destruct (Z.compare_spec (Zpos p) (Zpos q)); try reflexivity. lia.
  - assert (2 ^ 52 <= Zpos p) as Hp2 by (apply Hn; lia).
    assert (2 ^ (f + 2201) <= 2 ^ (e + 2200)) by (apply Z.pow_le_mono_r; lia).
    assert (2 ^ (f + 2201) = 2 * 2 ^ (f + 2200)) as Hf2.
    { rewrite <- (Z.pow_succ_r 2 (f + 2200)) by lia. f_equal. lia. }
    assert (0 < 2 ^ (f + 2200)) by (apply Z.pow_pos_nonneg; lia).
    change (2 ^ 53) with 9007199254740992 in *. change (2 ^ 52) with 4503599627370496 in *.
    nia.
Qed.

(** The product of a number of the unit interval and a positive constant
    is at most the constant: the rounding cannot pass it. *)
Lemma mul_unit_bound (p mc : positive) (e ec : Z) :
  bounded prec emax p e = true -> bounded prec emax mc ec = true ->
  e <= 0 -> Zpos p <= 2 ^ (- e) ->
  exists m2 e2,
    0 <= m2 /\ -2200 <= e2 /\ scaled m2 e2 <= scaled (Zpos mc) ec /\
    SFmul prec emax (S754_finite false p e) (S754_finite false mc ec) = SF_of false m2 e2.
Proof.
  intros Hb Hbc He Hp.
  destruct (bounded_spec _ _ Hb) as (He' & _ & _).
  destruct (bounded_spec _ _ Hbc) as (Hec & _ & _).
  assert (Zdigits2 (Zpos mc) + ec - 53 <= ec) as Hcan.
  { unfold bounded, canonical_mantissa in Hbc.
    apply andb_true_iff in Hbc as [Hc _]. apply Z.eqb_eq in Hc.
    rewrite fexp64 in Hc. change (Zpos (digits2_pos mc)) with (Zdigits2 (Zpos mc)) in Hc.
    lia. }
  unfold SFmul. cbn [xorb]. rewrite Pos2Z.inj_mul.
  assert (0 < 2 ^ (- e)) by (apply Z.pow_pos_nonneg; lia).
  assert (0 < 2 ^ (e + ec + 2200)) by (apply Z.pow_pos_nonneg; lia).
  assert (2 ^ (ec + 2200) = 2 ^ (- e) * 2 ^ (e + ec + 2200)) as Hsplit.
  { rewrite <- Z.pow_add_r by lia. f_equal. lia. }
  apply binary_round_aux_bound.
  - lia.
  - lia.
  - unfold scaled. rewrite Hsplit.
    rewrite (Z.mul_comm (Zpos p) (Zpos mc)), <- !Z.mul_assoc.
    apply Z.mul_le_mono_nonneg_l; [lia|].
    apply Z.mul_le_mono_nonneg_r; lia.
  - unfold scaled. apply pow2_divide. rewrite fexp64.
    assert (Zdigits2 (Zpos p * Zpos mc) <= - e + Zdigits2 (Zpos mc)) as Hd.
    { apply Zdigits2_le; [lia|].
      pose proof (Zdigits2_bounds (Zpos mc) ltac:(lia)) as [_ Hu].
      pose proof (Zdigits2_pos (Zpos mc) ltac:(lia)).
      rewrite Z.pow_add_r by lia.
      assert (0 < 2 ^ Zdigits2 (Zpos mc)) by (apply Z.pow_pos_nonneg; lia).
      nia. }
    lia.
Qed.

Lemma mul_unit_SF (X : spec_float) (mc : positive) (ec : Z) :
  valid_binary X = true -> bounded prec emax mc ec = true -> ec <= 900 ->
  SFleb (S754_zero false) X = true -> SFleb X (pow2_SF 0) = true ->
  valid_binary (SFmul prec emax X (S754_finite false mc ec)) = true ->
  SFleb (S754_zero false) (SFmul prec emax X (S754_finite false mc ec)) = true /\
  SFleb (SFmul prec emax X (S754_finite false mc ec)) (S754_finite false mc ec) = true.
Proof.
  intros Hv Hbc Hec H0 H1 Hvm.
  destruct (unit_closed_SF X Hv H0 H1) as [[s ->]|(p & e & -> & Hb & He & Hp)].
  - cbn [SFmul]. split; reflexivity.
  - destruct (mul_unit_bound p mc e ec Hb Hbc He Hp) as (m2 & e2 & Hm2 & He2 & Hs & Heq).
    rewrite Heq in *.
    destruct (bounded_spec _ _ Hbc) as (Hec' & Hmc & _).
    assert (scaled m2 e2 < 2 ^ (ec + 2253)) as Hlt.
    { unfold scaled in *.
      assert (2 ^ (ec + 2253) = 2 ^ 53 * 2 ^ (ec + 2200)) as ->.
      { rewrite <- Z.pow_add_r by lia. f_equal. lia. }
      assert (0 < 2 ^ (ec + 2200)) by (apply Z.pow_pos_nonneg; lia).
      nia. }
    destruct (SF_of_cases false m2 e2 (ec + 2253) Hm2 He2 Hlt ltac:(lia))
      as [Hz|(p2 & -> & Hf)]; rewrite ?Hz, ?Hf in *.
    + split; reflexivity.
    + split; [reflexivity|].
      apply scaled_le_SFleb; [exact Hvm|exact Hbc|exact Hs].
Qed.

End Products.

Lemma ltb_leb (x y : float) : (x <? y)%float = true -> (x <=? y)%float = true.
Proof.
  rewrite FloatAxioms.ltb_spec, FloatAxioms.leb_spec. unfold SFltb, SFleb.
  destruct (SFcompare _ _) as [[]|]; done.
Qed.

(** For [r] between 0 and 1 and a positive constant [c] (below [2^953]),
    the product [r * c] lies between 0 and [c]. *)
Lemma mul_unit_range (r c : float) (mc : positive) (ec : Z) :
  Prim2SF c = S754_finite false mc ec -> (ec <= 900)%Z ->
  (0 <=? r)%float = true -> (r <=? 1)%float = true ->
  (0 <=? r * c)%float = true /\ (r * c <=? c)%float = true.
Proof.
  intros Hc Hec H0 H1.
  pose proof (Prim2SF_valid r) as Hv.
  pose proof (Prim2SF_valid c) as Hvc.
  pose proof (Prim2SF_valid (r * c)) as Hvm.
  rewrite !FloatAxioms.leb_spec in *. rewrite mul_spec in *. rewrite Hc in *.
  change (Prim2SF 0) with (S754_zero false) in *.
  change (Prim2SF 1) with (pow2_SF 0) in H1.
  by apply mul_unit_SF.
Qed.

(** A number between 0 and a constant below [1e21] is below [1e21] in
    magnitude. *)
Lemma abs_below_1e21 (x c : float) :
  (0 <=? x)%float = true -> (x <=? c)%float = true -> (c <? 1e21)%float = true ->
  (abs x <? 1e21)%float = true.
Proof.
  intros H0 Hc Hlt. pose proof (leb_ltb_trans _ _ _ Hc Hlt) as Hx.
  revert H0 Hx. rewrite FloatAxioms.leb_spec, !FloatAxioms.ltb_spec, abs_spec.
  change (Prim2SF 0) with (S754_zero false).
  destruct (Prim2SF x) as [s|s| |s m e]; try done.
  - destruct s; done.
  - destruct s; done.
Qed.

(** ** The random values of the client's fallback *)

(** For draws of [Math.random()] in the unit interval, each of the four
    fields the [catch] of [fetchAutoData] fills is [toFixed(1)] of a number
    between 0 and its factor (50 for the rainfall, 100 for the three
    others), written with one decimal place. *)
Theorem fallback_values_in_range (r1 r2 r3 r4 : float) (prev : gmap string value) :
  (forall r, r ∈ [r1; r2; r3; r4] -> (0 <=? r)%float = true /\ (r <? 1)%float = true) ->
  forall name factor r, (name, factor, r) ∈ fallback_draws r1 r2 r3 r4 ->
    randomised r1 r2 r3 r4 prev !! name = Some (VString (toFixed (r * factor) 1)) /\
    (0 <=? r * factor)%float = true /\ (r * factor <=? factor)%float = true /\
    one_decimal (toFixed (r * factor) 1) = true.
Proof.
  intros Hr name factor r Hin.
  assert ((0 <=? r)%float = true /\ (r <=? 1)%float = true /\
          (exists mc ec, Prim2SF factor = S754_finite false mc ec /\ (ec <= 900)%Z) /\
          (factor <? 1e21)%float = true /\
          randomised r1 r2 r3 r4 prev !! name = Some (VString (toFixed (r * factor) 1)))
    as (H0 & H1 & (mc & ec & Hc & Hec) & Hf & Hl).
  { unfold fallback_draws in Hin. rewrite !elem_of_cons, elem_of_nil in Hin.
    destruct Hin as [[= -> -> ->]|[[= -> -> ->]|[[= -> -> ->]|[[= -> -> ->]|[]]]]];
      (lazymatch goal with
       | |- (0 <=? ?x)%float = true /\ _ =>
           destruct (Hr x) as [Ha Hb]; [rewrite !elem_of_cons; auto|]
       end;
       split; [exact Ha|]; split; [by apply ltb_leb|];
       split; [eexists; eexists; split; [vm_compute; reflexivity|by vm_compute]|];
       split; [reflexivity|]; rewrite randomised_lookup; reflexivity). }
  destruct (mul_unit_range r factor mc ec Hc Hec H0 H1) as [Hlo Hhi].
  split; [exact Hl|]. split; [exact Hlo|]. split; [exact Hhi|].
  apply toFixed_one_decimal. exact (abs_below_1e21 _ _ Hlo Hhi Hf).
Qed.

Lemma sample_draws (r : float) :
  r ∈ [0.5; 0.25; 0.75; 0.999]%float -> (0 <=? r)%float = true /\ (r <? 1)%float = true.
Proof.
  rewrite !elem_of_cons, elem_of_nil.
  intros [->|[->|[->|[->|[]]]]]; split; reflexivity.
Qed.

Lemma fallback_values_in_range_witness :
  (forall r, r ∈ [0.5; 0.25; 0.75; 0.999]%float ->
     (0 <=? r)%float = true /\ (r <? 1)%float = true) /\
  forall name factor r, (name, factor, r) ∈ fallback_draws 0.5 0.25 0.75 0.999 ->
    randomised 0.5 0.25 0.75 0.999 initial_inputs !! name
      = Some (VString (toFixed (r * factor) 1)) /\
    (0 <=? r * factor)%float = true /\ (r * factor <=? factor)%float = true /\
    one_decimal (toFixed (r * factor) 1) = true.
Proof.
  split; [exact sample_draws|].
  apply (fallback_values_in_range 0.5 0.25 0.75 0.999 initial_inputs).
  exact sample_draws.
Defined.

(** ** The text of [toFixed(f)] *)

Lemma length_append (s t : string) :
  String.length (s +:+ t) = (String.length s + String.length t)%nat.
Proof.
  induction s as [|c s IH]; [reflexivity|].
  rewrite append_cons. cbn [String.length]. by rewrite IH.
Qed.

Lemma length_zeros (n : nat) : String.length (zeros n) = n.
Proof. induction n as [|n IH]; [reflexivity|]. cbn [zeros String.length]. by rewrite IH. Qed.

Lemma all_digits_zeros (n : nat) : all_digits (zeros n) = true.
Proof. induction n as [|n IH]; [reflexivity|exact IH]. Qed.

Lemma all_digits_append (s t : string) :
  all_digits (s +:+ t) = all_digits s && all_digits t.
Proof.
  induction s as [|c s IH]; [reflexivity|].
  rewrite append_cons. cbn [all_digits]. by rewrite IH, andb_assoc.
Qed.

Lemma length_substring (n m : nat) (s : string) :
  (n + m <= String.length s)%nat -> String.length (substring n m s) = m.
Proof.
  revert n m. induction s as [|c s IH]; intros n m H; cbn [String.length] in H.
  - assert (n = 0 /\ m = 0)%nat as [-> ->] by lia. reflexivity.
  - destruct n as [|n].
    + destruct m as [|m]; [reflexivity|].
      rewrite substring_0_S. cbn [String.length]. f_equal. apply IH. lia.
    + rewrite substring_S. apply IH. lia.
Qed.

Lemma all_digits_substring (n m : nat) (s : string) :
  all_digits s = true -> all_digits (substring n m s) = true.
Proof.
  revert n m. induction s as [|c s IH]; intros n m H.
  - destruct n, m; reflexivity.
  - cbn [all_digits] in H. apply andb_true_iff in H as [Hc Hs].
    destruct n as [|n].
    + destruct m as [|m]; [reflexivity|].
      rewrite substring_0_S. cbn [all_digits]. rewrite Hc. by apply IH.
    + rewrite substring_S. by apply IH.
Qed.

Lemma span_digits_point (ip fp : string) :
  all_digits ip = true -> span_digits (ip +:+ String "." fp) = (ip, String "." fp).
Proof.
  induction ip as [|c ip IH]; intros H; [reflexivity|].
  cbn [all_digits] in H. apply andb_true_iff in H as [Hc Hs].
  rewrite append_cons. cbn [span_digits]. rewrite Hc, (IH Hs). reflexivity.
Qed.

Lemma decimals_layout (neg : bool) (ip fp : string) :
  all_digits ip = true -> (1 <= String.length ip)%nat -> all_digits fp = true ->
  decimals (String.length fp) ((if neg then "-" else "") +:+ ip +:+ "." +:+ fp) = true.
Proof.
  intros Hip Hlen Hfp.
  assert (decimals (String.length fp) (ip +:+ String "." fp) = true) as Hpos.
  { unfold decimals. destruct ip as [|c ip']; [cbn in Hlen; lia|].
    rewrite append_cons.
    assert (Ascii.eqb c "-" = false) as ->.
    { cbn [all_digits] in Hip. apply andb_true_iff in Hip as [Hc _].
      destruct (Ascii.eqb_spec c "-") as [->|]; [discriminate|reflexivity]. }
    rewrite <- append_cons, (span_digits_point _ _ Hip).
    cbn [String.eqb negb andb]. rewrite Hfp, Nat.eqb_refl. reflexivity. }
  destruct neg; [|exact Hpos].
  unfold decimals.
  change ("-" +:+ ip +:+ "." +:+ fp) with (String "-" (ip +:+ String "." fp)).
  cbn [Ascii.eqb Bool.eqb]. rewrite (span_digits_point _ _ Hip).
  destruct ip as [|c ip']; [cbn in Hlen; lia|].
  cbn [String.eqb negb andb]. rewrite Hfp, Nat.eqb_refl. reflexivity.
Qed.

(** The fraction of a float below [1e21]. *)
Lemma ratio_below_1e21 (m : positive) (e : Z) :
  bounded prec emax m e = true ->
  SFltb (S754_finite false m e) (S754_finite false 7629394531250000 17) = true ->
  exists a b, ratio m e = (a, b) /\ (a < 10 ^ 21 * b)%Z.
Proof.
  intros Hv. unfold SFltb. rewrite SFcompare_finite_pos. intros Hlt.
  destruct (bounded_spec m e Hv) as (He & Hm & _).
  assert ((e < 17 \/ e = 17 /\ Zpos m < 7629394531250000)%Z) as Hcmp.
  { destruct (Z.compare_spec e 17) as [->|?|?]; [right|left; lia|discriminate].
    split; [done|]. by destruct (Z.compare_spec (Zpos m) 7629394531250000). }
  clear Hlt Hv.
  unfold ratio. destruct (Z.leb_spec 0 e) as [Hpos|Hneg]; eexists; eexists;
    (split; [reflexivity|]).
  - destruct Hcmp as [Hlt|[-> Hlt]].
    + assert (2 ^ e <= 2 ^ 16)%Z by (apply Z.pow_le_mono_r; lia).
      assert (0 < 2 ^ e)%Z by (apply Z.pow_pos_nonneg; lia).
      change (2 ^ 16)%Z with 65536%Z in *. change (2 ^ 53)%Z with 9007199254740992%Z in *.
      change (10 ^ 21)%Z with 1000000000000000000000%Z. nia.
    + change (2 ^ 17)%Z with 131072%Z. change (10 ^ 21)%Z with 1000000000000000000000%Z. lia.
  - assert (0 < 2 ^ (- e))%Z by (apply Z.pow_pos_nonneg; lia).
    change (2 ^ 53)%Z with 9007199254740992%Z in *.
    change (10 ^ 21)%Z with 1000000000000000000000%Z. nia.
Qed.

(** Below [1e21] in magnitude, [toFixed(f)] writes exactly [f] decimal
    places, for every [f] from 1 on. *)
Lemma toFixed_decimals (x : float) (f : nat) :
  (1 <= f)%nat -> (abs x <? 1e21)%float = true -> decimals f (toFixed x f) = true.
Proof.
  intros Hf. rewrite FloatAxioms.ltb_spec, abs_spec.
  change (Prim2SF 1e21) with (S754_finite false 7629394531250000 17).
  pose proof (Prim2SF_valid x) as Hv. unfold toFixed.
  destruct f as [|f']; [lia|]. set (f := S f') in *.
  destruct (Prim2SF x) as [s|s| |s m e]; try discriminate.
  - intros _.
    pose proof (decimals_layout false "0" (zeros f) eq_refl ltac:(cbn; lia)
                  (all_digits_zeros f)) as H.
    rewrite length_zeros in H. exact H.
  - cbn [SFabs]. intros Hlt.
    destruct (ratio_below_1e21 m e Hv Hlt) as (a & b & -> & Hab).
    destruct (Z.leb_spec (10 ^ 21 * b) a) as [|_]; [lia|].
    set (n := ((2 * a * 10 ^ Z.of_nat f + b) / (2 * b))%Z).
    destruct (Z_to_string_digits n) as [Hd Hl].
    set (ds0 := Z_to_string n) in *.
    set (ds := if (String.length ds0 <=? f)%nat
               then zeros (f + 1 - String.length ds0) +:+ ds0 else ds0).
    assert (all_digits ds = true /\ (f + 1 <= String.length ds)%nat) as [Hds Hlen].
    { unfold ds. destruct (Nat.leb_spec (String.length ds0) f) as [H1|H1].
      - rewrite all_digits_append, all_digits_zeros, Hd, length_append, length_zeros.
        split; [reflexivity|lia].
      - split; [exact Hd|lia]. }
    set (k := String.length ds) in *.
    pose proof (decimals_layout s (substring 0 (k - f) ds) (substring (k - f) f ds)
                  (all_digits_substring _ _ _ Hds)) as H.
    rewrite !length_substring in H by (unfold k; lia).
    apply H; [lia|]. by apply all_digits_substring.
Qed.

(** ** The text of the probability *)

(** When the flood probability [p] the handler uses lies between 0 and 1, as
    a probability does, the percentage [p * 100] lies between 0 and 100, the
    rounding of the product included, and the answer gives it as
    [toFixed(2)] of that product, written with exactly two decimal places. *)
Theorem probability_has_two_decimals
    (rf : classifier) (body : value) (inp : list value) (prediction : float) :
  input body = Ok inp -> predict rf inp = Ok prediction ->
  (0 <=? floodProb rf inp prediction)%float = true ->
  (floodProb rf inp prediction <=? 1)%float = true ->
  field (post_predict rf body) "probability"
    = Some (VString (toFixed (floodProb rf inp prediction * 100) 2)) /\
  (0 <=? floodProb rf inp prediction * 100)%float = true /\
  (floodProb rf inp prediction * 100 <=? 100)%float = true /\
  decimals 2 (toFixed (floodProb rf inp prediction * 100) 2) = true.
Proof.
  intros Hi Hp H0 H1. rewrite (post_predict_ok _ _ _ _ Hi Hp).
  destruct (predict_ok_fields prediction (floodProb rf inp prediction)) as (_ & _ & -> & _).
  destruct (mul_unit_range (floodProb rf inp prediction) 100 7036874417766400 (-46)
              eq_refl ltac:(lia) H0 H1) as [Hlo Hhi].
  split; [reflexivity|]. split; [exact Hlo|]. split; [exact Hhi|].
  apply toFixed_decimals; [lia|].
  exact (abs_below_1e21 _ 100 Hlo Hhi eq_refl).
Qed.

Lemma probability_has_two_decimals_witness :
  (input sample_body = Ok [VNumber 200; VNumber 5; VNumber 2; VNumber 1; VNumber 1] /\
   predict forest_with_probabilities
     [VNumber 200; VNumber 5; VNumber 2; VNumber 1; VNumber 1] = Ok 1%float /\
   (0 <=? floodProb forest_with_probabilities
            [VNumber 200; VNumber 5; VNumber 2; VNumber 1; VNumber 1] 1)%float = true /\
   (floodProb forest_with_probabilities
      [VNumber 200; VNumber 5; VNumber 2; VNumber 1; VNumber 1] 1 <=? 1)%float = true) /\
  field (post_predict forest_with_probabilities sample_body) "probability"
    = Some (VString (toFixed (floodProb forest_with_probabilities
                                [VNumber 200; VNumber 5; VNumber 2; VNumber 1; VNumber 1] 1
                              * 100) 2)) /\
  (0 <=? floodProb forest_with_probabilities
           [VNumber 200; VNumber 5; VNumber 2; VNumber 1; VNumber 1] 1 * 100)%float = true /\
  (floodProb forest_with_probabilities
     [VNumber 200; VNumber 5; VNumber 2; VNumber 1; VNumber 1] 1 * 100 <=? 100)%float = true /\
  decimals 2 (toFixed (floodProb forest_with_probabilities
                         [VNumber 200; VNumber 5; VNumber 2; VNumber 1; VNumber 1] 1
                       * 100) 2) = true.
Proof.
  split; [split; [exact sample_input|repeat split; reflexivity]|].
  apply (probability_has_two_decimals forest_with_probabilities sample_body
           [VNumber 200; VNumber 5; VNumber 2; VNumber 1; VNumber 1] 1%float).
  - exact sample_input.
  - reflexivity.
  - reflexivity.
  - reflexivity.
Defined.

Lemma drainageValue_inherited_witness :
  "hasOwnProperty" ∈ Object_prototype_names /\
  exists name, drainageValue (VString "hasOwnProperty") = Ok (VNative name).
Proof.
  assert ("hasOwnProperty" ∈ Object_prototype_names) as H.
  { unfold Object_prototype_names. rewrite !elem_of_cons. auto. }
  split; [exact H|]. exact (drainageValue_inherited "hasOwnProperty" H).
Defined.

(** ** What [parseFloat] reads *)

Ltac ascii_cases c :=
  destruct c as [[] [] [] [] [] [] [] []]; try reflexivity; try discriminate.

Lemma trim_start_app (ws t : string) :
  all_white ws = true -> starts is_white t = false -> trim_start (ws +:+ t) = t.
Proof.
  intros Hws Ht. induction ws as [|c ws IH].
  - rewrite append_nil. destruct t as [|c r]; [reflexivity|].
    cbn [starts] in Ht. cbn [trim_start]. by rewrite Ht.
  - cbn [all_white] in Hws. apply andb_true_iff in Hws as [Hc Hws].
    rewrite append_cons. cbn [trim_start]. rewrite Hc. by apply IH.
Qed.

Lemma span_digits_app (ds tail : string) :
  all_digits ds = true -> starts is_digit tail = false ->
  span_digits (ds +:+ tail) = (ds, tail).
Proof.
  intros Hds Ht. induction ds as [|c ds IH].
  - rewrite append_nil. destruct tail as [|c r]; [reflexivity|].
    cbn [starts] in Ht. cbn [span_digits]. by rewrite Ht.
  - cbn [all_digits] in Hds. apply andb_true_iff in Hds as [Hc Hds].
    rewrite append_cons. cbn [span_digits]. rewrite Hc, (IH Hds). reflexivity.
Qed.

Lemma span_digits_none (s : string) : starts is_digit s = false -> span_digits s = ("", s).
Proof. intros H. by apply (span_digits_app "" s). Qed.

Lemma prefix_Infinity (c : ascii) (r : string) :
  Ascii.eqb c "I" = false -> String.prefix "Infinity" (String c r) = false.
Proof.
  intros Hc. cbn [String.prefix].
  destruct (ascii_dec "I" c) as [<-|]; [discriminate|reflexivity].
Qed.

(** The places where the parser looks at one character. *)
Lemma sign_step (c : ascii) (r : string) :
  decimal_literal (String c r) =
    if Ascii.eqb c "+" then unsigned_literal false r
    else if Ascii.eqb c "-" then unsigned_literal true r
    else unsigned_literal false (String c r).
Proof. ascii_cases c. Qed.

Lemma point_step (r1 : string) :
  match r1 with
  | String "."%char t => span_digits t
  | _ => ("", r1)
  end =
  match r1 with
  | String c t => if is_point c then span_digits t else ("", r1)
  | EmptyString => ("", r1)
  end.
Proof. destruct r1 as [|c r]; [reflexivity|]. ascii_cases c. Qed.

Lemma exponent_sign_step (r : string) :
  match r with
  | String "+"%char t => (false, t)
  | String "-"%char t => (true, t)
  | _ => (false, r)
  end =
  match r with
  | String c t =>
      if Ascii.eqb c "+" then (false, t) else if Ascii.eqb c "-" then (true, t) else (false, r)
  | EmptyString => (false, r)
  end.
Proof. destruct r as [|c r]; [reflexivity|]. ascii_cases c. Qed.

Lemma exponent_part_step (s : string) :
  exponent_part s =
    match s with
    | String c r =>
        if is_exponent_letter c then
          let (neg, r') := match r with
                           | String d t =>
                               if Ascii.eqb d "+" then (false, t)
                               else if Ascii.eqb d "-" then (true, t) else (false, r)
                           | EmptyString => (false, r)
                           end in
          let (ds, _) := span_digits r' in
          if String.eqb ds "" then 0%Z
          else if neg then (- digits_value ds)%Z else digits_value ds
        else 0%Z
    | EmptyString => 0%Z
    end.
Proof.
  destruct s as [|c r]; [reflexivity|]. unfold exponent_part.
  rewrite exponent_sign_step.
  assert (bool_decide (c = "e"%char \/ c = "E"%char) = is_exponent_letter c) as ->;
    [|reflexivity].
  unfold is_exponent_letter. case_bool_decide as H.
  - destruct H as [->| ->]; reflexivity.
  - destruct (Ascii.eqb_spec c "e"); [tauto|]. destruct (Ascii.eqb_spec c "E"); [tauto|].
    reflexivity.
Qed.

Lemma digit_is_no_mark (c : ascii) :
  is_digit c = true ->
  is_white c = false /\ is_sign c = false /\ is_point c = false /\
  is_exponent_letter c = false /\ Ascii.eqb c "I" = false.
Proof. destruct c as [[] [] [] [] [] [] [] []]; try discriminate; intros _; by vm_compute. Qed.

Lemma exponent_part_none (s : string) : starts_exponent s = false -> exponent_part s = 0%Z.
Proof.
  intros H. rewrite exponent_part_step. destruct s as [|c r]; [reflexivity|].
  cbn [starts_exponent] in H. destruct (is_exponent_letter c); [|reflexivity].
  cbn [andb] in H. apply orb_false_iff in H as [Hd Hs].
  destruct r as [|d r']; [reflexivity|]. cbn [starts] in Hd.
  unfold is_sign in Hs.
  destruct (Ascii.eqb d "+") eqn:Hp; [|destruct (Ascii.eqb d "-") eqn:Hm].
  - cbn [orb andb] in Hs. by rewrite (span_digits_none _ Hs).
  - cbn [orb andb] in Hs. by rewrite (span_digits_none _ Hs).
  - rewrite span_digits_none; [reflexivity|exact Hd].
Qed.

Lemma exponent_part_some (upper : bool) (m : sign_mark) (ds rest : string) :
  all_digits ds = true -> String.eqb ds "" = false -> starts is_digit rest = false ->
  exponent_part (exponent_text (Some (upper, m, ds)) rest)
  = if negative m then (- digits_value ds)%Z else digits_value ds.
Proof.
  intros Hds Hne Hrest. rewrite exponent_part_step. cbn [exponent_text].
  assert (is_exponent_letter (if upper then "E" else "e")%char = true) as ->
    by by destruct upper.
  assert (span_digits (ds +:+ rest) = (ds, rest)) as Hspan by by apply span_digits_app.
  destruct m; cbn [sign_text negative].
  - rewrite append_nil. destruct ds as [|d ds']; [discriminate|].
    rewrite append_cons in *. cbn [all_digits] in Hds.
    apply andb_true_iff in Hds as [Hd _].
    destruct (digit_is_no_mark d Hd) as (_ & Hs & _). unfold is_sign in Hs.
    apply orb_false_iff in Hs as [-> ->]. rewrite Hspan, Hne. reflexivity.
  - change ("+" +:+ ds +:+ rest) with (String "+" (ds +:+ rest)).
    cbv iota. change (Ascii.eqb "+" "+") with true. cbv iota.
    rewrite Hspan, Hne. reflexivity.
  - change ("-" +:+ ds +:+ rest) with (String "-" (ds +:+ rest)).
    cbv iota. change (Ascii.eqb "-" "+") with false. change (Ascii.eqb "-" "-") with true.
    cbv iota. rewrite Hspan, Hne. reflexivity.
Qed.

Lemma unsigned_literal_parts (neg : bool) (s ip r1 fp r2 : string) :
  String.prefix "Infinity" s = false ->
  span_digits s = (ip, r1) ->
  match r1 with
  | String c t => if is_point c then span_digits t else ("", r1)
  | EmptyString => ("", r1)
  end = (fp, r2) ->
  unsigned_literal neg s =
    if String.eqb ip "" && String.eqb fp "" then nan
    else decimal neg (digits_value (ip +:+ fp)) (exponent_part r2 - Z.of_nat (String.length fp)).
Proof.
  intros H1 H2 H3. unfold unsigned_literal. rewrite H1, H2, point_step, H3. reflexivity.
Qed.

Lemma exponent_text_start (e : option (bool * sign_mark * string)) (rest : string) :
  e <> None ->
  starts is_digit (exponent_text e rest) = false /\
  starts is_point (exponent_text e rest) = false.
Proof. destruct e as [[[[] m] ds]|]; [by split|by split|congruence]. Qed.

(** The part of a literal after its sign. *)
Lemma unsigned_text_is_read (neg : bool) (l : literal) (rest : string) :
  literal_ok l = true -> continues l rest = false ->
  unsigned_literal neg
    (integer_digits l +:+
     fraction_text (fraction_digits l) (exponent_text (exponent_digits l) rest))
  = decimal neg (digits_value (integer_digits l +:+ fraction_of l))
      (exponent_value l - Z.of_nat (String.length (fraction_of l))).
Proof.
  destruct l as [sg ip fo eo]. unfold literal_ok, continues, fraction_of, exponent_value.
  cbn [integer_digits fraction_digits exponent_digits].
  intros Hok Hc.
  apply andb_true_iff in Hok as [Hok He]. apply andb_true_iff in Hok as [Hok Hne].
  apply andb_true_iff in Hok as [Hip Hfp]. apply negb_true_iff in Hne.
  apply orb_false_iff in Hc as [Hc Hce]. apply orb_false_iff in Hc as [Hd Hcp].
  (* what follows the fraction *)
  assert (starts is_digit (exponent_text eo rest) = false) as Htail_d.
  { destruct eo as [e|]; [by apply exponent_text_start|exact Hd]. }
  assert (exponent_part (exponent_text eo rest) =
          match eo with
          | Some (_, m, ds) => if negative m then (- digits_value ds)%Z else digits_value ds
          | None => 0%Z
          end) as Hexp.
  { destruct eo as [[[u m] ds]|].
    - apply andb_true_iff in He as [Hds Hn]. apply negb_true_iff in Hn.
      by apply exponent_part_some.
    - apply exponent_part_none. by rewrite bool_decide_eq_true_2 in Hce. }
  set (tail := exponent_text eo rest) in *.
  assert (starts is_digit (fraction_text fo tail) = false /\
          match fraction_text fo tail with
          | String c t => if is_point c then span_digits t else ("", fraction_text fo tail)
          | EmptyString => ("", fraction_text fo tail)
          end = (default "" fo, tail)) as [Hfd Hpoint].
  { destruct fo as [f|]; cbn [fraction_text default].
    - split; [reflexivity|]. change (is_point ".") with true. cbv iota.
      by apply span_digits_app.
    - split; [exact Htail_d|].
      assert (starts is_point tail = false) as Hp.
      { subst tail. destruct eo as [e|]; [by apply exponent_text_start|].
        by rewrite !bool_decide_eq_true_2 in Hcp. }
      destruct tail as [|c t]; [reflexivity|]. cbn [starts] in Hp. by rewrite Hp. }
  rewrite (unsigned_literal_parts neg _ ip (fraction_text fo tail) (default "" fo) tail).
  - rewrite Hne, Hexp. reflexivity.
  - destruct ip as [|c ip'].
    + rewrite append_nil. destruct fo as [f|]; [reflexivity|].
      cbn [default] in Hne. discriminate.
    + rewrite append_cons. apply prefix_Infinity.
      cbn [all_digits] in Hip. apply andb_true_iff in Hip as [Hc' _].
      by destruct (digit_is_no_mark c Hc') as (_ & _ & _ & _ & ?).
  - by apply span_digits_app.
  - exact Hpoint.
Qed.

(** What a literal starts with is no white space. *)
Lemma literal_text_start (l : literal) (rest : string) :
  literal_ok l = true -> starts is_white (literal_text l rest) = false.
Proof.
  destruct l as [sg ip fo eo]. unfold literal_ok, literal_text, fraction_of.
  cbn [integer_digits fraction_digits exponent_digits literal_sign].
  intros Hok.
  apply andb_true_iff in Hok as [Hok He]. apply andb_true_iff in Hok as [Hok Hne].
  apply andb_true_iff in Hok as [Hip Hfp]. apply negb_true_iff in Hne.
  destruct sg; [|reflexivity|reflexivity]. cbn [sign_text]. rewrite append_nil.
  destruct ip as [|c ip'].
  - rewrite append_nil. destruct fo as [f|]; [reflexivity|]. discriminate.
  - rewrite append_cons. cbn [starts all_digits] in *.
    apply andb_true_iff in Hip as [Hc _]. by destruct (digit_is_no_mark c Hc).
Qed.

Lemma literal_is_read (l : literal) (rest : string) :
  literal_ok l = true -> continues l rest = false ->
  decimal_literal (literal_text l rest) = literal_value l.
Proof.
  intros Hok Hc. unfold literal_text, literal_value.
  pose proof (unsigned_text_is_read false l rest Hok Hc) as Hpos.
  pose proof (unsigned_text_is_read true l rest Hok Hc) as Hneg.
  destruct (literal_sign l); cbn [sign_text negative].
  - rewrite append_nil, <- Hpos.
    destruct (integer_digits l +:+ _) as [|c r] eqn:Ht; [reflexivity|].
    rewrite sign_step.
    assert (is_sign c = false) as Hs.
    { revert Hok Ht. destruct l as [sg ip fo eo]. unfold literal_ok, fraction_of.
      cbn [integer_digits fraction_digits exponent_digits].
      intros Hok Ht.
      apply andb_true_iff in Hok as [Hok He]. apply andb_true_iff in Hok as [Hok Hne].
      apply andb_true_iff in Hok as [Hip Hfp]. apply negb_true_iff in Hne.
      destruct ip as [|d ip'].
      - rewrite append_nil in Ht. destruct fo as [f|]; [|discriminate].
        cbn [fraction_text] in Ht. by injection Ht as <- _.
      - rewrite append_cons in Ht. injection Ht as <- _.
        cbn [all_digits] in Hip. apply andb_true_iff in Hip as [Hd _].
        by destruct (digit_is_no_mark d Hd) as (_ & ? & _). }
    unfold is_sign in Hs. apply orb_false_iff in Hs as [-> ->]. reflexivity.
  - rewrite <- Hpos. reflexivity.
  - rewrite <- Hneg. reflexivity.
Qed.

Lemma no_number_is_nan (t : string) : starts_number t = false -> decimal_literal t = nan.
Proof.
  unfold starts_number. intros H.
  assert (forall neg u,
    starts is_digit u ||
    match u with
    | String c r => is_point c && starts is_digit r
    | EmptyString => false
    end || String.prefix "Infinity" u = false ->
    unsigned_literal neg u = nan) as Hu.
  { intros neg u Hn. apply orb_false_iff in Hn as [Hn Hinf].
    apply orb_false_iff in Hn as [Hd Hp].
    rewrite (unsigned_literal_parts neg u "" u "" match u with
                                                   | String c t => if is_point c then t else u
                                                   | EmptyString => u
                                                   end); [reflexivity|exact Hinf| |].
    - by apply span_digits_none.
    - destruct u as [|c r]; [reflexivity|]. destruct (is_point c); [|reflexivity].
      cbn [andb] in Hp. by apply span_digits_none. }
  destruct t as [|c r]; [reflexivity|]. rewrite sign_step. unfold is_sign in H.
  destruct (Ascii.eqb c "+"); [by apply Hu|].
  destruct (Ascii.eqb c "-"); [by apply Hu|]. by apply Hu.
Qed.

(** [parseFloat] reads the longest decimal literal at the start of a
    string, after leading white space: for white space [ws], a well-formed
    literal [l] and a [rest] that does not continue it, the string
    [ws ++ l ++ rest] is read as the value of [l], and [parseFloat(..) || 0]
    is that value unless it is zero (then 0).  A string that, after white
    space, starts with no number is read as NaN and coerced to 0. *)
Theorem numeric_prefix_is_read (ws : string) :
  all_white ws = true ->
  (forall (l : literal) (rest : string),
     literal_ok l = true -> continues l rest = false ->
     parseFloat (VString (ws +:+ literal_text l rest)) = Ok (literal_value l) /\
     parse_or_0 (VString (ws +:+ literal_text l rest))
       = Ok (logical_or (VNumber (literal_value l)) (VNumber 0))) /\
  (forall t : string,
     starts is_white t = false -> starts_number t = false ->
     parseFloat (VString (ws +:+ t)) = Ok nan /\
     parse_or_0 (VString (ws +:+ t)) = Ok (VNumber 0)).
Proof.
  intros Hws. split.
  - intros l rest Hok Hc.
    assert (parseFloat (VString (ws +:+ literal_text l rest)) = Ok (literal_value l)) as Hp.
    { unfold parseFloat. cbn [to_string mbind result_bind].
      rewrite trim_start_app by (try apply literal_text_start; done).
      by rewrite literal_is_read. }
    split; [exact Hp|]. unfold parse_or_0. rewrite Hp. reflexivity.
  - intros t Hw Hn.
    assert (parseFloat (VString (ws +:+ t)) = Ok nan) as Hp.
    { unfold parseFloat. cbn [to_string mbind result_bind].
      rewrite trim_start_app by done. by rewrite no_number_is_nan. }
    split; [exact Hp|]. unfold parse_or_0. rewrite Hp. reflexivity.
Qed.

Lemma numeric_prefix_is_read_witness :
  all_white "  " = true /\
  (literal_ok sample_literal = true /\ continues sample_literal " mm" = false) /\
  (literal_ok sample_negative_literal = true /\
   continues sample_negative_literal "e+x" = false) /\
  (starts is_white "abc12" = false /\ starts_number "abc12" = false) /\
  "  " +:+ literal_text sample_literal " mm" = "  3.5e1 mm" /\
  "  " +:+ literal_text sample_negative_literal "e+x" = "  -2.50E-1e+x" /\
  literal_value sample_literal = 35%float /\
  literal_value sample_negative_literal = (-0.25)%float /\
  parse_or_0 (VString ("  " +:+ literal_text sample_literal " mm"))
    = Ok (logical_or (VNumber (literal_value sample_literal)) (VNumber 0)) /\
  parseFloat (VString ("  " +:+ literal_text sample_negative_literal "e+x"))
    = Ok (literal_value sample_negative_literal) /\
  parse_or_0 (VString ("  " +:+ "abc12")) = Ok (VNumber 0).
Proof.
  assert (all_white "  " = true) as Hws by reflexivity.
  assert (literal_ok sample_literal = true /\ continues sample_literal " mm" = false)
    as H1 by (split; reflexivity).
  assert (literal_ok sample_negative_literal = true /\
          continues sample_negative_literal "e+x" = false) as H2 by (split; reflexivity).
  assert (starts is_white "abc12" = false /\ starts_number "abc12" = false)
    as H3 by (split; reflexivity).
  split; [exact Hws|]. split; [exact H1|]. split; [exact H2|]. split; [exact H3|].
  split; [reflexivity|]. split; [reflexivity|].
  split; [vm_compute; reflexivity|]. split; [vm_compute; reflexivity|].
  split; [|split].
  - exact (proj2 (proj1 (numeric_prefix_is_read "  " Hws) sample_literal " mm"
                    (proj1 H1) (proj2 H1))).
  - exact (proj1 (proj1 (numeric_prefix_is_read "  " Hws) sample_negative_literal "e+x"
                    (proj1 H2) (proj2 H2))).
  - exact (proj2 (proj2 (numeric_prefix_is_read "  " Hws) "abc12" (proj1 H3) (proj2 H3))).
Defined.
